(** * Trigger decoding core: crank/cam decoders (Missing-Tooth and Dual-Wheel)

    A shallow embedding of the decoder translation unit and of the
    fixed-point crank maths, with the properties of the specification
    stated and proved over it.

    Target: the source header names the Arduino Mega 2560 (AVR), so
    [int] and [unsigned int] are 16 bits wide, [long] and
    [unsigned long] 32 bits.  Unsigned arithmetic wraps; conversions to
    a signed type and signed overflow are modelled as two's complement
    wrap-around (what avr-gcc produces).

    The program keeps all of its state in global variables.  They are
    modelled as one store from variable names to integers; the
    configuration pages are read-only records. *)

From Stdlib Require Import ZArith Lia List Bool Permutation.
Import ListNotations.
Open Scope Z_scope.

(** ** Fixed-width integers *)

Definition u8 (z : Z) : Z := z mod 2 ^ 8.
Definition u16 (z : Z) : Z := z mod 2 ^ 16.
Definition u32 (z : Z) : Z := z mod 2 ^ 32.
Definition s16 (z : Z) : Z := (z + 2 ^ 15) mod 2 ^ 16 - 2 ^ 15.
Definition s32 (z : Z) : Z := (z + 2 ^ 31) mod 2 ^ 32 - 2 ^ 31.

Definition UINT16_MAX : Z := 65535.

(** [BIT_SET] / [BIT_CHECK] of the firmware: single-bit or / test. *)
Definition BIT_SET (a b : Z) : Z := Z.lor a (Z.shiftl 1 b).
Definition BIT_CHECK (a b : Z) : bool := Z.testbit a b.

(** ** Global variables *)

(** Fields of [currentStatus] used by the decoders. *)
Inductive statuses_field : Set :=
| RPM | crankRPM | startRevolutions | hasSync | status3 | engine
| syncLossCounter | vvt1Angle | vvt2Angle.

Inductive Var : Set :=
| curTime | curGap | curTime2 | curGap2 | curTime3 | curGap3 | targetGap2
| toothCurrentCount
| toothLastToothTime | toothLastSecToothTime | toothLastThirdToothTime
| toothLastMinusOneToothTime | toothLastMinusOneSecToothTime
| toothOneTime | toothOneMinusOneTime
| revolutionOne
| secondaryToothCount | thirdToothCount
| triggerActualTeeth
| triggerFilterTime | triggerSecFilterTime | triggerThirdFilterTime
| decoderState
| microsPerDegree | degreesPerMicro
| triggerToothAngle
| elapsedTime | lastCrankAngleCalc
| revolutionTime
| fixedCrankingOverride
| ignitionEndTooth (ch : nat)
| ignitionEndAngle (ch : nat)
| currentStatus (f : statuses_field).

Definition statuses_field_eq_dec (a b : statuses_field) : {a = b} + {a <> b}.
Proof. decide equality. Defined.

Definition Var_eq_dec (x y : Var) : {x = y} + {x <> y}.
Proof.
  decide equality; try apply Nat.eq_dec; apply statuses_field_eq_dec.
Defined.

Definition Globals : Type := Var -> Z.

(** One call of the external scheduler's [adjustCrankAngle]: ignition
    channel, that channel's end angle, live crank angle. *)
Definition AdjustCall : Type := (nat * Z * Z)%type.

Record State : Type := mkState {
  mem : Globals;
  timingAdjust : list AdjustCall
}.

Definition get (st : State) (x : Var) : Z := mem st x.

Definition set (x : Var) (v : Z) (st : State) : State :=
  mkState (fun y => if Var_eq_dec x y then v else mem st y) (timingAdjust st).

Definition adjustCrankAngle (c : AdjustCall) (st : State) : State :=
  mkState (mem st) (c :: timingAdjust st).

Notation "st # x" := (get st x) (at level 8, left associativity, format "st # x").

(** Zero-initialised globals, as the C runtime leaves them. *)
Definition zeroState : State := mkState (fun _ => 0) [].

(** Two states agree on every variable outside [L]. *)
Definition sameOutside (L : list Var) (a b : State) : Prop :=
  forall x, ~ In x L -> a#x = b#x.

(** ** Configuration pages *)

Definition CRANK_SPEED : Z := 0.
Definition CAM_SPEED : Z := 1.

Inductive sec_trigger : Set :=
| SEC_TRIGGER_SINGLE | SEC_TRIGGER_4_1 | SEC_TRIGGER_POLL
| SEC_TRIGGER_TOYOTA_3 | SEC_TRIGGER_other.

Inductive ign_mode : Set :=
| IGN_MODE_SEQUENTIAL | IGN_MODE_SINGLE | IGN_MODE_other.

Inductive vvt_mode : Set := VVT_MODE_CLOSED_LOOP | VVT_MODE_other.

Inductive inj_layout : Set := INJ_SEQUENTIAL | INJ_other.

Inductive stroke_kind : Set := FOUR_STROKE | TWO_STROKE.

Record config2 : Set := {
  perToothIgn : bool;
  injLayout : inj_layout;
  strokes : stroke_kind
}.

Record config4 : Set := {
  triggerTeeth : Z;
  triggerMissingTeeth : Z;
  TrigSpeed : Z;
  triggerAngle : Z;
  triggerFilter : Z;
  trigPatternSec : sec_trigger;
  StgCycles : Z;
  useResync : Z;
  sparkMode : ign_mode;
  ANGLEFILTER_VVT : Z;
  vvt2CL0DutyAng : Z
}.

Record config6 : Set := {
  vvtEnabled : Z;
  vvtMode : vvt_mode
}.

Record config10 : Set := {
  vvtCL0DutyAng : Z
}.

Record Config : Set := {
  configPage2 : config2;
  configPage4 : config4;
  configPage6 : config6;
  configPage10 : config10
}.

Definition ign_mode_eqb (a b : ign_mode) : bool :=
  match a, b with
  | IGN_MODE_SEQUENTIAL, IGN_MODE_SEQUENTIAL => true
  | IGN_MODE_SINGLE, IGN_MODE_SINGLE => true
  | IGN_MODE_other, IGN_MODE_other => true
  | _, _ => false
  end.

Definition is_closed_loop (m : vvt_mode) : bool :=
  match m with VVT_MODE_CLOSED_LOOP => true | VVT_MODE_other => false end.

(** ** Constants of decoders.h *)

Definition BIT_DECODER_VALID_TRIGGER : Z := 5.
Definition microsPerDegree_Shift : Z := 8.
Definition degreesPerMicro_Shift : Z := 15.
Definition MICROS_PER_MIN : Z := 60000000.

(** [ANGLE_FILTER(input, alpha, prior)] of decoders.h, in [long]. *)
Definition ANGLE_FILTER (input alpha prior : Z) : Z :=
  Z.shiftr (s32 (s32 (input * (256 - alpha)) + s32 (prior * alpha))) 8.

(** ** Fixed-point time/angle conversion (crank maths) *)

(** Modelled from the spec: the macro [RSHIFT_ROUND] is declared in a
    header that is not part of this tree.  The converter is specified
    as a right shift that rounds to nearest, which on [unsigned long]
    operands is the shift of the operand plus half of the divisor. *)
Definition RSHIFT_ROUND (n s : Z) : Z :=
  Z.shiftr (u32 (n + Z.shiftl 1 (s - 1))) s.

Definition angleToTimeMicroSecPerDegree (st : State) (angle : Z) : Z :=
  let micros := u32 (angle * st#microsPerDegree) in
  u32 (RSHIFT_ROUND micros microsPerDegree_Shift).

Definition timeToAngleDegPerMicroSec (st : State) (time : Z) : Z :=
  let degFixed := u32 (time * st#degreesPerMicro) in
  u16 (RSHIFT_ROUND degFixed degreesPerMicro_Shift).

(** ** Reference implementations of helpers that live outside this tree

    They are used to instantiate the decoders at concrete inputs. *)

(** Modelled from the spec: [nudge] is declared in a maths header that
    is not part of this tree.  The end-tooth scheduler is specified to
    clamp the tooth number into the valid tooth-count range, so the
    reference helper clamps [value] into [[lo, hi]]; the fourth
    argument (the amount the caller passes along) is not needed for
    that. *)
Definition nudge_clamp (lo hi value nudgeAmount : Z) : Z :=
  if value <? lo then lo else if value >? hi then hi else value.

(** Modelled from the spec: [UDIV_ROUND_CLOSEST], [udiv_32_16_closest]
    and [div360] are declared in a maths header that is not part of
    this tree.  The RPM estimator is specified to use round-to-nearest
    integer division, the narrow fast path being functionally
    equivalent to the general one. *)
Definition udiv_round_closest (n d : Z) : Z := (n + d / 2) / d.

Definition div360_closest (n : Z) : Z := udiv_round_closest n 360.

(** Modelled from the spec: [HasAnySync] is declared in the globals
    header that is not part of this tree; the estimators are specified
    to require sync, or at least partial (half) sync. *)
Definition hasAnySync (halfSyncBit : Z) (st : State) : bool :=
  negb (st#(currentStatus hasSync) =? 0)
  || BIT_CHECK (st#(currentStatus status3)) halfSyncBit.

(** [r] is an integer nearest to the rational [num / den]. *)
Definition nearestTo (r num den : Z) : Prop := 2 * Z.abs (r * den - num) <= den.

(** ** Variables each routine can write *)

Definition crankAngleWrites : list Var := [lastCrankAngleCalc; elapsedTime].

Definition vvt1Writes : list Var :=
  [lastCrankAngleCalc; elapsedTime; currentStatus vvt1Angle].

Definition secCaptureWrites : list Var := [curTime2; curGap2; toothLastSecToothTime].

Definition secSwitchWrites : list Var :=
  [targetGap2; toothLastMinusOneSecToothTime; secondaryToothCount; revolutionOne;
   triggerSecFilterTime; lastCrankAngleCalc; elapsedTime; currentStatus vvt1Angle].

Definition thirdCaptureWrites : list Var := [curTime3; curGap3; toothLastThirdToothTime].

Definition thirdRecordWrites : list Var :=
  [thirdToothCount; triggerThirdFilterTime; lastCrankAngleCalc; elapsedTime;
   currentStatus vvt2Angle].

Definition priDualWheelWrites : list Var :=
  [curTime; curGap; toothCurrentCount; decoderState; toothLastMinusOneToothTime;
   toothLastToothTime; revolutionOne; toothOneMinusOneTime; toothOneTime;
   currentStatus startRevolutions; triggerFilterTime].

Definition secDualWheelWrites : list Var :=
  [curTime2; curGap2; toothLastSecToothTime; triggerSecFilterTime; toothLastToothTime;
   toothLastMinusOneToothTime; toothCurrentCount; triggerFilterTime;
   currentStatus hasSync; currentStatus syncLossCounter; revolutionOne].

Definition revolutionVars : list Var := [revolutionTime; microsPerDegree; degreesPerMicro].

(** ** Example installations

    Values for the constants that come from outside this tree, two
    wheels and a few states; the properties below do not depend on
    them, they serve to run the decoders on concrete inputs. *)

Definition exampleMaxRpm : Z := 18000.
Definition exampleIgnChannels : nat := 4.
Definition exampleBitEngineCrank : Z := 1.
Definition exampleBitHalfSync : Z := 4.

Definition examplePage2 : config2 :=
  {| perToothIgn := true; injLayout := INJ_other; strokes := FOUR_STROKE |}.

Definition examplePage6 : config6 :=
  {| vvtEnabled := 0; vvtMode := VVT_MODE_other |}.

Definition examplePage10 : config10 := {| vvtCL0DutyAng := 0 |}.

(** Dual wheel: 60 teeth on the crank, one tooth on the cam. *)
Definition dualWheel60 : Config :=
  {| configPage2 := examplePage2;
     configPage4 :=
       {| triggerTeeth := 60; triggerMissingTeeth := 0; TrigSpeed := CRANK_SPEED;
          triggerAngle := 0; triggerFilter := 1; trigPatternSec := SEC_TRIGGER_SINGLE;
          StgCycles := 0; useResync := 1; sparkMode := IGN_MODE_other;
          ANGLEFILTER_VVT := 0; vvt2CL0DutyAng := 0 |};
     configPage6 := examplePage6;
     configPage10 := examplePage10 |}.

(** Missing tooth: a 36-1 wheel on the crank, one tooth on the cam. *)
Definition missingTooth36_1 : Config :=
  {| configPage2 := examplePage2;
     configPage4 :=
       {| triggerTeeth := 36; triggerMissingTeeth := 1; TrigSpeed := CRANK_SPEED;
          triggerAngle := 0; triggerFilter := 1; trigPatternSec := SEC_TRIGGER_SINGLE;
          StgCycles := 0; useResync := 1; sparkMode := IGN_MODE_other;
          ANGLEFILTER_VVT := 0; vvt2CL0DutyAng := 0 |};
     configPage6 := examplePage6;
     configPage10 := examplePage10 |}.

(** Dual wheel in sync at 3000 RPM (20000 us per revolution): tooth 2
    seen at 5000 us on the primary, the cam tooth at 5000 us too. *)
Definition dualWheelRunning : State :=
  set (currentStatus RPM) 3000
  (set (currentStatus hasSync) 1
  (set (currentStatus startRevolutions) 10
  (set revolutionTime 20000
  (set degreesPerMicro 590
  (set microsPerDegree 14222
  (set triggerSecFilterTime 1000
  (set triggerFilterTime 250
  (set toothLastSecToothTime 5000
  (set toothLastToothTime 5000
  (set toothCurrentCount 2
  (set triggerToothAngle 6 zeroState))))))))))).

(** The running dual wheel one revolution later, the last revolution
    having taken 10000 us (6000 RPM). *)
Definition dualWheelFaster : State :=
  set toothOneTime 25000 (set toothOneMinusOneTime 15000 dualWheelRunning).

(** The same with time stamps for a revolution of 3000 us (20000 RPM),
    as corrupt time stamps would give. *)
Definition dualWheelCorrupt : State :=
  set toothOneTime 18000 (set toothOneMinusOneTime 15000 dualWheelRunning).

(** Dual wheel right after set-up: no sync, counter at its default. *)
Definition dualWheelUnsynced : State :=
  set triggerSecFilterTime 833
  (set triggerFilterTime 55
  (set toothCurrentCount 255
  (set triggerToothAngle 6 zeroState))).

(** Dual wheel, the cam tooth seen last and no primary tooth yet. *)
Definition dualWheelZeroCount : State :=
  set toothCurrentCount 0 dualWheelRunning.

(** 36-1 wheel right after set-up: no edge seen on any input yet, the
    secondary filter at its start-up value, the tertiary filter still
    zero. *)
Definition missingToothFresh : State :=
  set triggerSecFilterTime 3333
  (set triggerActualTeeth 35
  (set triggerToothAngle 10 zeroState)).

(** 36-1 wheel at tooth 1 with the speed of 6000 RPM stored, the last
    tooth seen at time 0. *)
Definition missingToothStale : State :=
  set degreesPerMicro 1180
  (set toothCurrentCount 1
  (set triggerActualTeeth 35
  (set triggerToothAngle 10 zeroState))).

(** Dual wheel at tooth 1 with the same speed stored. *)
Definition dualWheelStale : State :=
  set degreesPerMicro 1180
  (set toothCurrentCount 1
  (set triggerToothAngle 6 zeroState)).

(** ** The tooth and composite loggers

    The log arrays, their index and the three [currentStatus] fields
    the loggers work with are kept in a record of their own. *)

Definition BIT_CLEAR (a b : Z) : Z := Z.land a (Z.lnot (Z.shiftl 1 b)).

Definition TOOTH_CRANK : Z := 0.
Definition TOOTH_CAM_SECONDARY : Z := 1.

(** [a[i] = v]; a store past the end of the array is not modelled, the
    properties below keep the index inside the array. *)
Fixpoint arraySet (a : list Z) (i : nat) (v : Z) : list Z :=
  match a, i with
  | [], _ => []
  | _ :: r, O => v :: r
  | x :: r, S i' => x :: arraySet r i' v
  end.

Definition arrayGet (a : list Z) (i : nat) : Z := nth i a 0.

Record ToothLog : Type := mkToothLog {
  toothHistory : list Z;
  compositeLogHistory : list Z;
  toothHistoryIndex : Z;
  status1 : Z;
  toothLogEnabled : bool;
  compositeTriggerUsed : Z
}.

Definition setToothHistory (v : Z) (lg : ToothLog) : ToothLog :=
  mkToothLog (arraySet (toothHistory lg) (Z.to_nat (toothHistoryIndex lg)) v)
             (compositeLogHistory lg) (toothHistoryIndex lg) (status1 lg)
             (toothLogEnabled lg) (compositeTriggerUsed lg).

Definition setCompositeLog (v : Z) (lg : ToothLog) : ToothLog :=
  mkToothLog (toothHistory lg)
             (arraySet (compositeLogHistory lg) (Z.to_nat (toothHistoryIndex lg)) v)
             (toothHistoryIndex lg) (status1 lg)
             (toothLogEnabled lg) (compositeTriggerUsed lg).

Definition getCompositeLog (lg : ToothLog) : Z :=
  arrayGet (compositeLogHistory lg) (Z.to_nat (toothHistoryIndex lg)).

Definition setToothHistoryIndex (i : Z) (lg : ToothLog) : ToothLog :=
  mkToothLog (toothHistory lg) (compositeLogHistory lg) i (status1 lg)
             (toothLogEnabled lg) (compositeTriggerUsed lg).

Definition setStatus1 (v : Z) (lg : ToothLog) : ToothLog :=
  mkToothLog (toothHistory lg) (compositeLogHistory lg) (toothHistoryIndex lg) v
             (toothLogEnabled lg) (compositeTriggerUsed lg).

(** Levels of the three trigger pins when they are read. *)
Record TriggerPins : Set := {
  READ_PRI_TRIGGER : bool;
  READ_SEC_TRIGGER : bool;
  READ_THIRD_TRIGGER : bool
}.

Inductive trigger_edge : Set := RISING | FALLING | CHANGE.

(** The edge test of the logger interrupt handlers: the configured edge
    against the level the pin has now. *)
Definition edgeSeen (edge : trigger_edge) (level : bool) : bool :=
  match edge with
  | RISING => level
  | FALLING => negb level
  | CHANGE => true
  end.

(** One call of the logger: pin levels, the clock, the decoder state and
    the tooth time handed over. *)
Definition LogCall : Type := (TriggerPins * Z * State * Z)%type.

Definition logCallTime (c : LogCall) : Z := snd c.

(** ** The sample filter (class [DataFilter])

    A ring buffer of at most 16 [int] samples with a trimmed mean.  The
    buffer is not initialised by the constructor: what it holds at
    first is an argument. *)

Definition FREE : Z := 0.
Definition FULL : Z := 1.

Record DataFilter : Type := mkDataFilter {
  data_ : list Z;
  size_ : Z;
  it_ini_ : Z;
  it_end_ : Z;
  q_status_ : Z
}.

Definition newDataFilter (uninitialised : list Z) (size : Z) : DataFilter :=
  {| data_ := uninitialised; size_ := size; it_ini_ := 0; it_end_ := 0;
     q_status_ := FREE |}.

Definition queue_insert_data (data : Z) (q : DataFilter) : DataFilter :=
  let q :=
    if q_status_ q =? FULL then
      let q := mkDataFilter (data_ q) (size_ q) (u8 (it_ini_ q + 1)) (it_end_ q)
                            (q_status_ q) in
      if it_ini_ q =? size_ q
      then mkDataFilter (data_ q) (size_ q) 0 (it_end_ q) (q_status_ q)
      else q
    else q in
  let q := mkDataFilter (arraySet (data_ q) (Z.to_nat (it_end_ q)) data)
                        (size_ q) (it_ini_ q) (it_end_ q) (q_status_ q) in
  let q := mkDataFilter (data_ q) (size_ q) (it_ini_ q) (u8 (it_end_ q + 1))
                        (q_status_ q) in
  let q :=
    if it_end_ q =? size_ q
    then mkDataFilter (data_ q) (size_ q) (it_ini_ q) 0 (q_status_ q)
    else q in
  if it_end_ q =? it_ini_ q
  then mkDataFilter (data_ q) (size_ q) (it_ini_ q) (it_end_ q) FULL
  else q.

(** [swap(&array[j], &array[j + 1])]: the temporary is a [uint16_t]. *)
Definition swap (array : list Z) (j : nat) : list Z :=
  let t := u16 (arrayGet array j) in
  let array := arraySet array j (arrayGet array (S j)) in
  arraySet array (S j) (s16 t).

(** One round of the inner loop of [sort_array]. *)
Definition sortStep (array : list Z) (j : nat) : list Z :=
  if arrayGet array j >? arrayGet array (S j) then swap array j else array.

(** The inner loop: [count] more rounds, the next one at index [j]. *)
Fixpoint sort_array_inner (count j : nat) (array : list Z) : list Z :=
  match count with
  | O => array
  | S count' => sort_array_inner count' (S j) (sortStep array j)
  end.

(** The outer loop: [count] more passes, the next one with index [i]. *)
Fixpoint sort_array_outer (count i n : nat) (array : list Z) : list Z :=
  match count with
  | O => array
  | S count' =>
      sort_array_outer count' (S i) n (sort_array_inner (n - i - 1) 0 array)
  end.

Definition sort_array (array : list Z) (n : nat) : list Z :=
  sort_array_outer (n - 1) 0 n array.

(** [mean += data[i]] for [i] from [lo] up to, not including, [hi]. *)
Definition accumulate (data : list Z) (lo hi : nat) : Z :=
  fold_left (fun mean i => u32 (mean + arrayGet data i)) (seq lo (hi - lo)) 0.

(** [queue_median]; [None] stands for the division by zero. *)
Definition queue_median (discard : Z) (q : DataFilter) : option Z :=
  if q_status_ q =? FULL then
    let data := sort_array (firstn (Z.to_nat (size_ q)) (data_ q))
                           (Z.to_nat (size_ q)) in
    let mean := accumulate data (Z.to_nat discard) (Z.to_nat (size_ q - discard)) in
    let divisor := u32 (size_ q - discard * 2) in
    if divisor =? 0 then None else Some (s16 (u16 (mean / divisor)))
  else
    let mean := accumulate (data_ q) (Z.to_nat (it_ini_ q)) (Z.to_nat (it_end_ q)) in
    let i := Z.max (it_ini_ q) (it_end_ q) in
    if i =? 0 then None else Some (s16 (u16 (mean / i))).

(** The samples handed to the filter one after the other. *)
Definition insertAll (samples : list Z) (q : DataFilter) : DataFilter :=
  fold_left (fun q d => queue_insert_data d q) samples q.

(** An array of [int]s in ascending order up to index [n]. *)
Definition ascending (array : list Z) (n : nat) : Prop :=
  forall i j, (i <= j < n)%nat -> arrayGet array i <= arrayGet array j.

Definition allInt (array : list Z) : Prop :=
  forall i, (i < length array)%nat -> - 2 ^ 15 <= arrayGet array i < 2 ^ 15.

(** The queue after the samples [samples] went in, oldest first: it is
    full once as many samples as it has room for have come, and holds
    the latest of them, sample number [k] at index [k mod size_]. *)
Definition holdsLast (q : DataFilter) (samples : list Z) : Prop :=
  (if Z.of_nat (length samples) <? size_ q
   then q_status_ q = FREE /\ it_ini_ q = 0 /\ it_end_ q = Z.of_nat (length samples)
   else q_status_ q = FULL
        /\ it_ini_ q = Z.of_nat (length samples) mod size_ q
        /\ it_end_ q = Z.of_nat (length samples) mod size_ q)
  /\ length (data_ q) = 16%nat
  /\ forall k, Z.max 0 (Z.of_nat (length samples) - size_ q) <= k
               < Z.of_nat (length samples) ->
       arrayGet (data_ q) (Z.to_nat (k mod size_ q)) = nth (Z.to_nat k) samples 0.

Definition Zsum (l : list Z) : Z := fold_right Z.add 0 l.

(** The mean of the elements of [sorted] from index [discard] up to,
    not including, [size - discard]. *)
Definition trimmedMean (sorted : list Z) (discard size : nat) : Z :=
  Zsum (map (arrayGet sorted) (seq discard (size - 2 * discard)))
  / Z.of_nat (size - 2 * discard).

(** The copy of the buffer that [queue_median] sorts. *)
Definition sortedSamples (q : DataFilter) : list Z :=
  sort_array (firstn (Z.to_nat (size_ q)) (data_ q)) (Z.to_nat (size_ q)).

(** ** Decoder set-up

    Bits of [decoderState] (decoders.h) written at set-up, and what
    set-up leaves behind: the globals of the store together with
    [checkSyncToothCount] and [MAX_STALL_TIME]. *)

Definition BIT_DECODER_2ND_DERIV : Z := 0.
Definition BIT_DECODER_IS_SEQUENTIAL : Z := 1.
Definition BIT_DECODER_HAS_SECONDARY : Z := 3.

Record DecoderSetup : Type := {
  setupState : State;
  checkSyncToothCount : Z;
  MAX_STALL_TIME : Z
}.

Definition setupWrites : list Var :=
  [decoderState; triggerToothAngle; triggerActualTeeth; triggerFilterTime;
   triggerSecFilterTime; toothLastMinusOneToothTime; toothCurrentCount;
   secondaryToothCount; thirdToothCount; toothOneTime; toothOneMinusOneTime].

(** ** More example installations

    A 36-1 wheel with a 4-1 cam wheel and VVT, states for it, values
    for the macros of the logger and of set-up, a small tooth log and a
    few samples. *)

Definition missingTooth36_1_cam4_1 : Config :=
  {| configPage2 := examplePage2;
     configPage4 :=
       {| triggerTeeth := 36; triggerMissingTeeth := 1; TrigSpeed := CRANK_SPEED;
          triggerAngle := 0; triggerFilter := 1; trigPatternSec := SEC_TRIGGER_4_1;
          StgCycles := 0; useResync := 1; sparkMode := IGN_MODE_other;
          ANGLEFILTER_VVT := 128; vvt2CL0DutyAng := 0 |};
     configPage6 := {| vvtEnabled := 1; vvtMode := VVT_MODE_other |};
     configPage10 := examplePage10 |}.

(** The running dual wheel with the tooth before the last one seen
    1000 us earlier. *)
Definition dualWheelTwoTeeth : State :=
  set toothLastMinusOneToothTime 4000 dualWheelRunning.

(** The same with the tooth before the last one only 50 us earlier, as
    a noise pulse would leave it: 3000 us per revolution, 20000 RPM. *)
Definition dualWheelNoisyTeeth : State :=
  set toothLastMinusOneToothTime 4950 dualWheelRunning.

(** The 36-1 wheel running in the second revolution of the cycle, the
    last cam tooth seen at 5000 us. *)
Definition missingToothSecondRevolution : State :=
  set revolutionOne 1
  (set triggerActualTeeth 35
  (set triggerToothAngle 10 dualWheelRunning)).

Definition exampleBitToothLogReady : Z := 6.
Definition exampleToothLogSize : Z := 4.
Definition exampleMicrosPerSec : Z := 1000000.
Definition exampleMicrosPerDeg1Rpm : Z := 166667.

Definition examplePins : TriggerPins :=
  {| READ_PRI_TRIGGER := true; READ_SEC_TRIGGER := false; READ_THIRD_TRIGGER := false |}.

(** An empty log of four entries with the tooth logger on. *)
Definition exampleToothLog : ToothLog :=
  mkToothLog [0; 0; 0; 0] [0; 0; 0; 0] 0 0 true 0.


(** Five crank teeth, 1000 us apart. *)
Definition exampleCrankTeeth : list LogCall :=
  [(examplePins, 1000, dualWheelRunning, 1000);
   (examplePins, 2000, dualWheelRunning, 1001);
   (examplePins, 3000, dualWheelRunning, 1002);
   (examplePins, 4000, dualWheelRunning, 1003);
   (examplePins, 5000, dualWheelRunning, 1004)].

Definition exampleUninitialised : list Z := repeat 0 16.

Definition exampleSamples : list Z := [100; 90; 120; 80; 110].

(** A filter for five samples that has been handed all five. *)
Definition exampleFullFilter : DataFilter :=
  insertAll exampleSamples (newDataFilter exampleUninitialised 5).

(** ** The decoders *)

Section Decoders.

(** Constants and helpers of headers that are not part of this tree. *)
Variable MAX_RPM : Z.
Variable CRANK_ANGLE_MAX : Z.
Variable IGN_CHANNELS : nat.
Variable BIT_ENGINE_CRANK : Z.
Variable BIT_STATUS3_HALFSYNC : Z.
Variable HasAnySync : State -> bool.
Variable div360 : Z -> Z.
Variable UDIV_ROUND_CLOSEST : Z -> Z -> Z.
Variable udiv_32_16_closest : Z -> Z -> Z.
Variable nudge : Z -> Z -> Z -> Z -> Z.

Variable cfg : Config.

Let page2 := configPage2 cfg.
Let page4 := configPage4 cfg.
Let page6 := configPage6 cfg.
Let page10 := configPage10 cfg.

(** *** Universal decoder routines *)

Definition IsCranking (st : State) : bool :=
  (st#(currentStatus RPM) <? st#(currentStatus crankRPM))
  && (st#(currentStatus startRevolutions) =? 0).

Definition SetRevolutionTime (revTime : Z) (st : State) : bool * State :=
  if negb (revTime =? st#revolutionTime) then
    let st := set revolutionTime revTime st in
    let st := set microsPerDegree
                  (u32 (div360 (u32 (Z.shiftl st#revolutionTime microsPerDegree_Shift)))) st in
    let st := set degreesPerMicro
                  (u16 (UDIV_ROUND_CLOSEST (Z.shiftl 360 degreesPerMicro_Shift)
                                           st#revolutionTime)) st in
    (true, st)
  else (false, st).

Definition UpdateRevolutionTimeFromTeeth (isCamTeeth : bool) (st : State)
  : bool * State :=
  if HasAnySync st
     && negb (IsCranking st)
     && negb (st#toothOneMinusOneTime =? 0)
     && (st#toothOneTime >? st#toothOneMinusOneTime)
  then SetRevolutionTime
         (Z.shiftr (u32 (st#toothOneTime - st#toothOneMinusOneTime))
                   (if isCamTeeth then 1 else 0)) st
  else (false, st).

Definition clampRpm (st : State) (rpm : Z) : Z :=
  if rpm >=? MAX_RPM then st#(currentStatus RPM) else rpm.

Definition RpmFromRevolutionTimeUs (st : State) (revTime : Z) : Z :=
  if revTime <? UINT16_MAX then
    clampRpm st (u16 (udiv_32_16_closest MICROS_PER_MIN revTime))
  else
    clampRpm st (u16 (UDIV_ROUND_CLOSEST MICROS_PER_MIN revTime)).

Definition stdGetRPM (isCamTeeth : bool) (st : State) : Z * State :=
  let (updated, st) := UpdateRevolutionTimeFromTeeth isCamTeeth st in
  if updated then (RpmFromRevolutionTimeUs st st#revolutionTime, st)
  else (st#(currentStatus RPM), st).

Definition setFilter (curGap_ : Z) (st : State) : State :=
  if triggerFilter page4 =? 0 then set triggerFilterTime 0 st
  else if triggerFilter page4 =? 1 then set triggerFilterTime (Z.shiftr curGap_ 2) st
  else if triggerFilter page4 =? 2 then set triggerFilterTime (Z.shiftr curGap_ 1) st
  else if triggerFilter page4 =? 3
       then set triggerFilterTime (Z.shiftr (u32 (curGap_ * 3)) 2) st
  else set triggerFilterTime 0 st.

(** The result type is [int]. *)
Definition crankingGetRPM (totalTeeth : Z) (isCamTeeth : bool) (st : State)
  : Z * State :=
  if (st#(currentStatus startRevolutions) >=? StgCycles page4)
     && ((st#(currentStatus hasSync) =? 1)
         || BIT_CHECK st#(currentStatus status3) BIT_STATUS3_HALFSYNC)
  then
    if (st#toothLastMinusOneToothTime >? 0)
       && (st#toothLastToothTime >? st#toothLastMinusOneToothTime)
    then
      let (newRevtime, st) :=
        SetRevolutionTime
          (Z.shiftr (u32 (u32 (st#toothLastToothTime - st#toothLastMinusOneToothTime)
                          * totalTeeth))
                    (if isCamTeeth then 1 else 0)) st in
      if newRevtime
      then (s16 (RpmFromRevolutionTimeUs st st#revolutionTime), st)
      else (s16 st#(currentStatus RPM), st)
    else (s16 st#(currentStatus RPM), st)
  else (s16 st#(currentStatus RPM), st).

(** The ignition channels the else-if chain of [checkPerToothTiming]
    walks through: the first four always, five to eight when built in. *)
Definition ignChannels : list nat :=
  seq 1 (Nat.min 8 (Nat.max 4 IGN_CHANNELS)).

Definition checkPerToothTiming (crankAngle currentTooth : Z) (st : State) : State :=
  if (st#fixedCrankingOverride =? 0) && (st#(currentStatus RPM) >? 0) then
    match find (fun ch => currentTooth =? st#(ignitionEndTooth ch)) ignChannels with
    | Some ch => adjustCrankAngle (ch, st#(ignitionEndAngle ch), crankAngle) st
    | None => st
    end
  else st.

(** *** Missing-tooth wheel *)

(** [int getCrankAngle_missingTooth(void)], up to the point where the
    angle is brought back into range; [now] is what [micros()] reads. *)
Definition rawCrankAngle_missingTooth (now : Z) (st : State) : Z * State :=
  let tempToothCurrentCount := s16 st#toothCurrentCount in
  let tempRevolutionOne := st#revolutionOne in
  let tempToothLastToothTime := st#toothLastToothTime in
  let crankAngle :=
    s16 ((tempToothCurrentCount - 1) * st#triggerToothAngle + triggerAngle page4) in
  let crankAngle :=
    if (tempRevolutionOne =? 1) && (TrigSpeed page4 =? CRANK_SPEED)
    then s16 (crankAngle + 360) else crankAngle in
  let st := set lastCrankAngleCalc now st in
  let st := set elapsedTime (u32 (st#lastCrankAngleCalc - tempToothLastToothTime)) st in
  (s16 (crankAngle + timeToAngleDegPerMicroSec st st#elapsedTime), st).

Definition getCrankAngle_missingTooth (now : Z) (st : State) : Z * State :=
  let (crankAngle, st) := rawCrankAngle_missingTooth now st in
  let crankAngle := if crankAngle >=? 720 then s16 (crankAngle - 720) else crankAngle in
  let crankAngle :=
    if crankAngle <? 0 then s16 (crankAngle + CRANK_ANGLE_MAX) else crankAngle in
  (crankAngle, st).

(** [while(curAngle > 360) { curAngle -= 360; }] on an [int16_t]: the
    loop body runs fewer than 100 times. *)
Fixpoint wrapTo360 (fuel : nat) (curAngle : Z) : Z :=
  match fuel with
  | O => curAngle
  | S fuel' =>
      if curAngle >? 360 then wrapTo360 fuel' (s16 (curAngle - 360)) else curAngle
  end.

(** The global [getCrankAngle] pointer is passed in; [now] is what
    [micros()] reads inside it. *)
Definition triggerRecordVVT1Angle (getCrankAngle : Z -> State -> Z * State)
           (now : Z) (st : State) : State :=
  if (vvtEnabled page6 >? 0) && (st#revolutionOne =? 1) then
    let (curAngle, st) := getCrankAngle now st in
    let curAngle := wrapTo360 100 (s16 curAngle) in
    let curAngle := s16 (curAngle - triggerAngle page4) in
    let curAngle :=
      if is_closed_loop (vvtMode page6)
      then s16 (curAngle - vvtCL0DutyAng page10) else curAngle in
    set (currentStatus vvt1Angle)
        (s16 (ANGLE_FILTER (s16 (Z.shiftl curAngle 1)) (ANGLEFILTER_VVT page4)
                           st#(currentStatus vvt1Angle))) st
  else st.

(** [triggerSec_missingTooth], first part: capture of time and gap and
    the start-up safety check; it runs on every edge.  [now] is what
    [micros()] reads. *)
Definition triggerSec_missingTooth_capture (now : Z) (st : State) : State :=
  let st := set curTime2 now st in
  let st := set curGap2 (u32 (st#curTime2 - st#toothLastSecToothTime)) st in
  if st#toothLastSecToothTime =? 0 then
    let st := set curGap2 0 st in
    set toothLastSecToothTime st#curTime2 st
  else st.

(** [triggerSec_missingTooth], the [switch] on the cam pattern.  [now']
    is read by [getCrankAngle] if it is called. *)
Definition triggerSec_missingTooth_switch (getCrankAngle : Z -> State -> Z * State)
           (now' : Z) (st : State) : State :=
  match trigPatternSec page4 with
  | SEC_TRIGGER_4_1 =>
      let st := set targetGap2
                    (Z.shiftr (u32 (3 * u32 (st#toothLastSecToothTime
                                             - st#toothLastMinusOneSecToothTime))) 1) st in
      let st := set toothLastMinusOneSecToothTime st#toothLastSecToothTime st in
      if (st#curGap2 >=? st#targetGap2) || (st#secondaryToothCount >? 3) then
        let st := set secondaryToothCount 1 st in
        let st := set revolutionOne 1 st in
        let st := set triggerSecFilterTime 0 st in
        triggerRecordVVT1Angle getCrankAngle now' st
      else
        let st := set triggerSecFilterTime (Z.shiftr st#curGap2 2) st in
        set secondaryToothCount (u16 (st#secondaryToothCount + 1)) st
  | SEC_TRIGGER_POLL =>
      let st := set triggerSecFilterTime (Z.shiftr st#curGap2 1) st in
      triggerRecordVVT1Angle getCrankAngle now' st
  | SEC_TRIGGER_SINGLE =>
      let st := set revolutionOne 1 st in
      let st := set triggerSecFilterTime (Z.shiftr st#curGap2 1) st in
      let st := set secondaryToothCount (u16 (st#secondaryToothCount + 1)) st in
      triggerRecordVVT1Angle getCrankAngle now' st
  | SEC_TRIGGER_TOYOTA_3 =>
      let st := set secondaryToothCount (u16 (st#secondaryToothCount + 1)) st in
      let st :=
        if st#secondaryToothCount =? 2 then
          let st := set revolutionOne 1 st in
          triggerRecordVVT1Angle getCrankAngle now' st
        else st in
      set triggerSecFilterTime (Z.shiftr st#curGap2 2) st
  | SEC_TRIGGER_other => st
  end.

Definition triggerSec_missingTooth (getCrankAngle : Z -> State -> Z * State)
           (now now' : Z) (st : State) : State :=
  let st := triggerSec_missingTooth_capture now st in
  if st#curGap2 >=? st#triggerSecFilterTime then
    let st := triggerSec_missingTooth_switch getCrankAngle now' st in
    set toothLastSecToothTime st#curTime2 st
  else st.

Definition triggerThird_missingTooth_capture (now : Z) (st : State) : State :=
  let st := set curTime3 now st in
  let st := set curGap3 (u32 (st#curTime3 - st#toothLastThirdToothTime)) st in
  if st#toothLastThirdToothTime =? 0 then
    let st := set curGap3 0 st in
    set toothLastThirdToothTime st#curTime3 st
  else st.

(** [triggerThird_missingTooth], the VVT2 angle it records once the
    edge has passed the filter. *)
Definition triggerThird_missingTooth_record (getCrankAngle : Z -> State -> Z * State)
           (now' : Z) (st : State) : State :=
  let st := set thirdToothCount (u16 (st#thirdToothCount + 1)) st in
  let st := set triggerThirdFilterTime (Z.shiftr st#curGap3 2) st in
  let (curAngle, st) := getCrankAngle now' st in
  let curAngle := wrapTo360 100 (s16 curAngle) in
  let curAngle := s16 (curAngle - triggerAngle page4) in
  let curAngle :=
    if is_closed_loop (vvtMode page6)
    then s16 (curAngle - vvt2CL0DutyAng page4) else curAngle in
  set (currentStatus vvt2Angle)
      (s16 (ANGLE_FILTER (s16 (Z.shiftl curAngle 1)) (ANGLEFILTER_VVT page4)
                         st#(currentStatus vvt2Angle))) st.

Definition triggerThird_missingTooth (getCrankAngle : Z -> State -> Z * State)
           (now now' : Z) (st : State) : State :=
  let st := triggerThird_missingTooth_capture now st in
  if st#curGap3 >=? st#triggerThirdFilterTime then
    let st := triggerThird_missingTooth_record getCrankAngle now' st in
    set toothLastThirdToothTime st#curTime3 st
  else st.

Definition getRPM_missingTooth (st : State) : Z * State :=
  if st#(currentStatus RPM) <? st#(currentStatus crankRPM) then
    if negb (st#toothCurrentCount =? 1) then
      let (tempRPM, st) :=
        crankingGetRPM (u8 (triggerTeeth page4)) (TrigSpeed page4 =? CAM_SPEED) st in
      (u16 tempRPM, st)
    else (st#(currentStatus RPM), st)
  else stdGetRPM (TrigSpeed page4 =? CAM_SPEED) st.

Definition clampToToothCount (toothNum toothAdder : Z) : Z :=
  let toothRange := s16 (s16 (triggerTeeth page4) + s16 toothAdder) in
  u16 (nudge 1 toothRange toothNum toothRange).

Definition clampToActualTeeth (st : State) (toothNum toothAdder : Z) : Z :=
  let toothNum :=
    if (toothNum >? st#triggerActualTeeth) && (toothNum <=? triggerTeeth page4)
    then st#triggerActualTeeth else toothNum in
  Z.min toothNum (u16 (st#triggerActualTeeth + toothAdder)).

(** The quotient both end-tooth computations start from: C division,
    truncating, on [int]. *)
Definition endToothQuotient (st : State) (endAngle : Z) : Z :=
  s16 (Z.quot (s16 (endAngle - s16 (triggerAngle page4))) (s16 st#triggerToothAngle)).

Definition calcEndTeeth_missingTooth (st : State) (endAngle toothAdder : Z) : Z :=
  let tempEndTooth := endToothQuotient st endAngle in
  let tempEndTooth :=
    if triggerTeeth page4 >? 12 then s16 (tempEndTooth - 1) else tempEndTooth in
  clampToActualTeeth st (clampToToothCount tempEndTooth toothAdder) toothAdder.

Definition toothAdder_missingTooth : Z :=
  if (ign_mode_eqb (sparkMode page4) IGN_MODE_SEQUENTIAL
      || ign_mode_eqb (sparkMode page4) IGN_MODE_SINGLE)
     && (TrigSpeed page4 =? CRANK_SPEED)
     && match strokes page2 with FOUR_STROKE => true | TWO_STROKE => false end
  then u8 (triggerTeeth page4) else 0.

Definition triggerSetEndTeeth_missingTooth (st : State) : State :=
  fold_left
    (fun st ch =>
       set (ignitionEndTooth ch)
           (calcEndTeeth_missingTooth st st#(ignitionEndAngle ch) toothAdder_missingTooth)
           st)
    (seq 1 (Nat.min 8 (Nat.max 4 IGN_CHANNELS))) st.

(** *** Dual wheel *)

(** [triggerPri_DualWheel], first part: capture of time and gap; it
    runs on every edge.  [now] is what [micros()] reads. *)
Definition triggerPri_DualWheel_capture (now : Z) (st : State) : State :=
  let st := set curTime now st in
  set curGap (u32 (st#curTime - st#toothLastToothTime)) st.

(** [triggerPri_DualWheel], the body behind the trigger filter. *)
Definition triggerPri_DualWheel_accepted (st : State) : State :=
  let st := set toothCurrentCount (u16 (st#toothCurrentCount + 1)) st in
  let st := set decoderState (BIT_SET st#decoderState BIT_DECODER_VALID_TRIGGER) st in
  let st := set toothLastMinusOneToothTime st#toothLastToothTime st in
  let st := set toothLastToothTime st#curTime st in
  let st :=
    if st#(currentStatus hasSync) =? 1 then
      let st :=
        if (st#toothCurrentCount =? 1) || (st#toothCurrentCount >? triggerTeeth page4)
        then
          let st := set toothCurrentCount 1 st in
          let st := set revolutionOne (if st#revolutionOne =? 0 then 1 else 0) st in
          let st := set toothOneMinusOneTime st#toothOneTime st in
          let st := set toothOneTime st#curTime st in
          let st := set (currentStatus startRevolutions)
                        (u16 (st#(currentStatus startRevolutions) + 1)) st in
          if TrigSpeed page4 =? CAM_SPEED
          then set (currentStatus startRevolutions)
                   (u16 (st#(currentStatus startRevolutions) + 1)) st
          else st
        else st in
      setFilter st#curGap st
    else st in
  if perToothIgn page2 && negb (BIT_CHECK st#(currentStatus engine) BIT_ENGINE_CRANK)
  then
    let crankAngle :=
      s16 ((st#toothCurrentCount - 1) * st#triggerToothAngle + triggerAngle page4) in
    if ign_mode_eqb (sparkMode page4) IGN_MODE_SEQUENTIAL
       && (st#revolutionOne =? 1)
       && (TrigSpeed page4 =? CRANK_SPEED)
    then
      let crankAngle := s16 (crankAngle + 360) in
      checkPerToothTiming crankAngle (u16 (triggerTeeth page4 + st#toothCurrentCount)) st
    else checkPerToothTiming crankAngle st#toothCurrentCount st
  else st.

Definition triggerPri_DualWheel (now : Z) (st : State) : State :=
  let st := triggerPri_DualWheel_capture now st in
  if st#curGap >=? st#triggerFilterTime
  then triggerPri_DualWheel_accepted st
  else st.

(** [triggerSec_DualWheel], first part: capture of time and gap; it
    runs on every edge.  [now] is what [micros()] reads. *)
Definition triggerSec_DualWheel_capture (now : Z) (st : State) : State :=
  let st := set curTime2 now st in
  set curGap2 (u32 (st#curTime2 - st#toothLastSecToothTime)) st.

(** [triggerSec_DualWheel], the body behind the trigger filter.  [now1]
    and [now2] are the two further readings of [micros()], in program
    order; they are only taken while sync is being established. *)
Definition triggerSec_DualWheel_accepted (now1 now2 : Z) (st : State) : State :=
  let st := set toothLastSecToothTime st#curTime2 st in
  let st := set triggerSecFilterTime (Z.shiftr st#curGap2 2) st in
  let st :=
    if (st#(currentStatus hasSync) =? 0)
       || (st#(currentStatus startRevolutions) <=? StgCycles page4)
    then
      let st := set toothLastToothTime now1 st in
      let st := set toothLastMinusOneToothTime
                    (u32 (now2 - (MICROS_PER_MIN / 10) / triggerTeeth page4)) st in
      let st := set toothCurrentCount (u16 (triggerTeeth page4)) st in
      let st := set triggerFilterTime 0 st in
      set (currentStatus hasSync) 1 st
    else
      let st :=
        if negb (st#toothCurrentCount =? triggerTeeth page4)
           && (st#(currentStatus startRevolutions) >? 2)
        then set (currentStatus syncLossCounter)
                 (u8 (st#(currentStatus syncLossCounter) + 1)) st
        else st in
      if useResync page4 =? 1
      then set toothCurrentCount (u16 (triggerTeeth page4)) st
      else st in
  set revolutionOne 1 st.

Definition triggerSec_DualWheel (now now1 now2 : Z) (st : State) : State :=
  let st := triggerSec_DualWheel_capture now st in
  if st#curGap2 >=? st#triggerSecFilterTime
  then triggerSec_DualWheel_accepted now1 now2 st
  else set triggerSecFilterTime (Z.shiftr st#revolutionTime 1) st.

Definition getRPM_DualWheel (st : State) : Z * State :=
  if st#(currentStatus hasSync) =? 1 then
    if st#(currentStatus RPM) <? st#(currentStatus crankRPM) then
      let (rpm, st) :=
        crankingGetRPM (u8 (triggerTeeth page4)) (TrigSpeed page4 =? CAM_SPEED) st in
      (u16 rpm, st)
    else stdGetRPM (TrigSpeed page4 =? CAM_SPEED) st
  else (0, st).

(** [int getCrankAngle_DualWheel(void)], up to the point where the
    angle is brought back into range. *)
Definition rawCrankAngle_DualWheel (now : Z) (st : State) : Z * State :=
  let tempToothCurrentCount := s16 st#toothCurrentCount in
  let tempToothLastToothTime := st#toothLastToothTime in
  let tempRevolutionOne := st#revolutionOne in
  let st := set lastCrankAngleCalc now st in
  let tempToothCurrentCount :=
    if tempToothCurrentCount =? 0 then s16 (triggerTeeth page4)
    else tempToothCurrentCount in
  let crankAngle :=
    s16 ((tempToothCurrentCount - 1) * st#triggerToothAngle + triggerAngle page4) in
  let st := set elapsedTime (u32 (st#lastCrankAngleCalc - tempToothLastToothTime)) st in
  let crankAngle := s16 (crankAngle + timeToAngleDegPerMicroSec st st#elapsedTime) in
  let crankAngle :=
    if (tempRevolutionOne =? 1) && (TrigSpeed page4 =? CRANK_SPEED)
    then s16 (crankAngle + 360) else crankAngle in
  (crankAngle, st).

Definition getCrankAngle_DualWheel (now : Z) (st : State) : Z * State :=
  let (crankAngle, st) := rawCrankAngle_DualWheel now st in
  let crankAngle := if crankAngle >=? 720 then s16 (crankAngle - 720) else crankAngle in
  let crankAngle :=
    if crankAngle <? 0 then s16 (crankAngle + CRANK_ANGLE_MAX) else crankAngle in
  (crankAngle, st).

Definition calcEndTeeth_DualWheel (st : State) (ignitionAngle toothAdder : Z) : Z :=
  let tempEndTooth := endToothQuotient st ignitionAngle in
  clampToToothCount tempEndTooth toothAdder.

Definition toothAdder_DualWheel : Z :=
  if ign_mode_eqb (sparkMode page4) IGN_MODE_SEQUENTIAL
     && (TrigSpeed page4 =? CRANK_SPEED)
  then u8 (triggerTeeth page4) else 0.

Definition triggerSetEndTeeth_DualWheel (st : State) : State :=
  fold_left
    (fun st ch =>
       set (ignitionEndTooth ch)
           (calcEndTeeth_DualWheel st st#(ignitionEndAngle ch) toothAdder_DualWheel)
           st)
    (seq 1 (Nat.min 8 (Nat.max 4 IGN_CHANNELS))) st.

(** *** Quantities the properties are stated with *)

(** The two fixed-point derivatives [SetRevolutionTime] computes for
    a revolution time. *)
Definition microsPerDegreeOf (revTime : Z) : Z :=
  u32 (div360 (u32 (Z.shiftl revTime microsPerDegree_Shift))).

Definition degreesPerMicroOf (revTime : Z) : Z :=
  u16 (UDIV_ROUND_CLOSEST (Z.shiftl 360 degreesPerMicro_Shift) revTime).

(** Both derivatives belong to the stored revolution time. *)
Definition derivativesInStep (st : State) : Prop :=
  st#microsPerDegree = microsPerDegreeOf st#revolutionTime
  /\ st#degreesPerMicro = degreesPerMicroOf st#revolutionTime.

(** The RPM handed to [clampRpm] for a revolution time. *)
Definition rpmQuotient (revTime : Z) : Z :=
  if revTime <? UINT16_MAX
  then u16 (udiv_32_16_closest MICROS_PER_MIN revTime)
  else u16 (UDIV_ROUND_CLOSEST MICROS_PER_MIN revTime).

(** The filter test of the secondary and tertiary missing-tooth
    handlers, after the capture step. *)
Definition secEdgePassesFilter (now : Z) (st : State) : bool :=
  let st := triggerSec_missingTooth_capture now st in
  st#curGap2 >=? st#triggerSecFilterTime.

Definition thirdEdgePassesFilter (now : Z) (st : State) : bool :=
  let st := triggerThird_missingTooth_capture now st in
  st#curGap3 >=? st#triggerThirdFilterTime.

(** *** The accepted primary edge of the dual wheel, statement by statement

    The four blocks of [triggerPri_DualWheel_accepted]: counting the
    tooth, the tooth-one bookkeeping on wrap-around, the update made
    while in sync, and the per-tooth ignition check. *)

Definition triggerPri_DualWheel_countTooth (st : State) : State :=
  let st := set toothCurrentCount (u16 (st#toothCurrentCount + 1)) st in
  let st := set decoderState (BIT_SET st#decoderState BIT_DECODER_VALID_TRIGGER) st in
  let st := set toothLastMinusOneToothTime st#toothLastToothTime st in
  set toothLastToothTime st#curTime st.

Definition triggerPri_DualWheel_toothOne (st : State) : State :=
  let st := set toothCurrentCount 1 st in
  let st := set revolutionOne (if st#revolutionOne =? 0 then 1 else 0) st in
  let st := set toothOneMinusOneTime st#toothOneTime st in
  let st := set toothOneTime st#curTime st in
  let st := set (currentStatus startRevolutions)
                (u16 (st#(currentStatus startRevolutions) + 1)) st in
  if TrigSpeed page4 =? CAM_SPEED
  then set (currentStatus startRevolutions)
           (u16 (st#(currentStatus startRevolutions) + 1)) st
  else st.

Definition triggerPri_DualWheel_inSync (st : State) : State :=
  if st#(currentStatus hasSync) =? 1 then
    let st :=
      if (st#toothCurrentCount =? 1) || (st#toothCurrentCount >? triggerTeeth page4)
      then triggerPri_DualWheel_toothOne st
      else st in
    setFilter st#curGap st
  else st.

Definition triggerPri_DualWheel_perTooth (st : State) : State :=
  if perToothIgn page2 && negb (BIT_CHECK st#(currentStatus engine) BIT_ENGINE_CRANK)
  then
    let crankAngle :=
      s16 ((st#toothCurrentCount - 1) * st#triggerToothAngle + triggerAngle page4) in
    if ign_mode_eqb (sparkMode page4) IGN_MODE_SEQUENTIAL
       && (st#revolutionOne =? 1)
       && (TrigSpeed page4 =? CRANK_SPEED)
    then
      let crankAngle := s16 (crankAngle + 360) in
      checkPerToothTiming crankAngle (u16 (triggerTeeth page4 + st#toothCurrentCount)) st
    else checkPerToothTiming crankAngle st#toothCurrentCount st
  else st.


(** *** Tooth and composite logging *)

Variable BIT_STATUS1_TOOTHLOG1READY : Z.
Variable TOOTH_LOG_SIZE : Z.
Variable COMPOSITE_LOG_PRI : Z.
Variable COMPOSITE_LOG_SEC : Z.
Variable COMPOSITE_LOG_THIRD : Z.
Variable COMPOSITE_LOG_TRIG : Z.
Variable COMPOSITE_LOG_SYNC : Z.
Variable COMPOSITE_ENGINE_CYCLE : Z.

(** Conversion to the element type of [toothHistory], which is declared
    outside this file. *)
Variable toothHistory_t : Z -> Z.

(** [if (c) { BIT_SET(compositeLogHistory[toothHistoryIndex], b); }] *)
Definition compositeBitIf (c : bool) (b : Z) (lg : ToothLog) : ToothLog :=
  if c then setCompositeLog (BIT_SET (getCompositeLog lg) b) lg else lg.

(** The composite entry at the current index: cleared, then one bit
    per pin level, trigger, sync and engine cycle. *)
Definition compositeLogEntry (pins : TriggerPins) (whichTooth : Z)
           (st : State) (lg : ToothLog) : ToothLog :=
  let lg := setCompositeLog 0 lg in
  let lg :=
    if compositeTriggerUsed lg =? 4 then
      let lg := compositeBitIf (READ_SEC_TRIGGER pins) COMPOSITE_LOG_PRI lg in
      let lg := compositeBitIf (READ_THIRD_TRIGGER pins) COMPOSITE_LOG_SEC lg in
      let lg := compositeBitIf (READ_PRI_TRIGGER pins) COMPOSITE_LOG_THIRD lg in
      compositeBitIf (whichTooth >? TOOTH_CAM_SECONDARY) COMPOSITE_LOG_TRIG lg
    else
      let lg := compositeBitIf (READ_PRI_TRIGGER pins) COMPOSITE_LOG_PRI lg in
      let lg :=
        if compositeTriggerUsed lg =? 3 then
          let lg := compositeBitIf (READ_THIRD_TRIGGER pins) COMPOSITE_LOG_SEC lg in
          compositeBitIf (READ_SEC_TRIGGER pins) COMPOSITE_LOG_THIRD lg
        else
          let lg := compositeBitIf (READ_SEC_TRIGGER pins) COMPOSITE_LOG_SEC lg in
          compositeBitIf (READ_THIRD_TRIGGER pins) COMPOSITE_LOG_THIRD lg in
      compositeBitIf (whichTooth >? TOOTH_CRANK) COMPOSITE_LOG_TRIG lg in
  let lg := compositeBitIf (st#(currentStatus hasSync) =? 1) COMPOSITE_LOG_SYNC lg in
  if st#revolutionOne =? 1
  then setCompositeLog (BIT_SET (getCompositeLog lg) COMPOSITE_ENGINE_CYCLE) lg
  else setCompositeLog (BIT_CLEAR (getCompositeLog lg) COMPOSITE_ENGINE_CYCLE) lg.

(** The bookkeeping once a value has been logged. *)
Definition logAdvance (lg : ToothLog) : ToothLog :=
  if toothHistoryIndex lg <? TOOTH_LOG_SIZE - 1
  then
    let lg := setToothHistoryIndex (toothHistoryIndex lg + 1) lg in
    setStatus1 (BIT_CLEAR (status1 lg) BIT_STATUS1_TOOTHLOG1READY) lg
  else setStatus1 (BIT_SET (status1 lg) BIT_STATUS1_TOOTHLOG1READY) lg.

(** [now] is what [micros()] reads when a composite entry is made. *)
Definition addToothLogEntry (pins : TriggerPins) (now : Z) (toothTime whichTooth : Z)
           (st : State) (lg : ToothLog) : ToothLog :=
  if BIT_CHECK (status1 lg) BIT_STATUS1_TOOTHLOG1READY then lg
  else if toothLogEnabled lg || (compositeTriggerUsed lg >? 0) then
    let (lg, valueLogged) :=
      if toothLogEnabled lg then
        if whichTooth =? TOOTH_CRANK
        then (setToothHistory (toothHistory_t toothTime) lg, true)
        else (lg, false)
      else if compositeTriggerUsed lg >? 0 then
        let lg := compositeLogEntry pins whichTooth st lg in
        (setToothHistory (toothHistory_t now) lg, true)
      else (lg, false) in
    if valueLogged then logAdvance lg else lg
  else lg.

(** The global [triggerHandler] pointer is passed in; [now] is what
    [micros()] reads inside it, [now'] inside the logger. *)
Definition loggerPrimaryISR (triggerHandler : Z -> State -> State)
           (primaryTriggerEdge : trigger_edge) (pins : TriggerPins) (now now' : Z)
           (st : State) (lg : ToothLog) : State * ToothLog :=
  let st := set decoderState (BIT_CLEAR st#decoderState BIT_DECODER_VALID_TRIGGER) st in
  let (st, validEdge) :=
    if edgeSeen primaryTriggerEdge (READ_PRI_TRIGGER pins)
    then (triggerHandler now st, true)
    else (st, false) in
  if toothLogEnabled lg && BIT_CHECK st#decoderState BIT_DECODER_VALID_TRIGGER then
    if validEdge
    then (st, addToothLogEntry pins now' st#curGap TOOTH_CRANK st lg)
    else (st, lg)
  else if compositeTriggerUsed lg >? 0
       then (st, addToothLogEntry pins now' st#curGap TOOTH_CRANK st lg)
       else (st, lg).



(** The index of the log points into the log arrays. *)
Definition logIndexInRange (lg : ToothLog) : Prop :=
  0 <= toothHistoryIndex lg <= TOOTH_LOG_SIZE - 1
  /\ Z.of_nat (length (toothHistory lg)) = TOOTH_LOG_SIZE
  /\ Z.of_nat (length (compositeLogHistory lg)) = TOOTH_LOG_SIZE.

(** Two logs that differ at most in the entry at the current index. *)
Definition sameLogBelow (lg' lg : ToothLog) : Prop :=
  toothHistoryIndex lg' = toothHistoryIndex lg
  /\ status1 lg' = status1 lg
  /\ toothLogEnabled lg' = toothLogEnabled lg
  /\ compositeTriggerUsed lg' = compositeTriggerUsed lg
  /\ length (toothHistory lg') = length (toothHistory lg)
  /\ length (compositeLogHistory lg') = length (compositeLogHistory lg)
  /\ forall i, i <> Z.to_nat (toothHistoryIndex lg) ->
       arrayGet (toothHistory lg') i = arrayGet (toothHistory lg) i
       /\ arrayGet (compositeLogHistory lg') i = arrayGet (compositeLogHistory lg) i.

(** A run of crank teeth handed to the logger one after the other. *)
Definition logCrankTeeth (calls : list LogCall) (lg : ToothLog) : ToothLog :=
  fold_left (fun lg c =>
               match c with
               | (pins, now, st, toothTime) =>
                   addToothLogEntry pins now toothTime TOOTH_CRANK st lg
               end) calls lg.


(** *** Set-up of the missing-tooth decoder *)

(** Macros declared outside this file.  [maxRpm_t] and [microsPerDeg_t]
    are the wrap-around of the unsigned types in which the products
    with [MAX_RPM / 60U] and [MICROS_PER_DEG_1_RPM / 50U] are formed. *)
Variable MICROS_PER_SEC : Z.
Variable MICROS_PER_DEG_1_RPM : Z.
Variable maxRpm_t : Z -> Z.
Variable microsPerDeg_t : Z -> Z.

Definition hasSecondary_missingTooth : bool :=
  (TrigSpeed page4 =? CRANK_SPEED)
  && (ign_mode_eqb (sparkMode page4) IGN_MODE_SEQUENTIAL
      || match injLayout page2 with INJ_SEQUENTIAL => true | INJ_other => false end
      || (vvtEnabled page6 >? 0)).

Definition triggerSetup_missingTooth (st : State) : DecoderSetup :=
  let st := set decoderState (BIT_CLEAR st#decoderState BIT_DECODER_IS_SEQUENTIAL) st in
  let st := set triggerToothAngle (u16 (360 / triggerTeeth page4)) st in
  let st :=
    if TrigSpeed page4 =? CAM_SPEED then
      let st := set triggerToothAngle (u16 (720 / triggerTeeth page4)) st in
      set decoderState (BIT_SET st#decoderState BIT_DECODER_IS_SEQUENTIAL) st
    else st in
  let st := set triggerActualTeeth
                (u16 (triggerTeeth page4 - triggerMissingTeeth page4)) st in
  let st := set triggerFilterTime
                (u32 (MICROS_PER_SEC / maxRpm_t (MAX_RPM / 60 * triggerTeeth page4))) st in
  let st :=
    match trigPatternSec page4 with
    | SEC_TRIGGER_4_1 =>
        set triggerSecFilterTime (u32 (MICROS_PER_MIN / MAX_RPM / 4 / 2)) st
    | _ => set triggerSecFilterTime (u32 (MICROS_PER_SEC / (MAX_RPM / 60))) st
    end in
  let st := set decoderState (BIT_CLEAR st#decoderState BIT_DECODER_2ND_DERIV) st in
  let checkSync := u8 (Z.shiftr (triggerTeeth page4) 1) in
  let st := set toothLastMinusOneToothTime 0 st in
  let st := set toothCurrentCount 0 st in
  let st := set secondaryToothCount 0 st in
  let st := set thirdToothCount 0 st in
  let st := set toothOneTime 0 st in
  let st := set toothOneMinusOneTime 0 st in
  let stall :=
    u32 (microsPerDeg_t (microsPerDeg_t (MICROS_PER_DEG_1_RPM / 50 * st#triggerToothAngle)
                         * (triggerMissingTeeth page4 + 1))) in
  let st :=
    if hasSecondary_missingTooth
    then set decoderState (BIT_SET st#decoderState BIT_DECODER_HAS_SECONDARY) st
    else set decoderState (BIT_CLEAR st#decoderState BIT_DECODER_HAS_SECONDARY) st in
  {| setupState := st; checkSyncToothCount := checkSync; MAX_STALL_TIME := stall |}.

(** ** Properties *)

(** *** The store and the fixed-width integers *)

Lemma get_set_eq (x : Var) (v : Z) (st : State) : (set x v st)#x = v.
Proof. unfold get, set; simpl. destruct (Var_eq_dec x x); congruence. Qed.

Lemma get_set_neq (x y : Var) (v : Z) (st : State) :
  x <> y -> (set x v st)#y = st#y.
Proof. intro H. unfold get, set; simpl. destruct (Var_eq_dec x y); congruence. Qed.

Lemma timingAdjust_set (x : Var) (v : Z) (st : State) :
  timingAdjust (set x v st) = timingAdjust st.
Proof. reflexivity. Qed.

Lemma get_adjust (c : AdjustCall) (st : State) (x : Var) :
  (adjustCrankAngle c st)#x = st#x.
Proof. reflexivity. Qed.

Ltac store :=
  repeat first
    [ rewrite get_set_eq
    | rewrite get_set_neq by discriminate
    | rewrite get_adjust
    | rewrite timingAdjust_set ].

Lemma u16_range (z : Z) : 0 <= u16 z < 2 ^ 16.
Proof. unfold u16. apply Z.mod_pos_bound. lia. Qed.

Lemma u32_range (z : Z) : 0 <= u32 z < 2 ^ 32.
Proof. unfold u32. apply Z.mod_pos_bound. lia. Qed.

Lemma s16_range (z : Z) : - 2 ^ 15 <= s16 z < 2 ^ 15.
Proof.
  unfold s16. pose proof (Z.mod_pos_bound (z + 2 ^ 15) (2 ^ 16)). lia.
Qed.

Lemma u16_id (z : Z) : 0 <= z < 2 ^ 16 -> u16 z = z.
Proof. intro H. unfold u16. apply Z.mod_small. exact H. Qed.

Lemma u32_id (z : Z) : 0 <= z < 2 ^ 32 -> u32 z = z.
Proof. intro H. unfold u32. apply Z.mod_small. exact H. Qed.

Lemma s16_id (z : Z) : - 2 ^ 15 <= z < 2 ^ 15 -> s16 z = z.
Proof. intro H. unfold s16. rewrite Z.mod_small; lia. Qed.

(** Two integers that differ by a multiple of 2^16 are the same [int]. *)
Lemma s16_congr (x y k : Z) : x = y + k * 2 ^ 16 -> s16 x = s16 y.
Proof.
  intros ->. unfold s16.
  replace (y + k * 2 ^ 16 + 2 ^ 15) with (y + 2 ^ 15 + k * 2 ^ 16) by ring.
  rewrite Z.mod_add by lia. reflexivity.
Qed.

Lemma s16_wraps (z : Z) : exists k, s16 z = z + k * 2 ^ 16.
Proof.
  exists (- ((z + 2 ^ 15) / 2 ^ 16)). unfold s16.
  pose proof (Z.div_mod (z + 2 ^ 15) (2 ^ 16)). lia.
Qed.

Lemma u16_wraps (z : Z) : exists k, u16 z = z + k * 2 ^ 16.
Proof.
  exists (- (z / 2 ^ 16)). unfold u16.
  pose proof (Z.div_mod z (2 ^ 16)). lia.
Qed.

Lemma s16_u16 (z : Z) : s16 (u16 z) = s16 z.
Proof. destruct (u16_wraps z) as [k Hk]. apply (s16_congr _ _ k). lia. Qed.

(** *** Fixed-point conversions *)

Lemma RSHIFT_ROUND_div (n s : Z) :
  0 < s -> 0 <= n -> n + 2 ^ (s - 1) < 2 ^ 32 ->
  RSHIFT_ROUND n s = (n + 2 ^ (s - 1)) / 2 ^ s.
Proof.
  intros Hs Hn Hlt. unfold RSHIFT_ROUND.
  rewrite Z.shiftl_1_l, Z.shiftr_div_pow2 by lia.
  rewrite u32_id; [reflexivity|].
  assert (0 < 2 ^ (s - 1)) by (apply Z.pow_pos_nonneg; lia). lia.
Qed.

(** C9 (as amended): while the fixed-point product plus the rounding
    half stays inside the 32-bit accumulator, and for the time-to-angle
    direction the result fits the 16-bit return type, both conversions
    return the quotient rounded half-up, which is an integer nearest to
    the exact quotient. *)
Theorem conversions_round_to_nearest (st : State) (time angle : Z) :
  (0 <= time -> 0 <= st#degreesPerMicro ->
   time * st#degreesPerMicro + 2 ^ 14 < 2 ^ 31 ->
   timeToAngleDegPerMicroSec st time = (time * st#degreesPerMicro + 2 ^ 14) / 2 ^ 15
   /\ nearestTo (timeToAngleDegPerMicroSec st time) (time * st#degreesPerMicro) (2 ^ 15))
  /\ (0 <= angle -> 0 <= st#microsPerDegree ->
      angle * st#microsPerDegree + 2 ^ 7 < 2 ^ 32 ->
      angleToTimeMicroSecPerDegree st angle = (angle * st#microsPerDegree + 2 ^ 7) / 2 ^ 8
      /\ nearestTo (angleToTimeMicroSecPerDegree st angle) (angle * st#microsPerDegree) (2 ^ 8)).
Proof.
  split.
  - intros Ht Hd Hlt.
    assert (Hp : 0 <= time * st#degreesPerMicro) by (apply Z.mul_nonneg_nonneg; assumption).
    assert (E : timeToAngleDegPerMicroSec st time
                = (time * st#degreesPerMicro + 2 ^ 14) / 2 ^ 15).
    { unfold timeToAngleDegPerMicroSec, degreesPerMicro_Shift.
      rewrite (u32_id (time * st#degreesPerMicro)) by lia.
      rewrite RSHIFT_ROUND_div by lia.
      change (2 ^ (15 - 1)) with (2 ^ 14).
      apply u16_id. split.
      - apply Z.div_pos; lia.
      - apply Z.div_lt_upper_bound; lia. }
    split; [exact E|]. rewrite E. unfold nearestTo.
    pose proof (Z.div_mod (time * st#degreesPerMicro + 2 ^ 14) (2 ^ 15)).
    pose proof (Z.mod_pos_bound (time * st#degreesPerMicro + 2 ^ 14) (2 ^ 15)).
    lia.
  - intros Ha Hm Hlt.
    assert (Hp : 0 <= angle * st#microsPerDegree) by (apply Z.mul_nonneg_nonneg; assumption).
    assert (E : angleToTimeMicroSecPerDegree st angle
                = (angle * st#microsPerDegree + 2 ^ 7) / 2 ^ 8).
    { unfold angleToTimeMicroSecPerDegree, microsPerDegree_Shift.
      rewrite (u32_id (angle * st#microsPerDegree)) by lia.
      rewrite RSHIFT_ROUND_div by lia.
      change (2 ^ (8 - 1)) with (2 ^ 7).
      apply u32_id. split.
      - apply Z.div_pos; lia.
      - apply Z.div_lt_upper_bound; lia. }
    split; [exact E|]. rewrite E. unfold nearestTo.
    pose proof (Z.div_mod (angle * st#microsPerDegree + 2 ^ 7) (2 ^ 8)).
    pose proof (Z.mod_pos_bound (angle * st#microsPerDegree + 2 ^ 7) (2 ^ 8)).
    lia.
Qed.

(** *** Frame properties: which variables a routine can write *)

Lemma sameOutside_refl (L : list Var) (s : State) : sameOutside L s s.
Proof. intros x _. reflexivity. Qed.

Lemma sameOutside_set (L : list Var) (x : Var) (v : Z) (s s0 : State) :
  In x L -> sameOutside L s s0 -> sameOutside L (set x v s) s0.
Proof.
  intros Hin H y Hy. rewrite get_set_neq; [apply H; exact Hy|].
  intros ->. exact (Hy Hin).
Qed.

Lemma sameOutside_adjust (L : list Var) (c : AdjustCall) (s s0 : State) :
  sameOutside L s s0 -> sameOutside L (adjustCrankAngle c s) s0.
Proof. intros H y Hy. rewrite get_adjust. apply H; exact Hy. Qed.

Lemma sameOutside_bind (L : list Var) (s0 e : State) (b : State -> State) :
  sameOutside L e s0 ->
  (forall s, sameOutside L s s0 -> sameOutside L (b s) s0) ->
  sameOutside L (b e) s0.
Proof. intros He Hb. apply Hb. exact He. Qed.

Ltac in_list :=
  first
    [ assumption
    | solve [ simpl; repeat first [ left; reflexivity | right ] ]
    | match goal with
      | H : incl _ _ |- _ => apply H; solve [ simpl; repeat first [ left; reflexivity | right ] ]
      end ].

Ltac incl_list :=
  let x := fresh in
  let Hx := fresh in
  intros x Hx; simpl in Hx;
  repeat (destruct Hx as [Hx | Hx]; [ subst x; in_list | ]);
  contradiction.

(** Walks through a routine statement by statement; every assignment
    has to hit a variable of the list.  [tac] handles the calls. *)
Ltac frame_with tac :=
  first
    [ tac
    | lazymatch goal with
      | |- sameOutside ?L (let s := ?e in @?b s) ?s0 =>
          lazymatch type of e with
          | State =>
              apply (sameOutside_bind L s0 e b);
              [ frame_with tac | intros ? ?; cbv beta; frame_with tac ]
          | _ => change (sameOutside L (b e) s0); cbv beta; frame_with tac
          end
      | |- sameOutside _ (if ?c then _ else _) _ => destruct c; frame_with tac
      | |- sameOutside _ (set _ _ _) _ =>
          apply sameOutside_set; [ in_list | frame_with tac ]
      | |- sameOutside _ (adjustCrankAngle _ _) _ =>
          apply sameOutside_adjust; frame_with tac
      | |- sameOutside _ (match ?c with _ => _ end) _ => destruct c; frame_with tac
      | |- sameOutside _ ?s ?s => apply sameOutside_refl
      | |- _ => assumption
      end ].

Ltac frame := frame_with fail.

Lemma setFilter_writes (L : list Var) (g : Z) (s s0 : State) :
  In triggerFilterTime L -> sameOutside L s s0 -> sameOutside L (setFilter g s) s0.
Proof. intros Hin H. cbv beta delta [setFilter]. frame. Qed.

Lemma checkPerToothTiming_writes (L : list Var) (a t : Z) (s s0 : State) :
  sameOutside L s s0 -> sameOutside L (checkPerToothTiming a t s) s0.
Proof. intro H. cbv beta delta [checkPerToothTiming]. frame. Qed.

Lemma getCrankAngle_missingTooth_writes (L : list Var) (now : Z) (s s0 : State) :
  incl crankAngleWrites L -> sameOutside L s s0 ->
  sameOutside L (snd (getCrankAngle_missingTooth now s)) s0.
Proof.
  intros Hin H. cbv beta delta [getCrankAngle_missingTooth rawCrankAngle_missingTooth].
  cbv zeta. cbn [snd]. frame.
Qed.

Lemma getCrankAngle_DualWheel_writes (L : list Var) (now : Z) (s s0 : State) :
  incl crankAngleWrites L -> sameOutside L s s0 ->
  sameOutside L (snd (getCrankAngle_DualWheel now s)) s0.
Proof.
  intros Hin H. cbv beta delta [getCrankAngle_DualWheel rawCrankAngle_DualWheel].
  cbv zeta. cbn [snd]. frame.
Qed.

Ltac frame_calls self :=
  lazymatch goal with
  | |- sameOutside _ (setFilter _ _) _ =>
      apply setFilter_writes; [ in_list | self ]
  | |- sameOutside _ (checkPerToothTiming _ _ _) _ =>
      apply checkPerToothTiming_writes; self
  | |- sameOutside ?L (match getCrankAngle_missingTooth ?n ?s1 with _ => _ end) ?s0 =>
      let H := fresh "Hgca" in
      assert (H : sameOutside L (snd (getCrankAngle_missingTooth n s1)) s0)
        by (apply getCrankAngle_missingTooth_writes; [ incl_list | self ]);
      destruct (getCrankAngle_missingTooth n s1); cbn [snd] in H; self
  end.

Ltac frame1 := frame_with ltac:(idtac; frame_calls frame1).

Lemma triggerRecordVVT1Angle_writes (L : list Var) (now : Z) (s s0 : State) :
  incl vvt1Writes L -> sameOutside L s s0 ->
  sameOutside L (triggerRecordVVT1Angle getCrankAngle_missingTooth now s) s0.
Proof. intros Hin H. cbv beta delta [triggerRecordVVT1Angle]. frame1. Qed.

Ltac frame_calls2 self :=
  first
    [ frame_calls self
    | lazymatch goal with
      | |- sameOutside _ (triggerRecordVVT1Angle getCrankAngle_missingTooth _ _) _ =>
          apply triggerRecordVVT1Angle_writes; [ incl_list | self ]
      end ].

Ltac frame2 := frame_with ltac:(idtac; frame_calls2 frame2).

Lemma triggerSec_missingTooth_capture_writes (now : Z) (st : State) :
  sameOutside secCaptureWrites (triggerSec_missingTooth_capture now st) st.
Proof. cbv beta delta [triggerSec_missingTooth_capture secCaptureWrites]. frame. Qed.

Lemma triggerSec_missingTooth_switch_writes (now' : Z) (st : State) :
  sameOutside secSwitchWrites
              (triggerSec_missingTooth_switch getCrankAngle_missingTooth now' st) st.
Proof. cbv beta delta [triggerSec_missingTooth_switch secSwitchWrites]. frame2. Qed.

Lemma triggerSec_missingTooth_writes (now now' : Z) (st : State) :
  sameOutside (secCaptureWrites ++ secSwitchWrites)
              (triggerSec_missingTooth getCrankAngle_missingTooth now now' st) st.
Proof.
  cbv beta delta [triggerSec_missingTooth triggerSec_missingTooth_switch
                  triggerSec_missingTooth_capture secCaptureWrites secSwitchWrites].
  cbn [app]. frame2.
Qed.

Lemma triggerThird_missingTooth_capture_writes (now : Z) (st : State) :
  sameOutside thirdCaptureWrites (triggerThird_missingTooth_capture now st) st.
Proof. cbv beta delta [triggerThird_missingTooth_capture thirdCaptureWrites]. frame. Qed.

Lemma triggerThird_missingTooth_record_writes (now' : Z) (st : State) :
  sameOutside thirdRecordWrites
              (triggerThird_missingTooth_record getCrankAngle_missingTooth now' st) st.
Proof. cbv beta delta [triggerThird_missingTooth_record thirdRecordWrites]. frame2. Qed.

Lemma triggerThird_missingTooth_writes (now now' : Z) (st : State) :
  sameOutside (thirdCaptureWrites ++ thirdRecordWrites)
              (triggerThird_missingTooth getCrankAngle_missingTooth now now' st) st.
Proof.
  cbv beta delta [triggerThird_missingTooth triggerThird_missingTooth_record
                  triggerThird_missingTooth_capture thirdCaptureWrites thirdRecordWrites].
  cbn [app]. frame2.
Qed.

Lemma triggerPri_DualWheel_writes (now : Z) (st : State) :
  sameOutside priDualWheelWrites (triggerPri_DualWheel now st) st.
Proof.
  cbv beta delta [triggerPri_DualWheel triggerPri_DualWheel_accepted
                  triggerPri_DualWheel_capture priDualWheelWrites].
  frame2.
Qed.

Lemma triggerSec_DualWheel_writes (now now1 now2 : Z) (st : State) :
  sameOutside secDualWheelWrites (triggerSec_DualWheel now now1 now2 st) st.
Proof.
  cbv beta delta [triggerSec_DualWheel triggerSec_DualWheel_accepted
                  triggerSec_DualWheel_capture secDualWheelWrites].
  frame2.
Qed.

(** *** The VVT angle loop *)

(** The loop of the VVT capture ends: from any [int16_t] the angle is
    at most 360 after fewer than 100 rounds. *)
Lemma wrapTo360_enough_fuel (fuel : nat) (curAngle : Z) :
  curAngle < 2 ^ 15 ->
  curAngle <= 360 + 360 * Z.of_nat fuel ->
  wrapTo360 fuel curAngle <= 360.
Proof.
  revert curAngle. induction fuel as [| fuel IH]; intros a Hmax Hfuel.
  - simpl in *. lia.
  - cbn [wrapTo360]. destruct (a >? 360) eqn:E.
    + rewrite Z.gtb_ltb in E. apply Z.ltb_lt in E.
      rewrite s16_id by lia. apply IH; lia.
    + rewrite Z.gtb_ltb in E. apply Z.ltb_ge in E. exact E.
Qed.

Lemma wrapTo360_terminates (curAngle : Z) :
  wrapTo360 100 (s16 curAngle) <= 360.
Proof.
  pose proof (s16_range curAngle) as H.
  apply wrapTo360_enough_fuel; [lia|]. change (Z.of_nat 100) with 100. lia.
Qed.

(** *** Revolution time and its derivatives *)

Lemma SetRevolutionTime_unchanged (revTime : Z) (st : State) :
  revTime = st#revolutionTime -> SetRevolutionTime revTime st = (false, st).
Proof.
  intros ->. unfold SetRevolutionTime. rewrite Z.eqb_refl. reflexivity.
Qed.

Lemma SetRevolutionTime_changed (revTime : Z) (st : State) :
  revTime <> st#revolutionTime ->
  SetRevolutionTime revTime st
  = (true, set degreesPerMicro (degreesPerMicroOf revTime)
             (set microsPerDegree (microsPerDegreeOf revTime)
                (set revolutionTime revTime st))).
Proof.
  intro H. unfold SetRevolutionTime. apply Z.eqb_neq in H. rewrite H. cbn [negb].
  cbv zeta. store. reflexivity.
Qed.

Lemma SetRevolutionTime_writes (revTime : Z) (st : State) :
  sameOutside revolutionVars (snd (SetRevolutionTime revTime st)) st.
Proof.
  destruct (Z.eq_dec revTime st#revolutionTime) as [E | E].
  - rewrite SetRevolutionTime_unchanged by exact E. apply sameOutside_refl.
  - rewrite SetRevolutionTime_changed by exact E. cbn [snd].
    unfold revolutionVars. frame.
Qed.

(** Reading a variable that a routine cannot write. *)
Lemma sameOutside_get (L : list Var) (a b : State) (x : Var) :
  sameOutside L a b -> ~ In x L -> a#x = b#x.
Proof. intros H Hx. apply H. exact Hx. Qed.

Ltac not_in_list :=
  let H := fresh in
  intro H; simpl in H;
  repeat (destruct H as [H | H]; [ discriminate H | ]);
  contradiction.

(** C3: [SetRevolutionTime] does nothing and reports [false] when the
    revolution time it is given is the stored one; otherwise it stores
    the new time together with both derivatives computed from it and
    reports [true], so a state whose derivatives belong to its
    revolution time stays so.  No edge handler and no crank-angle
    reader writes the revolution time or either derivative. *)
Theorem SetRevolutionTime_sole_writer (revTime : Z) (st : State) :
  (revTime = st#revolutionTime -> SetRevolutionTime revTime st = (false, st))
  /\ (revTime <> st#revolutionTime ->
      fst (SetRevolutionTime revTime st) = true
      /\ (snd (SetRevolutionTime revTime st))#revolutionTime = revTime
      /\ (snd (SetRevolutionTime revTime st))#microsPerDegree = microsPerDegreeOf revTime
      /\ (snd (SetRevolutionTime revTime st))#degreesPerMicro = degreesPerMicroOf revTime
      /\ sameOutside revolutionVars (snd (SetRevolutionTime revTime st)) st)
  /\ (derivativesInStep st -> derivativesInStep (snd (SetRevolutionTime revTime st)))
  /\ (forall x, In x revolutionVars ->
      forall now now1 now2 : Z,
        (triggerPri_DualWheel now st)#x = st#x
        /\ (triggerSec_DualWheel now now1 now2 st)#x = st#x
        /\ (triggerSec_missingTooth getCrankAngle_missingTooth now now1 st)#x = st#x
        /\ (triggerThird_missingTooth getCrankAngle_missingTooth now now1 st)#x = st#x
        /\ (snd (getCrankAngle_missingTooth now st))#x = st#x
        /\ (snd (getCrankAngle_DualWheel now st))#x = st#x).
Proof.
  split; [apply SetRevolutionTime_unchanged|].
  split.
  { intro H. rewrite SetRevolutionTime_changed by exact H. cbn [fst snd].
    store. repeat split; try reflexivity.
    unfold revolutionVars. frame. }
  split.
  { intro Hinv. destruct (Z.eq_dec revTime st#revolutionTime) as [E | E].
    - rewrite SetRevolutionTime_unchanged by exact E. exact Hinv.
    - rewrite SetRevolutionTime_changed by exact E. cbn [snd].
      unfold derivativesInStep. store. split; reflexivity. }
  intros x Hx now now1 now2.
  assert (Hcases : x = revolutionTime \/ x = microsPerDegree \/ x = degreesPerMicro).
  { simpl in Hx. destruct Hx as [Hx | [Hx | [Hx | []]]]; subst x; auto. }
  repeat split.
  - apply (sameOutside_get _ _ _ _ (triggerPri_DualWheel_writes now st)).
    destruct Hcases as [-> | [-> | ->]]; not_in_list.
  - apply (sameOutside_get _ _ _ _ (triggerSec_DualWheel_writes now now1 now2 st)).
    destruct Hcases as [-> | [-> | ->]]; not_in_list.
  - apply (sameOutside_get _ _ _ _ (triggerSec_missingTooth_writes now now1 st)).
    destruct Hcases as [-> | [-> | ->]]; not_in_list.
  - apply (sameOutside_get _ _ _ _ (triggerThird_missingTooth_writes now now1 st)).
    destruct Hcases as [-> | [-> | ->]]; not_in_list.
  - apply (sameOutside_get crankAngleWrites).
    + apply getCrankAngle_missingTooth_writes;
        [apply incl_refl | apply sameOutside_refl].
    + destruct Hcases as [-> | [-> | ->]]; not_in_list.
  - apply (sameOutside_get crankAngleWrites).
    + apply getCrankAngle_DualWheel_writes;
        [apply incl_refl | apply sameOutside_refl].
    + destruct Hcases as [-> | [-> | ->]]; not_in_list.
Qed.

(** *** RPM estimators *)

Lemma clampRpm_guard (st : State) (rpm : Z) :
  clampRpm st rpm = if MAX_RPM <=? rpm then st#(currentStatus RPM) else rpm.
Proof.
  unfold clampRpm. rewrite Z.geb_leb. reflexivity.
Qed.

Lemma RpmFromRevolutionTimeUs_guard (st : State) (revTime : Z) :
  RpmFromRevolutionTimeUs st revTime
  = if MAX_RPM <=? rpmQuotient revTime
    then st#(currentStatus RPM) else rpmQuotient revTime.
Proof.
  unfold RpmFromRevolutionTimeUs, rpmQuotient.
  destruct (revTime <? UINT16_MAX); apply clampRpm_guard.
Qed.

Lemma SetRevolutionTime_RPM (revTime : Z) (st : State) :
  (snd (SetRevolutionTime revTime st))#(currentStatus RPM) = st#(currentStatus RPM).
Proof.
  apply (sameOutside_get _ _ _ _ (SetRevolutionTime_writes revTime st)). not_in_list.
Qed.

Lemma UpdateRevolutionTimeFromTeeth_RPM (isCamTeeth : bool) (st : State) :
  (snd (UpdateRevolutionTimeFromTeeth isCamTeeth st))#(currentStatus RPM)
  = st#(currentStatus RPM).
Proof.
  unfold UpdateRevolutionTimeFromTeeth.
  destruct (_ && _); [apply SetRevolutionTime_RPM | reflexivity].
Qed.

(** C7: the value an RPM computation yields (the 16-bit quotient for
    the revolution time) is returned as it is when it is below
    [MAX_RPM] and replaced by the stored [currentStatus.RPM] when it is
    [MAX_RPM] or more.  That holds of the guard itself, of the RPM of a
    revolution time, of the steady-state estimator whenever it has
    stored a new revolution time, and of the cranking estimator
    whenever it has: after the staging cycles, with sync or half-sync
    and two tooth times in order, a tooth gap that changes the
    revolution time yields the guarded RPM of the new time (for a
    [MAX_RPM] that fits the [int] result: the RPM itself below
    [MAX_RPM], the stored one otherwise).  Where no RPM is computed,
    both estimators return the stored RPM. *)
Theorem rpm_at_or_above_maximum_is_discarded
        (st : State) (revTime totalTeeth : Z) (isCamTeeth : bool) :
  (forall rpm, clampRpm st rpm = if MAX_RPM <=? rpm then st#(currentStatus RPM) else rpm)
  /\ RpmFromRevolutionTimeUs st revTime
     = (if MAX_RPM <=? rpmQuotient revTime
        then st#(currentStatus RPM) else rpmQuotient revTime)
  /\ fst (stdGetRPM isCamTeeth st)
     = (let (updated, st') := UpdateRevolutionTimeFromTeeth isCamTeeth st in
        if updated && (rpmQuotient st'#revolutionTime <? MAX_RPM)
        then rpmQuotient st'#revolutionTime
        else st#(currentStatus RPM))
  /\ (StgCycles page4 <= st#(currentStatus startRevolutions) ->
      st#(currentStatus hasSync) = 1
      \/ BIT_CHECK st#(currentStatus status3) BIT_STATUS3_HALFSYNC = true ->
      0 < st#toothLastMinusOneToothTime < st#toothLastToothTime ->
      Z.shiftr (u32 (u32 (st#toothLastToothTime - st#toothLastMinusOneToothTime)
                     * totalTeeth))
               (if isCamTeeth then 1 else 0) <> st#revolutionTime ->
      fst (crankingGetRPM totalTeeth isCamTeeth st)
      = s16 (if MAX_RPM
                <=? rpmQuotient
                      (Z.shiftr (u32 (u32 (st#toothLastToothTime
                                           - st#toothLastMinusOneToothTime)
                                      * totalTeeth))
                                (if isCamTeeth then 1 else 0))
             then st#(currentStatus RPM)
             else rpmQuotient
                    (Z.shiftr (u32 (u32 (st#toothLastToothTime
                                         - st#toothLastMinusOneToothTime)
                                    * totalTeeth))
                              (if isCamTeeth then 1 else 0)))
      /\ (MAX_RPM <= 2 ^ 15 ->
          0 <= rpmQuotient
                 (Z.shiftr (u32 (u32 (st#toothLastToothTime
                                      - st#toothLastMinusOneToothTime)
                                 * totalTeeth))
                           (if isCamTeeth then 1 else 0)) < MAX_RPM ->
          fst (crankingGetRPM totalTeeth isCamTeeth st)
          = rpmQuotient
              (Z.shiftr (u32 (u32 (st#toothLastToothTime
                                   - st#toothLastMinusOneToothTime)
                              * totalTeeth))
                        (if isCamTeeth then 1 else 0)))
      /\ (MAX_RPM <= rpmQuotient
                       (Z.shiftr (u32 (u32 (st#toothLastToothTime
                                            - st#toothLastMinusOneToothTime)
                                       * totalTeeth))
                                 (if isCamTeeth then 1 else 0)) ->
          fst (crankingGetRPM totalTeeth isCamTeeth st) = s16 st#(currentStatus RPM)))
  /\ (st#(currentStatus startRevolutions) < StgCycles page4
      \/ (st#(currentStatus hasSync) <> 1
          /\ BIT_CHECK st#(currentStatus status3) BIT_STATUS3_HALFSYNC = false)
      \/ st#toothLastMinusOneToothTime <= 0
      \/ st#toothLastToothTime <= st#toothLastMinusOneToothTime
      \/ Z.shiftr (u32 (u32 (st#toothLastToothTime - st#toothLastMinusOneToothTime)
                        * totalTeeth))
                  (if isCamTeeth then 1 else 0) = st#revolutionTime ->
      fst (crankingGetRPM totalTeeth isCamTeeth st) = s16 st#(currentStatus RPM)).
Proof.
  split; [apply clampRpm_guard|].
  split; [apply RpmFromRevolutionTimeUs_guard|].
  split.
  { unfold stdGetRPM.
    pose proof (UpdateRevolutionTimeFromTeeth_RPM isCamTeeth st) as Hrpm.
    destruct (UpdateRevolutionTimeFromTeeth isCamTeeth st) as [updated st'].
    cbn [snd] in Hrpm. destruct updated; cbn [fst andb]; [|exact Hrpm].
    rewrite RpmFromRevolutionTimeUs_guard, Hrpm.
    rewrite Z.ltb_antisym. destruct (MAX_RPM <=? _); reflexivity. }
  set (T := Z.shiftr (u32 (u32 (st#toothLastToothTime - st#toothLastMinusOneToothTime)
                           * totalTeeth))
                     (if isCamTeeth then 1 else 0)).
  split.
  - intros Hrev Hsync Hteeth Hne.
    assert (Hc1 : (st#(currentStatus startRevolutions) >=? StgCycles page4)
                  && ((st#(currentStatus hasSync) =? 1)
                      || BIT_CHECK st#(currentStatus status3) BIT_STATUS3_HALFSYNC) = true).
    { apply andb_true_iff. split.
      - rewrite Z.geb_leb. apply Z.leb_le. exact Hrev.
      - apply orb_true_iff. destruct Hsync as [H | H];
          [left; apply Z.eqb_eq; exact H | right; exact H]. }
    assert (Hc2 : (st#toothLastMinusOneToothTime >? 0)
                  && (st#toothLastToothTime >? st#toothLastMinusOneToothTime) = true).
    { rewrite !Z.gtb_ltb. apply andb_true_iff. split; apply Z.ltb_lt; lia. }
    assert (E : fst (crankingGetRPM totalTeeth isCamTeeth st)
                = s16 (if MAX_RPM <=? rpmQuotient T
                       then st#(currentStatus RPM) else rpmQuotient T)).
    { unfold crankingGetRPM. rewrite Hc1, Hc2. fold T.
      pose proof (SetRevolutionTime_RPM T st) as Hrpm.
      rewrite SetRevolutionTime_changed in * by exact Hne. cbn [fst snd] in *.
      rewrite RpmFromRevolutionTimeUs_guard, Hrpm. store. reflexivity. }
    split; [exact E|]. split.
    + intros Hmax Hq. rewrite E.
      destruct (Z.leb_spec MAX_RPM (rpmQuotient T)) as [Hge|_]; [lia|].
      apply s16_id. lia.
    + intro Hge. rewrite E.
      destruct (Z.leb_spec MAX_RPM (rpmQuotient T)) as [_|Hlt]; [reflexivity | lia].
  - intro H. unfold crankingGetRPM.
    destruct ((st#(currentStatus startRevolutions) >=? StgCycles page4)
              && ((st#(currentStatus hasSync) =? 1)
                  || BIT_CHECK st#(currentStatus status3) BIT_STATUS3_HALFSYNC)) eqn:Hc1;
      [|reflexivity].
    destruct ((st#toothLastMinusOneToothTime >? 0)
              && (st#toothLastToothTime >? st#toothLastMinusOneToothTime)) eqn:Hc2;
      [|reflexivity].
    fold T.
    apply andb_true_iff in Hc1. destruct Hc1 as [Ha Hb].
    apply andb_true_iff in Hc2. destruct Hc2 as [Hc Hd].
    rewrite Z.geb_leb in Ha. apply Z.leb_le in Ha.
    rewrite Z.gtb_ltb in Hc, Hd. apply Z.ltb_lt in Hc. apply Z.ltb_lt in Hd.
    apply orb_true_iff in Hb.
    destruct H as [H | [[H1 H2] | [H | [H | H]]]]; try lia.
    + exfalso. destruct Hb as [Hb | Hb];
        [apply Z.eqb_eq in Hb; contradiction | congruence].
    + rewrite SetRevolutionTime_unchanged by exact H. reflexivity.
Qed.

(** *** Dual wheel: the trigger filter and sync *)

Lemma triggerPri_DualWheel_capture_gap (now : Z) (st : State) :
  (triggerPri_DualWheel_capture now st)#curGap = u32 (now - st#toothLastToothTime)
  /\ (triggerPri_DualWheel_capture now st)#triggerFilterTime = st#triggerFilterTime.
Proof. unfold triggerPri_DualWheel_capture. cbv zeta. store. split; reflexivity. Qed.

Lemma triggerSec_DualWheel_capture_gap (now : Z) (st : State) :
  (triggerSec_DualWheel_capture now st)#curGap2 = u32 (now - st#toothLastSecToothTime)
  /\ (triggerSec_DualWheel_capture now st)#triggerSecFilterTime = st#triggerSecFilterTime
  /\ (triggerSec_DualWheel_capture now st)#revolutionTime = st#revolutionTime.
Proof.
  unfold triggerSec_DualWheel_capture. cbv zeta. store. repeat split; reflexivity.
Qed.

Lemma triggerPri_DualWheel_filtered (now : Z) (st : State) :
  u32 (now - st#toothLastToothTime) < st#triggerFilterTime ->
  triggerPri_DualWheel now st = triggerPri_DualWheel_capture now st.
Proof.
  intro H. unfold triggerPri_DualWheel. cbv zeta.
  destruct (triggerPri_DualWheel_capture_gap now st) as [-> ->].
  rewrite Z.geb_leb. apply Z.leb_gt in H. rewrite H. reflexivity.
Qed.

Lemma triggerSec_DualWheel_filtered (now now1 now2 : Z) (st : State) :
  u32 (now - st#toothLastSecToothTime) < st#triggerSecFilterTime ->
  triggerSec_DualWheel now now1 now2 st
  = set triggerSecFilterTime (Z.shiftr st#revolutionTime 1)
        (triggerSec_DualWheel_capture now st).
Proof.
  intro H. unfold triggerSec_DualWheel. cbv zeta.
  destruct (triggerSec_DualWheel_capture_gap now st) as [-> [-> ->]].
  rewrite Z.geb_leb. apply Z.leb_gt in H. rewrite H. reflexivity.
Qed.

Lemma triggerSec_DualWheel_passed (now now1 now2 : Z) (st : State) :
  st#triggerSecFilterTime <= u32 (now - st#toothLastSecToothTime) ->
  triggerSec_DualWheel now now1 now2 st
  = triggerSec_DualWheel_accepted now1 now2 (triggerSec_DualWheel_capture now st).
Proof.
  intro H. unfold triggerSec_DualWheel. cbv zeta.
  destruct (triggerSec_DualWheel_capture_gap now st) as [-> [-> _]].
  rewrite Z.geb_leb. apply Z.leb_le in H. rewrite H. reflexivity.
Qed.

(** C5: a secondary pulse that passes its filter while sync is not
    yet achieved, or while the count of start-up revolutions is still
    within the configured number of start-up cycles, sets the primary
    tooth counter to the configured tooth count and the sync flag to
    true. *)
Theorem DualWheel_secondary_forces_sync (now now1 now2 : Z) (st : State) :
  0 <= triggerTeeth page4 < 2 ^ 16 ->
  st#triggerSecFilterTime <= u32 (now - st#toothLastSecToothTime) ->
  st#(currentStatus hasSync) = 0
  \/ st#(currentStatus startRevolutions) <= StgCycles page4 ->
  (triggerSec_DualWheel now now1 now2 st)#toothCurrentCount = triggerTeeth page4
  /\ (triggerSec_DualWheel now now1 now2 st)#(currentStatus hasSync) = 1.
Proof.
  intros Hteeth Hgap Hsync.
  rewrite triggerSec_DualWheel_passed by exact Hgap.
  unfold triggerSec_DualWheel_accepted, triggerSec_DualWheel_capture. cbv zeta. store.
  assert (Hc : (st#(currentStatus hasSync) =? 0)
               || (st#(currentStatus startRevolutions) <=? StgCycles page4) = true).
  { apply orb_true_iff. destruct Hsync as [H | H].
    - left. apply Z.eqb_eq. exact H.
    - right. apply Z.leb_le. exact H. }
  rewrite Hc. store. rewrite u16_id by exact Hteeth. split; reflexivity.
Qed.

(** *** Missing tooth: the first edge on the cam inputs *)

Lemma triggerSec_missingTooth_capture_first (now : Z) (st : State) :
  st#toothLastSecToothTime = 0 ->
  triggerSec_missingTooth_capture now st
  = set toothLastSecToothTime now
        (set curGap2 0 (set curGap2 (u32 (now - 0)) (set curTime2 now st))).
Proof.
  intro H. unfold triggerSec_missingTooth_capture. cbv zeta. store.
  rewrite H. reflexivity.
Qed.

Lemma triggerThird_missingTooth_capture_first (now : Z) (st : State) :
  st#toothLastThirdToothTime = 0 ->
  triggerThird_missingTooth_capture now st
  = set toothLastThirdToothTime now
        (set curGap3 0 (set curGap3 (u32 (now - 0)) (set curTime3 now st))).
Proof.
  intro H. unfold triggerThird_missingTooth_capture. cbv zeta. store.
  rewrite H. reflexivity.
Qed.

(** C4 (as amended): the first edge on the secondary or on the
    tertiary input (stored last-tooth time still 0) always records its
    time as the last-tooth time of that input and sets the gap to 0.
    It passes the trigger filter exactly when the filter duration is
    0; while the filter duration is positive nothing but the capture
    registers and that last-tooth time is written: tooth counter,
    filter duration and VVT angle keep their values. *)
Theorem missingTooth_first_cam_edge (now now' : Z) (st : State) :
  (st#toothLastSecToothTime = 0 ->
   secEdgePassesFilter now st = (st#triggerSecFilterTime <=? 0)
   /\ (triggerSec_missingTooth getCrankAngle_missingTooth now now' st)#toothLastSecToothTime
      = now
   /\ (triggerSec_missingTooth getCrankAngle_missingTooth now now' st)#curGap2 = 0
   /\ (0 < st#triggerSecFilterTime ->
       sameOutside secCaptureWrites
                   (triggerSec_missingTooth getCrankAngle_missingTooth now now' st) st
       /\ timingAdjust (triggerSec_missingTooth getCrankAngle_missingTooth now now' st)
          = timingAdjust st))
  /\ (st#toothLastThirdToothTime = 0 ->
      thirdEdgePassesFilter now st = (st#triggerThirdFilterTime <=? 0)
      /\ (triggerThird_missingTooth getCrankAngle_missingTooth now now' st)
           #toothLastThirdToothTime = now
      /\ (triggerThird_missingTooth getCrankAngle_missingTooth now now' st)#curGap3 = 0
      /\ (0 < st#triggerThirdFilterTime ->
          sameOutside thirdCaptureWrites
                      (triggerThird_missingTooth getCrankAngle_missingTooth now now' st) st
          /\ timingAdjust (triggerThird_missingTooth getCrankAngle_missingTooth now now' st)
             = timingAdjust st)).
Proof.
  split; intro H0.
  - pose proof (triggerSec_missingTooth_capture_first now st H0) as Hcap.
    assert (Hgap : (triggerSec_missingTooth_capture now st)#curGap2 = 0)
      by (rewrite Hcap; store; reflexivity).
    assert (Hflt : (triggerSec_missingTooth_capture now st)#triggerSecFilterTime
                   = st#triggerSecFilterTime)
      by (rewrite Hcap; store; reflexivity).
    assert (Htime : (triggerSec_missingTooth_capture now st)#curTime2 = now)
      by (rewrite Hcap; store; reflexivity).
    assert (Hlast : (triggerSec_missingTooth_capture now st)#toothLastSecToothTime = now)
      by (rewrite Hcap; store; reflexivity).
    split.
    { unfold secEdgePassesFilter. cbv zeta. rewrite Hgap, Hflt. apply Z.geb_leb. }
    unfold triggerSec_missingTooth. cbv zeta. rewrite Hgap, Hflt, Z.geb_leb.
    destruct (st#triggerSecFilterTime <=? 0) eqn:E.
    + pose proof (triggerSec_missingTooth_switch_writes
                    now' (triggerSec_missingTooth_capture now st)) as Hsw.
      store.
      rewrite (sameOutside_get _ _ _ curTime2 Hsw) by not_in_list.
      rewrite (sameOutside_get _ _ _ curGap2 Hsw) by not_in_list.
      repeat split; try assumption.
      all: apply Z.leb_le in E; lia.
    + repeat split; try assumption.
      * apply triggerSec_missingTooth_capture_writes.
      * rewrite Hcap. reflexivity.
  - pose proof (triggerThird_missingTooth_capture_first now st H0) as Hcap.
    assert (Hgap : (triggerThird_missingTooth_capture now st)#curGap3 = 0)
      by (rewrite Hcap; store; reflexivity).
    assert (Hflt : (triggerThird_missingTooth_capture now st)#triggerThirdFilterTime
                   = st#triggerThirdFilterTime)
      by (rewrite Hcap; store; reflexivity).
    assert (Htime : (triggerThird_missingTooth_capture now st)#curTime3 = now)
      by (rewrite Hcap; store; reflexivity).
    assert (Hlast : (triggerThird_missingTooth_capture now st)#toothLastThirdToothTime = now)
      by (rewrite Hcap; store; reflexivity).
    split.
    { unfold thirdEdgePassesFilter. cbv zeta. rewrite Hgap, Hflt. apply Z.geb_leb. }
    unfold triggerThird_missingTooth. cbv zeta. rewrite Hgap, Hflt, Z.geb_leb.
    destruct (st#triggerThirdFilterTime <=? 0) eqn:E.
    + pose proof (triggerThird_missingTooth_record_writes
                    now' (triggerThird_missingTooth_capture now st)) as Hsw.
      store.
      rewrite (sameOutside_get _ _ _ curTime3 Hsw) by not_in_list.
      rewrite (sameOutside_get _ _ _ curGap3 Hsw) by not_in_list.
      repeat split; try assumption.
      all: apply Z.leb_le in E; lia.
    + repeat split; try assumption.
      * apply triggerThird_missingTooth_capture_writes.
      * rewrite Hcap. reflexivity.
Qed.

(** *** Edges inside the filter duration *)

Lemma triggerSec_missingTooth_filtered (now now' : Z) (st : State) :
  st#toothLastSecToothTime <> 0 ->
  u32 (now - st#toothLastSecToothTime) < st#triggerSecFilterTime ->
  triggerSec_missingTooth getCrankAngle_missingTooth now now' st
  = set curGap2 (u32 (now - st#toothLastSecToothTime)) (set curTime2 now st).
Proof.
  intros Hlast H. apply Z.eqb_neq in Hlast. apply Z.leb_gt in H.
  unfold triggerSec_missingTooth, triggerSec_missingTooth_capture. cbv zeta. store.
  rewrite Hlast. store. rewrite Z.geb_leb, H. reflexivity.
Qed.

Lemma triggerThird_missingTooth_filtered (now now' : Z) (st : State) :
  st#toothLastThirdToothTime <> 0 ->
  u32 (now - st#toothLastThirdToothTime) < st#triggerThirdFilterTime ->
  triggerThird_missingTooth getCrankAngle_missingTooth now now' st
  = set curGap3 (u32 (now - st#toothLastThirdToothTime)) (set curTime3 now st).
Proof.
  intros Hlast H. apply Z.eqb_neq in Hlast. apply Z.leb_gt in H.
  unfold triggerThird_missingTooth, triggerThird_missingTooth_capture. cbv zeta. store.
  rewrite Hlast. store. rewrite Z.geb_leb, H. reflexivity.
Qed.

(** C1 (as amended): an edge whose gap is below the filter duration of
    its input leaves the tooth index, every last-tooth and tooth-one
    time stamp and the external scheduler untouched.  The dual-wheel
    primary handler then writes only its capture registers [curTime]
    and [curGap] and keeps its filter duration; the dual-wheel
    secondary handler writes its capture registers [curTime2] and
    [curGap2] and resets its filter duration to half of the stored
    revolution time.  The missing-tooth secondary and tertiary handlers
    write only their capture registers, once their input has a
    last-tooth time. *)
Theorem filtered_edge_is_discarded (now now1 now2 : Z) (st : State) :
  (u32 (now - st#toothLastToothTime) < st#triggerFilterTime ->
   sameOutside [curTime; curGap] (triggerPri_DualWheel now st) st
   /\ timingAdjust (triggerPri_DualWheel now st) = timingAdjust st
   /\ (triggerPri_DualWheel now st)#toothCurrentCount = st#toothCurrentCount
   /\ (triggerPri_DualWheel now st)#triggerFilterTime = st#triggerFilterTime
   /\ (triggerPri_DualWheel now st)#toothLastToothTime = st#toothLastToothTime
   /\ (triggerPri_DualWheel now st)#toothLastMinusOneToothTime
      = st#toothLastMinusOneToothTime
   /\ (triggerPri_DualWheel now st)#toothOneTime = st#toothOneTime
   /\ (triggerPri_DualWheel now st)#toothOneMinusOneTime = st#toothOneMinusOneTime)
  /\ (u32 (now - st#toothLastSecToothTime) < st#triggerSecFilterTime ->
      sameOutside [curTime2; curGap2; triggerSecFilterTime]
                  (triggerSec_DualWheel now now1 now2 st) st
      /\ timingAdjust (triggerSec_DualWheel now now1 now2 st) = timingAdjust st
      /\ (triggerSec_DualWheel now now1 now2 st)#triggerSecFilterTime
         = Z.shiftr st#revolutionTime 1
      /\ (triggerSec_DualWheel now now1 now2 st)#toothCurrentCount = st#toothCurrentCount
      /\ (triggerSec_DualWheel now now1 now2 st)#toothLastSecToothTime
         = st#toothLastSecToothTime
      /\ (triggerSec_DualWheel now now1 now2 st)#toothLastToothTime = st#toothLastToothTime
      /\ (triggerSec_DualWheel now now1 now2 st)#toothLastMinusOneToothTime
         = st#toothLastMinusOneToothTime)
  /\ (st#toothLastSecToothTime <> 0 ->
      u32 (now - st#toothLastSecToothTime) < st#triggerSecFilterTime ->
      sameOutside [curTime2; curGap2]
                  (triggerSec_missingTooth getCrankAngle_missingTooth now now1 st) st
      /\ timingAdjust (triggerSec_missingTooth getCrankAngle_missingTooth now now1 st)
         = timingAdjust st)
  /\ (st#toothLastThirdToothTime <> 0 ->
      u32 (now - st#toothLastThirdToothTime) < st#triggerThirdFilterTime ->
      sameOutside [curTime3; curGap3]
                  (triggerThird_missingTooth getCrankAngle_missingTooth now now1 st) st
      /\ timingAdjust (triggerThird_missingTooth getCrankAngle_missingTooth now now1 st)
         = timingAdjust st).
Proof.
  split; [|split; [|split]].
  - intro H. rewrite triggerPri_DualWheel_filtered by exact H.
    unfold triggerPri_DualWheel_capture. cbv zeta. store.
    repeat split. frame.
  - intro H. rewrite triggerSec_DualWheel_filtered by exact H.
    unfold triggerSec_DualWheel_capture. cbv zeta. store.
    repeat split. frame.
  - intros Hlast H. rewrite triggerSec_missingTooth_filtered by assumption.
    split; [frame | reflexivity].
  - intros Hlast H. rewrite triggerThird_missingTooth_filtered by assumption.
    split; [frame | reflexivity].
Qed.

(** *** Crank angle *)

Lemma rawCrankAngle_missingTooth_range (now : Z) (st : State) :
  - 2 ^ 15 <= fst (rawCrankAngle_missingTooth now st) < 2 ^ 15.
Proof.
  unfold rawCrankAngle_missingTooth. cbv zeta. cbn [fst]. apply s16_range.
Qed.

Lemma rawCrankAngle_DualWheel_range (now : Z) (st : State) :
  - 2 ^ 15 <= fst (rawCrankAngle_DualWheel now st) < 2 ^ 15.
Proof.
  unfold rawCrankAngle_DualWheel. cbv zeta. cbn [fst].
  destruct (_ && _); apply s16_range.
Qed.

(** The two range corrections at the end of [getCrankAngle]: one
    subtraction of 720, one addition of [CRANK_ANGLE_MAX]. *)
Lemma single_pass_range (a : Z) :
  - 2 ^ 15 <= a < 2 ^ 15 ->
  0 < CRANK_ANGLE_MAX <= 720 ->
  0 <= (if (if a >=? 720 then s16 (a - 720) else a) <? 0
        then s16 ((if a >=? 720 then s16 (a - 720) else a) + CRANK_ANGLE_MAX)
        else (if a >=? 720 then s16 (a - 720) else a)) < 720
  <-> - CRANK_ANGLE_MAX <= a < 1440.
Proof.
  intros Ha Hmax. rewrite Z.geb_leb.
  destruct (720 <=? a) eqn:E1.
  - apply Z.leb_le in E1. rewrite (s16_id (a - 720)) by lia.
    destruct (a - 720 <? 0) eqn:E2.
    + apply Z.ltb_lt in E2. lia.
    + apply Z.ltb_ge in E2. lia.
  - apply Z.leb_gt in E1.
    destruct (a <? 0) eqn:E2.
    + apply Z.ltb_lt in E2. rewrite s16_id by lia. lia.
    + apply Z.ltb_ge in E2. lia.
Qed.

(** C2 (as amended): with [CRANK_ANGLE_MAX] between 1 and 720, either
    [getCrankAngle] returns a value in [0, 720) exactly when the angle
    it has before the range correction (tooth offset, base trigger
    angle, revolution offset and extrapolated degrees, as a 16-bit
    [int]) lies in [- CRANK_ANGLE_MAX, 1440).  The correction is one
    subtraction of 720 and one addition of [CRANK_ANGLE_MAX]; it is not
    repeated, and 720 is the bound for a span of 360 degrees too. *)
Theorem getCrankAngle_in_range_iff (now : Z) (st : State) :
  0 < CRANK_ANGLE_MAX <= 720 ->
  (0 <= fst (getCrankAngle_missingTooth now st) < 720
   <-> - CRANK_ANGLE_MAX <= fst (rawCrankAngle_missingTooth now st) < 1440)
  /\ (0 <= fst (getCrankAngle_DualWheel now st) < 720
      <-> - CRANK_ANGLE_MAX <= fst (rawCrankAngle_DualWheel now st) < 1440).
Proof.
  intro Hmax. split.
  - pose proof (rawCrankAngle_missingTooth_range now st) as Hr.
    unfold getCrankAngle_missingTooth.
    destruct (rawCrankAngle_missingTooth now st) as [a s]. cbv zeta. cbn [fst] in *.
    apply single_pass_range; assumption.
  - pose proof (rawCrankAngle_DualWheel_range now st) as Hr.
    unfold getCrankAngle_DualWheel.
    destruct (rawCrankAngle_DualWheel now st) as [a s]. cbv zeta. cbn [fst] in *.
    apply single_pass_range; assumption.
Qed.

Lemma s16_add_l (a b : Z) : s16 (s16 a + b) = s16 (a + b).
Proof. destruct (s16_wraps a) as [k Hk]. apply (s16_congr _ _ k). lia. Qed.

(** *** Ignition end teeth *)

Lemma toothRange_value (toothAdder : Z) :
  0 <= triggerTeeth page4 -> 0 <= toothAdder ->
  triggerTeeth page4 + toothAdder < 2 ^ 15 ->
  s16 (s16 (triggerTeeth page4) + s16 toothAdder) = triggerTeeth page4 + toothAdder.
Proof.
  intros Ht Ha Hlt. rewrite (s16_id (triggerTeeth page4)), (s16_id toothAdder) by lia.
  apply s16_id. lia.
Qed.

Lemma clampToToothCount_range (toothNum toothAdder : Z) :
  (forall hi v, 1 <= hi -> 1 <= nudge 1 hi v hi <= hi) ->
  1 <= triggerTeeth page4 -> 0 <= toothAdder ->
  triggerTeeth page4 + toothAdder < 2 ^ 15 ->
  1 <= clampToToothCount toothNum toothAdder <= triggerTeeth page4 + toothAdder.
Proof.
  intros Hn Ht Ha Hlt. unfold clampToToothCount. cbv zeta.
  rewrite toothRange_value by lia.
  specialize (Hn (triggerTeeth page4 + toothAdder) toothNum ltac:(lia)).
  rewrite u16_id; lia.
Qed.

Lemma clampToActualTeeth_range (st : State) (toothNum toothAdder : Z) :
  1 <= st#triggerActualTeeth <= triggerTeeth page4 ->
  0 <= toothAdder -> triggerTeeth page4 + toothAdder < 2 ^ 15 ->
  1 <= toothNum <= triggerTeeth page4 + toothAdder ->
  1 <= clampToActualTeeth st toothNum toothAdder <= triggerTeeth page4 + toothAdder
  /\ clampToActualTeeth st toothNum toothAdder <= st#triggerActualTeeth + toothAdder.
Proof.
  intros Hact Ha Hlt Hnum. unfold clampToActualTeeth. cbv zeta.
  rewrite (u16_id (st#triggerActualTeeth + toothAdder)) by lia.
  destruct (_ && _); lia.
Qed.

(** C8 (as amended): the missing-tooth end-tooth computation takes one
    tooth off the quotient before clamping when more than 12 teeth are
    configured and none otherwise; the dual-wheel computation clamps
    the quotient itself, whatever the tooth count.  Where clamping has
    nothing to correct the end tooth therefore is the quotient minus
    one, respectively the quotient. *)
Theorem endTooth_margin (st : State) (endAngle toothAdder : Z) :
  (forall lo hi v amt, lo <= v <= hi -> nudge lo hi v amt = v) ->
  0 <= toothAdder ->
  0 <= triggerTeeth page4 ->
  triggerTeeth page4 + toothAdder < 2 ^ 15 ->
  0 <= st#triggerActualTeeth <= triggerTeeth page4 ->
  calcEndTeeth_missingTooth st endAngle toothAdder
  = clampToActualTeeth st
      (clampToToothCount
         (if 12 <? triggerTeeth page4
          then s16 (endToothQuotient st endAngle - 1)
          else endToothQuotient st endAngle) toothAdder) toothAdder
  /\ calcEndTeeth_DualWheel st endAngle toothAdder
     = clampToToothCount (endToothQuotient st endAngle) toothAdder
  /\ (1 <= (if 12 <? triggerTeeth page4
            then endToothQuotient st endAngle - 1
            else endToothQuotient st endAngle) <= st#triggerActualTeeth ->
      calcEndTeeth_missingTooth st endAngle toothAdder
      = if 12 <? triggerTeeth page4
        then endToothQuotient st endAngle - 1
        else endToothQuotient st endAngle)
  /\ (1 <= endToothQuotient st endAngle <= triggerTeeth page4 + toothAdder ->
      calcEndTeeth_DualWheel st endAngle toothAdder = endToothQuotient st endAngle).
Proof.
  intros Hn Ha Ht Hlt Hact.
  assert (Hq : - 2 ^ 15 <= endToothQuotient st endAngle < 2 ^ 15)
    by (unfold endToothQuotient; apply s16_range).
  split; [|split; [|split]].
  - unfold calcEndTeeth_missingTooth. cbv zeta. rewrite Z.gtb_ltb. reflexivity.
  - reflexivity.
  - intro Hm. unfold calcEndTeeth_missingTooth, clampToToothCount, clampToActualTeeth.
    cbv zeta. rewrite !Z.gtb_ltb, toothRange_value by lia.
    set (m := if 12 <? triggerTeeth page4
              then endToothQuotient st endAngle - 1
              else endToothQuotient st endAngle) in *.
    assert (Em : (if 12 <? triggerTeeth page4
                  then s16 (endToothQuotient st endAngle - 1)
                  else endToothQuotient st endAngle) = m).
    { subst m. destruct (12 <? triggerTeeth page4); [apply s16_id; lia | reflexivity]. }
    rewrite Em, Hn by lia. rewrite (u16_id m) by lia.
    rewrite (u16_id (st#triggerActualTeeth + toothAdder)) by lia.
    replace (st#triggerActualTeeth <? m) with false
      by (symmetry; apply Z.ltb_ge; lia).
    cbn [andb]. lia.
  - intro Hm. unfold calcEndTeeth_DualWheel, clampToToothCount. cbv zeta.
    rewrite toothRange_value by lia. rewrite Hn by lia. apply u16_id. lia.
Qed.

(** ** Further properties of the decoders *)

Ltac split_ifs :=
  repeat match goal with
    | |- context [if ?c then _ else _] => destruct c
    | |- context [match ?c with _ => _ end] => destruct c
    end.

Lemma checkPerToothTiming_get (a t : Z) (st : State) (x : Var) :
  (checkPerToothTiming a t st)#x = st#x.
Proof. unfold checkPerToothTiming. split_ifs; reflexivity. Qed.

(** *** The adaptive filter *)

Lemma u32_le (z : Z) : 0 <= z -> 0 <= u32 z <= z.
Proof.
  intro H. unfold u32. split.
  - apply Z.mod_pos_bound. lia.
  - apply Z.mod_le; lia.
Qed.

Lemma setFilter_bound (g : Z) (st : State) :
  0 <= g < 2 ^ 32 -> 0 <= (setFilter g st)#triggerFilterTime <= g.
Proof.
  intro Hg. unfold setFilter.
  destruct (triggerFilter page4 =? 0); [store; lia|].
  destruct (triggerFilter page4 =? 1).
  { store. rewrite Z.shiftr_div_pow2 by lia.
    pose proof (Z.div_mod g (2 ^ 2)). pose proof (Z.mod_pos_bound g (2 ^ 2)). lia. }
  destruct (triggerFilter page4 =? 2).
  { store. rewrite Z.shiftr_div_pow2 by lia.
    pose proof (Z.div_mod g (2 ^ 1)). pose proof (Z.mod_pos_bound g (2 ^ 1)). lia. }
  destruct (triggerFilter page4 =? 3); [|store; lia].
  store. rewrite Z.shiftr_div_pow2 by lia.
  pose proof (u32_le (g * 3) ltac:(lia)) as Hu.
  pose proof (Z.div_mod (u32 (g * 3)) (2 ^ 2)).
  pose proof (Z.mod_pos_bound (u32 (g * 3)) (2 ^ 2)). lia.
Qed.

(** X1: whatever the filter level, the filter duration [setFilter]
    installs is never longer than the gap it is computed from, so a
    tooth that follows at the same spacing passes it; nothing but the
    filter duration is written. *)
Theorem setFilter_at_most_gap (g : Z) (st : State) :
  0 <= g < 2 ^ 32 ->
  0 <= (setFilter g st)#triggerFilterTime <= g
  /\ sameOutside [triggerFilterTime] (setFilter g st) st
  /\ timingAdjust (setFilter g st) = timingAdjust st.
Proof.
  intro Hg. split; [|split].
  - apply setFilter_bound. exact Hg.
  - apply setFilter_writes; [in_list | apply sameOutside_refl].
  - unfold setFilter. split_ifs; reflexivity.
Qed.

(** *** The accepted primary edge of the dual wheel *)

Lemma triggerPri_DualWheel_accepted_blocks (st : State) :
  triggerPri_DualWheel_accepted st
  = triggerPri_DualWheel_perTooth
      (triggerPri_DualWheel_inSync (triggerPri_DualWheel_countTooth st)).
Proof. reflexivity. Qed.

Lemma triggerPri_DualWheel_passed (now : Z) (st : State) :
  st#triggerFilterTime <= u32 (now - st#toothLastToothTime) ->
  triggerPri_DualWheel now st
  = triggerPri_DualWheel_accepted (triggerPri_DualWheel_capture now st).
Proof.
  intro H. unfold triggerPri_DualWheel. cbv zeta.
  destruct (triggerPri_DualWheel_capture_gap now st) as [-> ->].
  rewrite Z.geb_leb. apply Z.leb_le in H. rewrite H. reflexivity.
Qed.

Lemma triggerPri_DualWheel_perTooth_get (st : State) (x : Var) :
  (triggerPri_DualWheel_perTooth st)#x = st#x.
Proof.
  unfold triggerPri_DualWheel_perTooth. cbv zeta.
  split_ifs; try reflexivity; apply checkPerToothTiming_get.
Qed.

Lemma setFilter_get (g : Z) (st : State) (x : Var) :
  x <> triggerFilterTime -> (setFilter g st)#x = st#x.
Proof.
  intro H. unfold setFilter. split_ifs; apply get_set_neq; congruence.
Qed.



Lemma triggerPri_DualWheel_countTooth_values (st : State) :
  (triggerPri_DualWheel_countTooth st)#toothCurrentCount = u16 (st#toothCurrentCount + 1)
  /\ (triggerPri_DualWheel_countTooth st)#toothLastToothTime = st#curTime
  /\ (triggerPri_DualWheel_countTooth st)#toothLastMinusOneToothTime
     = st#toothLastToothTime
  /\ (triggerPri_DualWheel_countTooth st)#decoderState
     = BIT_SET st#decoderState BIT_DECODER_VALID_TRIGGER
  /\ sameOutside [toothCurrentCount; decoderState; toothLastMinusOneToothTime;
                  toothLastToothTime] (triggerPri_DualWheel_countTooth st) st.
Proof.
  unfold triggerPri_DualWheel_countTooth. cbv zeta. store.
  repeat split. frame.
Qed.

Lemma triggerPri_DualWheel_hasSync (now : Z) (st : State) :
  (triggerPri_DualWheel now st)#(currentStatus hasSync) = st#(currentStatus hasSync).
Proof.
  apply (sameOutside_get _ _ _ _ (triggerPri_DualWheel_writes now st)). not_in_list.
Qed.

Lemma triggerPri_DualWheel_capture_get (now : Z) (st : State) (x : Var) :
  x <> curTime -> x <> curGap -> (triggerPri_DualWheel_capture now st)#x = st#x.
Proof.
  intros H1 H2. unfold triggerPri_DualWheel_capture. cbv zeta.
  rewrite !get_set_neq by congruence. reflexivity.
Qed.


Lemma triggerSec_DualWheel_accepted_sync (now1 now2 : Z) (st : State) :
  ((st#(currentStatus hasSync) =? 0)
   || (st#(currentStatus startRevolutions) <=? StgCycles page4) = true ->
   (triggerSec_DualWheel_accepted now1 now2 st)#(currentStatus hasSync) = 1
   /\ (triggerSec_DualWheel_accepted now1 now2 st)#toothCurrentCount
      = u16 (triggerTeeth page4))
  /\ ((st#(currentStatus hasSync) =? 0)
      || (st#(currentStatus startRevolutions) <=? StgCycles page4) = false ->
      (triggerSec_DualWheel_accepted now1 now2 st)#(currentStatus hasSync)
      = st#(currentStatus hasSync)
      /\ (triggerSec_DualWheel_accepted now1 now2 st)#toothCurrentCount
         = (if useResync page4 =? 1 then u16 (triggerTeeth page4)
            else st#toothCurrentCount)).
Proof.
  unfold triggerSec_DualWheel_accepted. cbv zeta. store. split; intro H; rewrite H.
  - store. split; reflexivity.
  - destruct (_ && _); destruct (useResync page4 =? 1); store; split; reflexivity.
Qed.

Lemma triggerSec_DualWheel_capture_get (now : Z) (st : State) (x : Var) :
  x <> curTime2 -> x <> curGap2 -> (triggerSec_DualWheel_capture now st)#x = st#x.
Proof.
  intros H1 H2. unfold triggerSec_DualWheel_capture. cbv zeta.
  rewrite !get_set_neq by congruence. reflexivity.
Qed.

(** *** Sync and the tooth index *)


(** X3: no edge handler takes sync away: a state in sync is in sync
    after any primary or secondary dual-wheel edge and after any
    secondary or tertiary missing-tooth edge, whether the edge passes
    its filter or not and whatever the sync-loss counter says. *)
Theorem edge_handlers_keep_sync (now now1 now2 : Z) (st : State) :
  st#(currentStatus hasSync) = 1 ->
  (triggerPri_DualWheel now st)#(currentStatus hasSync) = 1
  /\ (triggerSec_DualWheel now now1 now2 st)#(currentStatus hasSync) = 1
  /\ (triggerSec_missingTooth getCrankAngle_missingTooth now now1 st)
       #(currentStatus hasSync) = 1
  /\ (triggerThird_missingTooth getCrankAngle_missingTooth now now1 st)
       #(currentStatus hasSync) = 1.
Proof.
  intro Hs. split; [|split; [|split]].
  - rewrite triggerPri_DualWheel_hasSync. exact Hs.
  - destruct (Z.lt_ge_cases (u32 (now - st#toothLastSecToothTime))
                            st#triggerSecFilterTime) as [Hlt | Hge].
    + rewrite triggerSec_DualWheel_filtered by exact Hlt.
      rewrite get_set_neq by discriminate.
      rewrite triggerSec_DualWheel_capture_get by discriminate. exact Hs.
    + rewrite triggerSec_DualWheel_passed by exact Hge.
      destruct (triggerSec_DualWheel_accepted_sync
                  now1 now2 (triggerSec_DualWheel_capture now st)) as [Hyes Hno].
      rewrite !triggerSec_DualWheel_capture_get in Hyes, Hno by discriminate.
      destruct ((st#(currentStatus hasSync) =? 0)
                || (st#(currentStatus startRevolutions) <=? StgCycles page4)).
      * apply (Hyes eq_refl).
      * destruct (Hno eq_refl) as [-> _]. exact Hs.
  - rewrite (sameOutside_get _ _ _ _ (triggerSec_missingTooth_writes now now1 st))
      by not_in_list.
    exact Hs.
  - rewrite (sameOutside_get _ _ _ _ (triggerThird_missingTooth_writes now now1 st))
      by not_in_list.
    exact Hs.
Qed.

Lemma triggerPri_DualWheel_toothOne_get (st : State) (x : Var) :
  ~ In x [toothCurrentCount; revolutionOne; toothOneMinusOneTime; toothOneTime;
          currentStatus startRevolutions] ->
  (triggerPri_DualWheel_toothOne st)#x = st#x.
Proof.
  intro H. apply sameOutside_get with (L := [toothCurrentCount; revolutionOne;
    toothOneMinusOneTime; toothOneTime; currentStatus startRevolutions]); [|exact H].
  cbv beta delta [triggerPri_DualWheel_toothOne]. frame.
Qed.

(** *** What an accepted primary edge records *)


(** *** The RPM estimators between edges *)

Lemma SetRevolutionTime_get (revTime : Z) (st : State) (x : Var) :
  ~ In x revolutionVars -> (snd (SetRevolutionTime revTime st))#x = st#x.
Proof. intro H. apply (sameOutside_get _ _ _ _ (SetRevolutionTime_writes revTime st) H). Qed.

Lemma SetRevolutionTime_stored (revTime : Z) (st : State) :
  (snd (SetRevolutionTime revTime st))#revolutionTime = revTime.
Proof.
  destruct (Z.eq_dec revTime st#revolutionTime) as [E | E].
  - rewrite SetRevolutionTime_unchanged by exact E. symmetry. exact E.
  - rewrite SetRevolutionTime_changed by exact E. cbn [snd]. store. reflexivity.
Qed.

Lemma SetRevolutionTime_timingAdjust (revTime : Z) (st : State) :
  timingAdjust (snd (SetRevolutionTime revTime st)) = timingAdjust st.
Proof.
  destruct (Z.eq_dec revTime st#revolutionTime) as [E | E].
  - rewrite SetRevolutionTime_unchanged by exact E. reflexivity.
  - rewrite SetRevolutionTime_changed by exact E. reflexivity.
Qed.

Lemma IsCranking_SetRevolutionTime (revTime : Z) (st : State) :
  IsCranking (snd (SetRevolutionTime revTime st)) = IsCranking st.
Proof.
  unfold IsCranking. rewrite !SetRevolutionTime_get by not_in_list. reflexivity.
Qed.

(** X5: the steady-state estimator.  With sync, outside cranking and
    with a tooth-one time pair in order, [stdGetRPM] stores the
    difference of the pair (halved for a cam-speed wheel) as the
    revolution time together with its two derivatives, and when that
    changes the stored time it returns the RPM of the new time, guarded
    by the maximum.  Without sync, while cranking, before the second
    tooth one or with a pair out of order it changes nothing and
    returns the stored RPM. *)
Theorem stdGetRPM_from_tooth_one_pair (isCamTeeth : bool) (st : State) :
  (HasAnySync st = true -> IsCranking st = false ->
   st#toothOneMinusOneTime <> 0 ->
   st#toothOneMinusOneTime < st#toothOneTime ->
   (snd (stdGetRPM isCamTeeth st))#revolutionTime
   = Z.shiftr (u32 (st#toothOneTime - st#toothOneMinusOneTime))
              (if isCamTeeth then 1 else 0)
   /\ sameOutside revolutionVars (snd (stdGetRPM isCamTeeth st)) st
   /\ (Z.shiftr (u32 (st#toothOneTime - st#toothOneMinusOneTime))
                (if isCamTeeth then 1 else 0) <> st#revolutionTime ->
       derivativesInStep (snd (stdGetRPM isCamTeeth st))
       /\ fst (stdGetRPM isCamTeeth st)
          = (if MAX_RPM
                <=? rpmQuotient (Z.shiftr (u32 (st#toothOneTime - st#toothOneMinusOneTime))
                                          (if isCamTeeth then 1 else 0))
             then st#(currentStatus RPM)
             else rpmQuotient (Z.shiftr (u32 (st#toothOneTime - st#toothOneMinusOneTime))
                                        (if isCamTeeth then 1 else 0)))))
  /\ (HasAnySync st = false \/ IsCranking st = true
      \/ st#toothOneMinusOneTime = 0 \/ st#toothOneTime <= st#toothOneMinusOneTime ->
      stdGetRPM isCamTeeth st = (st#(currentStatus RPM), st)).
Proof.
  split.
  - intros Hsync Hcrank H0 Hlt.
    assert (Hupd : UpdateRevolutionTimeFromTeeth isCamTeeth st
                   = SetRevolutionTime
                       (Z.shiftr (u32 (st#toothOneTime - st#toothOneMinusOneTime))
                                 (if isCamTeeth then 1 else 0)) st).
    { unfold UpdateRevolutionTimeFromTeeth. rewrite Hsync, Hcrank.
      apply Z.eqb_neq in H0. rewrite H0.
      rewrite Z.gtb_ltb. apply Z.ltb_lt in Hlt. rewrite Hlt. reflexivity. }
    set (T := Z.shiftr (u32 (st#toothOneTime - st#toothOneMinusOneTime))
                       (if isCamTeeth then 1 else 0)) in *.
    assert (Hst : snd (stdGetRPM isCamTeeth st) = snd (SetRevolutionTime T st)).
    { unfold stdGetRPM. rewrite Hupd.
      destruct (SetRevolutionTime T st) as [[|] s]; reflexivity. }
    rewrite Hst. split; [apply SetRevolutionTime_stored|].
    split; [apply SetRevolutionTime_writes|].
    intro Hne. split.
    + rewrite SetRevolutionTime_changed by exact Hne. cbn [snd].
      unfold derivativesInStep. store. split; reflexivity.
    + unfold stdGetRPM. rewrite Hupd.
      pose proof (SetRevolutionTime_RPM T st) as Hrpm.
      rewrite SetRevolutionTime_changed in * by exact Hne. cbn [fst snd] in *.
      rewrite RpmFromRevolutionTimeUs_guard, Hrpm. store. reflexivity.
  - intro H. unfold stdGetRPM, UpdateRevolutionTimeFromTeeth.
    assert (E : HasAnySync st && negb (IsCranking st)
                && negb (st#toothOneMinusOneTime =? 0)
                && (st#toothOneTime >? st#toothOneMinusOneTime) = false).
    { destruct H as [H | [H | [H | H]]].
      - rewrite H. reflexivity.
      - rewrite H. apply andb_false_iff. left. apply andb_false_iff. left.
        apply andb_false_r.
      - rewrite H. cbn [Z.eqb negb]. rewrite andb_false_r. reflexivity.
      - rewrite Z.gtb_ltb. apply Z.ltb_ge in H. rewrite H. apply andb_false_r. }
    rewrite E. reflexivity.
Qed.

Lemma stdGetRPM_state (isCamTeeth : bool) (st : State) :
  snd (stdGetRPM isCamTeeth st) = snd (UpdateRevolutionTimeFromTeeth isCamTeeth st).
Proof.
  unfold stdGetRPM.
  destruct (UpdateRevolutionTimeFromTeeth isCamTeeth st) as [[|] s]; reflexivity.
Qed.

Lemma UpdateRevolutionTimeFromTeeth_cases (isCamTeeth : bool) (st : State) :
  UpdateRevolutionTimeFromTeeth isCamTeeth st = (false, st)
  \/ UpdateRevolutionTimeFromTeeth isCamTeeth st
     = SetRevolutionTime
         (Z.shiftr (u32 (st#toothOneTime - st#toothOneMinusOneTime))
                   (if isCamTeeth then 1 else 0)) st.
Proof.
  unfold UpdateRevolutionTimeFromTeeth.
  destruct (_ && _); [right | left]; reflexivity.
Qed.

Lemma UpdateRevolutionTimeFromTeeth_again (isCamTeeth : bool) (st : State) :
  UpdateRevolutionTimeFromTeeth isCamTeeth
    (snd (UpdateRevolutionTimeFromTeeth isCamTeeth st))
  = (false, snd (UpdateRevolutionTimeFromTeeth isCamTeeth st)).
Proof.
  destruct (UpdateRevolutionTimeFromTeeth_cases isCamTeeth st) as [E | E]; rewrite E.
  - cbn [snd]. exact E.
  - set (T := Z.shiftr (u32 (st#toothOneTime - st#toothOneMinusOneTime))
                       (if isCamTeeth then 1 else 0)).
    destruct (UpdateRevolutionTimeFromTeeth_cases
                isCamTeeth (snd (SetRevolutionTime T st))) as [E' | E'];
      rewrite E'; [reflexivity|].
    rewrite !(SetRevolutionTime_get T st) by not_in_list. fold T.
    apply SetRevolutionTime_unchanged. symmetry. apply SetRevolutionTime_stored.
Qed.

Lemma crankingGetRPM_cases (totalTeeth : Z) (isCamTeeth : bool) (st : State) :
  crankingGetRPM totalTeeth isCamTeeth st = (s16 st#(currentStatus RPM), st)
  \/ ((st#(currentStatus startRevolutions) >=? StgCycles page4)
      && ((st#(currentStatus hasSync) =? 1)
          || BIT_CHECK st#(currentStatus status3) BIT_STATUS3_HALFSYNC) = true
      /\ (st#toothLastMinusOneToothTime >? 0)
         && (st#toothLastToothTime >? st#toothLastMinusOneToothTime) = true
      /\ snd (crankingGetRPM totalTeeth isCamTeeth st)
         = snd (SetRevolutionTime
                  (Z.shiftr (u32 (u32 (st#toothLastToothTime
                                       - st#toothLastMinusOneToothTime) * totalTeeth))
                            (if isCamTeeth then 1 else 0)) st)).
Proof.
  unfold crankingGetRPM.
  destruct (_ && _); [|left; reflexivity].
  destruct (_ && _); [|left; reflexivity].
  right. split; [reflexivity|]. split; [reflexivity|].
  destruct (SetRevolutionTime _ st) as [[|] s]; reflexivity.
Qed.

(** X6: asking again changes nothing.  A second call of [stdGetRPM],
    or of [crankingGetRPM], with no edge in between returns the RPM
    stored in [currentStatus] (not the value the first call computed)
    and leaves the state as the first call left it. *)
Theorem rpm_estimators_settle (isCamTeeth : bool) (totalTeeth : Z) (st : State) :
  stdGetRPM isCamTeeth (snd (stdGetRPM isCamTeeth st))
  = (st#(currentStatus RPM), snd (stdGetRPM isCamTeeth st))
  /\ crankingGetRPM totalTeeth isCamTeeth (snd (crankingGetRPM totalTeeth isCamTeeth st))
     = (s16 st#(currentStatus RPM), snd (crankingGetRPM totalTeeth isCamTeeth st)).
Proof.
  split.
  - rewrite stdGetRPM_state. unfold stdGetRPM.
    rewrite UpdateRevolutionTimeFromTeeth_again, UpdateRevolutionTimeFromTeeth_RPM.
    reflexivity.
  - destruct (crankingGetRPM_cases totalTeeth isCamTeeth st) as [E | (Hc1 & Hc2 & E)].
    + rewrite E. cbn [snd]. exact E.
    + rewrite E. set (T := Z.shiftr _ _) in *.
      unfold crankingGetRPM.
      rewrite !(SetRevolutionTime_get T st) by not_in_list. rewrite Hc1, Hc2. fold T.
      rewrite SetRevolutionTime_unchanged
        by (symmetry; apply SetRevolutionTime_stored).
      rewrite SetRevolutionTime_RPM. reflexivity.
Qed.


Lemma stdGetRPM_writes (isCamTeeth : bool) (st : State) :
  sameOutside revolutionVars (snd (stdGetRPM isCamTeeth st)) st
  /\ timingAdjust (snd (stdGetRPM isCamTeeth st)) = timingAdjust st.
Proof.
  rewrite stdGetRPM_state.
  destruct (UpdateRevolutionTimeFromTeeth_cases isCamTeeth st) as [E | E]; rewrite E.
  - split; [apply sameOutside_refl | reflexivity].
  - split; [apply SetRevolutionTime_writes | apply SetRevolutionTime_timingAdjust].
Qed.

Lemma crankingGetRPM_writes (totalTeeth : Z) (isCamTeeth : bool) (st : State) :
  sameOutside revolutionVars (snd (crankingGetRPM totalTeeth isCamTeeth st)) st
  /\ timingAdjust (snd (crankingGetRPM totalTeeth isCamTeeth st)) = timingAdjust st.
Proof.
  destruct (crankingGetRPM_cases totalTeeth isCamTeeth st) as [E | (_ & _ & E)];
    rewrite E.
  - split; [apply sameOutside_refl | reflexivity].
  - split; [apply SetRevolutionTime_writes | apply SetRevolutionTime_timingAdjust].
Qed.

(** X8: reading the RPM never disturbs the decoder.  [getRPM_DualWheel]
    and [getRPM_missingTooth] write nothing but the revolution time and
    its two derivatives: tooth counters, time stamps, filters, sync and
    the stored RPM itself are as before.  Without sync
    [getRPM_DualWheel] returns 0 and writes nothing at all; below the
    cranking threshold at tooth 1 [getRPM_missingTooth] returns the
    stored RPM and writes nothing at all. *)
Theorem getRPM_writes_revolution_time_only (st : State) :
  sameOutside revolutionVars (snd (getRPM_DualWheel st)) st
  /\ timingAdjust (snd (getRPM_DualWheel st)) = timingAdjust st
  /\ sameOutside revolutionVars (snd (getRPM_missingTooth st)) st
  /\ timingAdjust (snd (getRPM_missingTooth st)) = timingAdjust st
  /\ (st#(currentStatus hasSync) <> 1 -> getRPM_DualWheel st = (0, st))
  /\ (st#(currentStatus RPM) < st#(currentStatus crankRPM) ->
      st#toothCurrentCount = 1 ->
      getRPM_missingTooth st = (st#(currentStatus RPM), st)).
Proof.
  assert (Hd : sameOutside revolutionVars (snd (getRPM_DualWheel st)) st
               /\ timingAdjust (snd (getRPM_DualWheel st)) = timingAdjust st).
  { unfold getRPM_DualWheel.
    destruct (_ =? 1); [|split; [apply sameOutside_refl | reflexivity]].
    destruct (_ <? _); [|apply stdGetRPM_writes].
    pose proof (crankingGetRPM_writes (u8 (triggerTeeth page4))
                                      (TrigSpeed page4 =? CAM_SPEED) st) as H.
    destruct (crankingGetRPM _ _ st) as [r s]. exact H. }
  assert (Hm : sameOutside revolutionVars (snd (getRPM_missingTooth st)) st
               /\ timingAdjust (snd (getRPM_missingTooth st)) = timingAdjust st).
  { unfold getRPM_missingTooth.
    destruct (_ <? _); [|apply stdGetRPM_writes].
    destruct (negb _); [|split; [apply sameOutside_refl | reflexivity]].
    pose proof (crankingGetRPM_writes (u8 (triggerTeeth page4))
                                      (TrigSpeed page4 =? CAM_SPEED) st) as H.
    destruct (crankingGetRPM _ _ st) as [r s]. exact H. }
  destruct Hd as [Hd1 Hd2]. destruct Hm as [Hm1 Hm2].
  repeat (split; [assumption|]). split.
  - intro H. apply Z.eqb_neq in H. unfold getRPM_DualWheel. rewrite H. reflexivity.
  - intros H1 H2. unfold getRPM_missingTooth.
    apply Z.ltb_lt in H1. rewrite H1, H2. reflexivity.
Qed.

(** *** Reading the crank angle *)

Lemma timeToAngle_sameOutside (L : list Var) (s1 s2 : State) (t : Z) :
  sameOutside L s1 s2 -> ~ In degreesPerMicro L ->
  timeToAngleDegPerMicroSec s1 t = timeToAngleDegPerMicroSec s2 t.
Proof.
  intros H Hn. unfold timeToAngleDegPerMicroSec. rewrite (H _ Hn). reflexivity.
Qed.

Lemma getCrankAngle_missingTooth_sameOutside (now : Z) (s1 s2 : State) :
  sameOutside crankAngleWrites s1 s2 ->
  fst (getCrankAngle_missingTooth now s1) = fst (getCrankAngle_missingTooth now s2).
Proof.
  intro H. unfold getCrankAngle_missingTooth, rawCrankAngle_missingTooth,
    timeToAngleDegPerMicroSec.
  cbv zeta. cbn [fst]. store.
  rewrite !(H toothCurrentCount), !(H revolutionOne), !(H toothLastToothTime),
    !(H triggerToothAngle), !(H degreesPerMicro) by not_in_list.
  reflexivity.
Qed.

Lemma getCrankAngle_DualWheel_sameOutside (now : Z) (s1 s2 : State) :
  sameOutside crankAngleWrites s1 s2 ->
  fst (getCrankAngle_DualWheel now s1) = fst (getCrankAngle_DualWheel now s2).
Proof.
  intro H. unfold getCrankAngle_DualWheel, rawCrankAngle_DualWheel,
    timeToAngleDegPerMicroSec.
  cbv zeta. cbn [fst]. store.
  rewrite !(H toothCurrentCount), !(H revolutionOne), !(H toothLastToothTime),
    !(H triggerToothAngle), !(H degreesPerMicro) by not_in_list.
  reflexivity.
Qed.

Lemma getCrankAngle_timingAdjust (now : Z) (st : State) :
  timingAdjust (snd (getCrankAngle_missingTooth now st)) = timingAdjust st
  /\ timingAdjust (snd (getCrankAngle_DualWheel now st)) = timingAdjust st.
Proof.
  unfold getCrankAngle_missingTooth, rawCrankAngle_missingTooth,
    getCrankAngle_DualWheel, rawCrankAngle_DualWheel.
  cbv zeta. split; reflexivity.
Qed.

(** X9: reading the crank angle does not disturb the decoder.  Either
    [getCrankAngle] writes only the two scratch variables
    [lastCrankAngleCalc] and [elapsedTime], and the angle a later call
    returns is the one it would have returned without the earlier
    call. *)
Theorem getCrankAngle_reads_do_not_interfere (now now' : Z) (st : State) :
  sameOutside crankAngleWrites (snd (getCrankAngle_missingTooth now st)) st
  /\ sameOutside crankAngleWrites (snd (getCrankAngle_DualWheel now st)) st
  /\ timingAdjust (snd (getCrankAngle_missingTooth now st)) = timingAdjust st
  /\ timingAdjust (snd (getCrankAngle_DualWheel now st)) = timingAdjust st
  /\ fst (getCrankAngle_missingTooth now' (snd (getCrankAngle_missingTooth now st)))
     = fst (getCrankAngle_missingTooth now' st)
  /\ fst (getCrankAngle_DualWheel now' (snd (getCrankAngle_DualWheel now st)))
     = fst (getCrankAngle_DualWheel now' st).
Proof.
  assert (Hm : sameOutside crankAngleWrites (snd (getCrankAngle_missingTooth now st)) st)
    by (apply getCrankAngle_missingTooth_writes;
        [apply incl_refl | apply sameOutside_refl]).
  assert (Hd : sameOutside crankAngleWrites (snd (getCrankAngle_DualWheel now st)) st)
    by (apply getCrankAngle_DualWheel_writes;
        [apply incl_refl | apply sameOutside_refl]).
  split; [exact Hm|]. split; [exact Hd|].
  split; [apply getCrankAngle_timingAdjust|].
  split; [apply getCrankAngle_timingAdjust|].
  split.
  - apply getCrankAngle_missingTooth_sameOutside. exact Hm.
  - apply getCrankAngle_DualWheel_sameOutside. exact Hd.
Qed.

(** *** Conversions over time *)

Lemma timeToAngle_value (st : State) (time : Z) :
  0 <= time -> 0 <= st#degreesPerMicro ->
  time * st#degreesPerMicro + 2 ^ 14 < 2 ^ 31 ->
  timeToAngleDegPerMicroSec st time = (time * st#degreesPerMicro + 2 ^ 14) / 2 ^ 15.
Proof.
  intros Ht Hd Hlt.
  assert (Hp : 0 <= time * st#degreesPerMicro) by (apply Z.mul_nonneg_nonneg; assumption).
  unfold timeToAngleDegPerMicroSec, degreesPerMicro_Shift.
  rewrite (u32_id (time * st#degreesPerMicro)) by lia.
  rewrite RSHIFT_ROUND_div by lia.
  change (2 ^ (15 - 1)) with (2 ^ 14).
  apply u16_id. split.
  - apply Z.div_pos; lia.
  - apply Z.div_lt_upper_bound; lia.
Qed.

Lemma angleToTime_value (st : State) (angle : Z) :
  0 <= angle -> 0 <= st#microsPerDegree ->
  angle * st#microsPerDegree + 2 ^ 7 < 2 ^ 32 ->
  angleToTimeMicroSecPerDegree st angle = (angle * st#microsPerDegree + 2 ^ 7) / 2 ^ 8.
Proof.
  intros Ha Hm Hlt.
  assert (Hp : 0 <= angle * st#microsPerDegree) by (apply Z.mul_nonneg_nonneg; assumption).
  unfold angleToTimeMicroSecPerDegree, microsPerDegree_Shift.
  rewrite (u32_id (angle * st#microsPerDegree)) by lia.
  rewrite RSHIFT_ROUND_div by lia.
  change (2 ^ (8 - 1)) with (2 ^ 7).
  apply u32_id. split.
  - apply Z.div_pos; lia.
  - apply Z.div_lt_upper_bound; lia.
Qed.

(** X10: both conversions are monotone and start at zero.  A zero time
    is a zero angle and a zero angle a zero time, whatever the speed
    stored.  A longer time never gives a smaller angle as long as the
    product of the longer time and the speed, plus the rounding half
    2^14, stays below 2^31 (so that the angle fits the 16-bit result);
    a wider angle never gives a shorter time as long as the product of
    the wider angle and the speed, plus the rounding half 2^7, stays
    below 2^32. *)
Theorem conversions_monotone (st : State) (t1 t2 a1 a2 : Z) :
  timeToAngleDegPerMicroSec st 0 = 0
  /\ angleToTimeMicroSecPerDegree st 0 = 0
  /\ (0 <= t1 <= t2 -> 0 <= st#degreesPerMicro ->
      t2 * st#degreesPerMicro + 2 ^ 14 < 2 ^ 31 ->
      timeToAngleDegPerMicroSec st t1 <= timeToAngleDegPerMicroSec st t2)
  /\ (0 <= a1 <= a2 -> 0 <= st#microsPerDegree ->
      a2 * st#microsPerDegree + 2 ^ 7 < 2 ^ 32 ->
      angleToTimeMicroSecPerDegree st a1 <= angleToTimeMicroSecPerDegree st a2).
Proof.
  split; [reflexivity|]. split; [reflexivity|]. split.
  - intros Ht Hd Hlt.
    assert (t1 * st#degreesPerMicro <= t2 * st#degreesPerMicro)
      by (apply Z.mul_le_mono_nonneg_r; lia).
    rewrite !timeToAngle_value by lia.
    apply Z.div_le_mono; lia.
  - intros Ha Hm Hlt.
    assert (a1 * st#microsPerDegree <= a2 * st#microsPerDegree)
      by (apply Z.mul_le_mono_nonneg_r; lia).
    rewrite !angleToTime_value by lia.
    apply Z.div_le_mono; lia.
Qed.

(** *** The crank angle between two teeth *)

Lemma rawCrankAngle_missingTooth_sum (now : Z) (st : State) :
  fst (rawCrankAngle_missingTooth now st)
  = s16 ((st#toothCurrentCount - 1) * st#triggerToothAngle
         + triggerAngle page4
         + (if (st#revolutionOne =? 1) && (TrigSpeed page4 =? CRANK_SPEED)
            then 360 else 0)
         + timeToAngleDegPerMicroSec st (u32 (now - st#toothLastToothTime))).
Proof.
  unfold rawCrankAngle_missingTooth, timeToAngleDegPerMicroSec. cbv zeta. store.
  cbn [fst].
  destruct (s16_wraps st#toothCurrentCount) as [k1 H1].
  destruct (s16_wraps ((s16 st#toothCurrentCount - 1) * st#triggerToothAngle
                       + triggerAngle page4)) as [k2 H2].
  destruct (_ && _).
  - destruct (s16_wraps (s16 ((s16 st#toothCurrentCount - 1) * st#triggerToothAngle
                              + triggerAngle page4) + 360)) as [k3 H3].
    apply (s16_congr _ _ (k3 + k2 + k1 * st#triggerToothAngle)).
    rewrite H3, H2, H1. ring.
  - apply (s16_congr _ _ (k2 + k1 * st#triggerToothAngle)).
    rewrite H2, H1. ring.
Qed.

Lemma rawCrankAngle_DualWheel_sum (now : Z) (st : State) :
  0 < st#toothCurrentCount < 2 ^ 16 ->
  fst (rawCrankAngle_DualWheel now st)
  = s16 ((st#toothCurrentCount - 1) * st#triggerToothAngle
         + triggerAngle page4
         + (if (st#revolutionOne =? 1) && (TrigSpeed page4 =? CRANK_SPEED)
            then 360 else 0)
         + timeToAngleDegPerMicroSec st (u32 (now - st#toothLastToothTime))).
Proof.
  intro Hc.
  assert (Hnz : (s16 st#toothCurrentCount =? 0) = false).
  { apply Z.eqb_neq. unfold s16.
    destruct (Z.lt_ge_cases st#toothCurrentCount (2 ^ 15)) as [Hlt | Hge].
    - rewrite Z.mod_small by lia. lia.
    - replace (st#toothCurrentCount + 2 ^ 15)
        with (st#toothCurrentCount - 2 ^ 15 + 1 * 2 ^ 16) by ring.
      rewrite Z.mod_add by lia. rewrite Z.mod_small by lia. lia. }
  unfold rawCrankAngle_DualWheel, timeToAngleDegPerMicroSec. cbv zeta. store.
  rewrite Hnz. cbn [fst].
  destruct (s16_wraps st#toothCurrentCount) as [k1 H1].
  destruct (s16_wraps ((s16 st#toothCurrentCount - 1) * st#triggerToothAngle
                       + triggerAngle page4)) as [k2 H2].
  destruct (_ && _).
  - rewrite s16_add_l.
    apply (s16_congr _ _ (k2 + k1 * st#triggerToothAngle)).
    rewrite H2, H1. ring.
  - apply (s16_congr _ _ (k2 + k1 * st#triggerToothAngle)).
    rewrite H2, H1. ring.
Qed.

Lemma single_pass_identity (a : Z) :
  0 <= a < 720 ->
  (if (if a >=? 720 then s16 (a - 720) else a) <? 0
   then s16 ((if a >=? 720 then s16 (a - 720) else a) + CRANK_ANGLE_MAX)
   else (if a >=? 720 then s16 (a - 720) else a)) = a.
Proof.
  intro H. rewrite Z.geb_leb.
  replace (720 <=? a) with false by (symmetry; apply Z.leb_gt; lia).
  replace (a <? 0) with false by (symmetry; apply Z.ltb_ge; lia).
  reflexivity.
Qed.

(** X11: the angle between two teeth.  While the sum stays inside
    [0, 720), either [getCrankAngle] returns the angle of the last tooth
    seen, (tooth index - 1) tooth angles plus the base trigger angle,
    plus 360 on the second revolution of a crank-speed wheel, plus the
    time since that tooth converted to degrees with rounding; at the
    instant of the tooth it returns the angle of the tooth itself. *)
Theorem crank_angle_between_teeth (now : Z) (st : State) :
  0 <= st#degreesPerMicro ->
  u32 (now - st#toothLastToothTime) * st#degreesPerMicro + 2 ^ 14 < 2 ^ 31 ->
  0 <= (st#toothCurrentCount - 1) * st#triggerToothAngle + triggerAngle page4
       + (if (st#revolutionOne =? 1) && (TrigSpeed page4 =? CRANK_SPEED)
          then 360 else 0)
       + (u32 (now - st#toothLastToothTime) * st#degreesPerMicro + 2 ^ 14) / 2 ^ 15
    < 720 ->
  fst (getCrankAngle_missingTooth now st)
  = (st#toothCurrentCount - 1) * st#triggerToothAngle + triggerAngle page4
    + (if (st#revolutionOne =? 1) && (TrigSpeed page4 =? CRANK_SPEED) then 360 else 0)
    + (u32 (now - st#toothLastToothTime) * st#degreesPerMicro + 2 ^ 14) / 2 ^ 15
  /\ (0 < st#toothCurrentCount < 2 ^ 16 ->
      fst (getCrankAngle_DualWheel now st)
      = (st#toothCurrentCount - 1) * st#triggerToothAngle + triggerAngle page4
        + (if (st#revolutionOne =? 1) && (TrigSpeed page4 =? CRANK_SPEED)
           then 360 else 0)
        + (u32 (now - st#toothLastToothTime) * st#degreesPerMicro + 2 ^ 14) / 2 ^ 15)
  /\ (u32 (now - st#toothLastToothTime) = 0 ->
      fst (getCrankAngle_missingTooth now st)
      = (st#toothCurrentCount - 1) * st#triggerToothAngle + triggerAngle page4
        + (if (st#revolutionOne =? 1) && (TrigSpeed page4 =? CRANK_SPEED)
           then 360 else 0)).
Proof.
  intros Hd Hlt Hrange.
  pose proof (u32_range (now - st#toothLastToothTime)) as He.
  pose proof (timeToAngle_value st (u32 (now - st#toothLastToothTime))
                                ltac:(lia) Hd Hlt) as HT.
  assert (Hm : fst (getCrankAngle_missingTooth now st)
               = (st#toothCurrentCount - 1) * st#triggerToothAngle + triggerAngle page4
                 + (if (st#revolutionOne =? 1) && (TrigSpeed page4 =? CRANK_SPEED)
                    then 360 else 0)
                 + (u32 (now - st#toothLastToothTime) * st#degreesPerMicro + 2 ^ 14)
                   / 2 ^ 15).
  { pose proof (rawCrankAngle_missingTooth_sum now st) as Hraw.
    rewrite HT, s16_id in Hraw by lia.
    unfold getCrankAngle_missingTooth.
    destruct (rawCrankAngle_missingTooth now st) as [a s]. cbv zeta. cbn [fst] in *.
    rewrite single_pass_identity by lia. exact Hraw. }
  split; [exact Hm|]. split.
  - intro Hc. pose proof (rawCrankAngle_DualWheel_sum now st Hc) as Hraw.
    rewrite HT, s16_id in Hraw by lia.
    unfold getCrankAngle_DualWheel.
    destruct (rawCrankAngle_DualWheel now st) as [a s]. cbv zeta. cbn [fst] in *.
    rewrite single_pass_identity by lia. exact Hraw.
  - intro H0. rewrite Hm, H0. change ((0 * st#degreesPerMicro + 2 ^ 14) / 2 ^ 15) with 0.
    ring.
Qed.

(** *** The dual-wheel crank angle with the tooth counter at 0 *)

Lemma rawCrankAngle_DualWheel_zero_sum (now : Z) (st : State) :
  st#toothCurrentCount = 0 ->
  fst (rawCrankAngle_DualWheel now st)
  = s16 ((triggerTeeth page4 - 1) * st#triggerToothAngle
         + triggerAngle page4
         + (if (st#revolutionOne =? 1) && (TrigSpeed page4 =? CRANK_SPEED)
            then 360 else 0)
         + timeToAngleDegPerMicroSec st (u32 (now - st#toothLastToothTime))).
Proof.
  intro H0.
  unfold rawCrankAngle_DualWheel, timeToAngleDegPerMicroSec. cbv zeta. store.
  rewrite H0. change (s16 0 =? 0) with true. cbv iota. cbn [fst].
  destruct (s16_wraps (triggerTeeth page4)) as [k1 H1].
  destruct (s16_wraps ((s16 (triggerTeeth page4) - 1) * st#triggerToothAngle
                       + triggerAngle page4)) as [k2 H2].
  destruct (_ && _).
  - rewrite s16_add_l.
    apply (s16_congr _ _ (k2 + k1 * st#triggerToothAngle)).
    rewrite H2, H1. ring.
  - apply (s16_congr _ _ (k2 + k1 * st#triggerToothAngle)).
    rewrite H2, H1. ring.
Qed.

(** C10: when the tooth counter reads 0, [getCrankAngle_DualWheel]
    computes with the configured tooth count in its place.  The angle
    it returns is the range correction (one subtraction of 720, one
    addition of [CRANK_ANGLE_MAX]) of the 16-bit sum of (tooth count
    - 1) tooth angles, the base trigger angle, the revolution offset
    and the extrapolated degrees; while that sum stays inside [0, 720)
    and the extrapolation inside its accumulator it is the sum itself.
    It is also what the function returns for a counter equal to the
    tooth count. *)
Theorem getCrankAngle_DualWheel_zero_count (now : Z) (st : State) :
  st#toothCurrentCount = 0 ->
  fst (getCrankAngle_DualWheel now st)
  = (let crankAngle :=
       s16 ((triggerTeeth page4 - 1) * st#triggerToothAngle
            + triggerAngle page4
            + (if (st#revolutionOne =? 1) && (TrigSpeed page4 =? CRANK_SPEED)
               then 360 else 0)
            + timeToAngleDegPerMicroSec st (u32 (now - st#toothLastToothTime))) in
     let crankAngle :=
       if crankAngle >=? 720 then s16 (crankAngle - 720) else crankAngle in
     if crankAngle <? 0 then s16 (crankAngle + CRANK_ANGLE_MAX) else crankAngle)
  /\ (0 <= st#degreesPerMicro ->
      u32 (now - st#toothLastToothTime) * st#degreesPerMicro + 2 ^ 14 < 2 ^ 31 ->
      0 <= (triggerTeeth page4 - 1) * st#triggerToothAngle + triggerAngle page4
           + (if (st#revolutionOne =? 1) && (TrigSpeed page4 =? CRANK_SPEED)
              then 360 else 0)
           + (u32 (now - st#toothLastToothTime) * st#degreesPerMicro + 2 ^ 14) / 2 ^ 15
        < 720 ->
      fst (getCrankAngle_DualWheel now st)
      = (triggerTeeth page4 - 1) * st#triggerToothAngle + triggerAngle page4
        + (if (st#revolutionOne =? 1) && (TrigSpeed page4 =? CRANK_SPEED)
           then 360 else 0)
        + (u32 (now - st#toothLastToothTime) * st#degreesPerMicro + 2 ^ 14) / 2 ^ 15)
  /\ fst (getCrankAngle_DualWheel now st)
     = fst (getCrankAngle_DualWheel
              now (set toothCurrentCount (u16 (triggerTeeth page4)) st)).
Proof.
  intro H0.
  pose proof (rawCrankAngle_DualWheel_zero_sum now st H0) as Hraw.
  assert (Hexact : fst (getCrankAngle_DualWheel now st)
            = (let crankAngle :=
                 s16 ((triggerTeeth page4 - 1) * st#triggerToothAngle
                      + triggerAngle page4
                      + (if (st#revolutionOne =? 1) && (TrigSpeed page4 =? CRANK_SPEED)
                         then 360 else 0)
                      + timeToAngleDegPerMicroSec st (u32 (now - st#toothLastToothTime))) in
               let crankAngle :=
                 if crankAngle >=? 720 then s16 (crankAngle - 720) else crankAngle in
               if crankAngle <? 0 then s16 (crankAngle + CRANK_ANGLE_MAX) else crankAngle)).
  { unfold getCrankAngle_DualWheel.
    destruct (rawCrankAngle_DualWheel now st) as [a s]. cbv zeta. cbn [fst] in *.
    rewrite <- Hraw. reflexivity. }
  split; [exact Hexact|]. split.
  - intros Hd Hlt Hsum.
    pose proof (u32_range (now - st#toothLastToothTime)) as Hr.
    pose proof (timeToAngle_value st (u32 (now - st#toothLastToothTime))
                                  ltac:(lia) Hd Hlt) as HT.
    rewrite Hexact. cbv zeta. rewrite HT, s16_id by lia.
    apply single_pass_identity. exact Hsum.
  - assert (Hsame : fst (rawCrankAngle_DualWheel now st)
                    = fst (rawCrankAngle_DualWheel
                             now (set toothCurrentCount (u16 (triggerTeeth page4)) st))).
    { unfold rawCrankAngle_DualWheel, timeToAngleDegPerMicroSec. cbv zeta. store.
      rewrite H0, s16_u16. change (s16 0 =? 0) with true. cbv iota.
      destruct (s16 (triggerTeeth page4) =? 0) eqn:E.
      - apply Z.eqb_eq in E. rewrite E. reflexivity.
      - reflexivity. }
    unfold getCrankAngle_DualWheel.
    destruct (rawCrankAngle_DualWheel now st) as [a s].
    destruct (rawCrankAngle_DualWheel now _) as [a' s'].
    cbn [fst] in *. subst a'. reflexivity.
Qed.

(** *** Accepted edges on the cam inputs of the missing-tooth wheel *)

Lemma triggerRecordVVT1Angle_get (now : Z) (st : State) (x : Var) :
  ~ In x vvt1Writes ->
  (triggerRecordVVT1Angle getCrankAngle_missingTooth now st)#x = st#x.
Proof.
  intro H. apply (sameOutside_get vvt1Writes); [|exact H].
  apply triggerRecordVVT1Angle_writes; [apply incl_refl | apply sameOutside_refl].
Qed.

Lemma triggerSec_missingTooth_passed (now now' : Z) (st : State) :
  st#toothLastSecToothTime <> 0 ->
  st#triggerSecFilterTime <= u32 (now - st#toothLastSecToothTime) ->
  triggerSec_missingTooth getCrankAngle_missingTooth now now' st
  = set toothLastSecToothTime now
        (triggerSec_missingTooth_switch getCrankAngle_missingTooth now'
           (set curGap2 (u32 (now - st#toothLastSecToothTime)) (set curTime2 now st))).
Proof.
  intros Hlast H. apply Z.eqb_neq in Hlast. apply Z.leb_le in H.
  unfold triggerSec_missingTooth, triggerSec_missingTooth_capture. cbv zeta. store.
  rewrite Hlast. store. rewrite Z.geb_leb, H.
  rewrite (sameOutside_get _ _ _ curTime2
             (triggerSec_missingTooth_switch_writes now' _)) by not_in_list.
  store. reflexivity.
Qed.

Lemma triggerThird_missingTooth_passed (now now' : Z) (st : State) :
  st#toothLastThirdToothTime <> 0 ->
  st#triggerThirdFilterTime <= u32 (now - st#toothLastThirdToothTime) ->
  triggerThird_missingTooth getCrankAngle_missingTooth now now' st
  = set toothLastThirdToothTime now
        (triggerThird_missingTooth_record getCrankAngle_missingTooth now'
           (set curGap3 (u32 (now - st#toothLastThirdToothTime)) (set curTime3 now st))).
Proof.
  intros Hlast H. apply Z.eqb_neq in Hlast. apply Z.leb_le in H.
  unfold triggerThird_missingTooth, triggerThird_missingTooth_capture. cbv zeta. store.
  rewrite Hlast. store. rewrite Z.geb_leb, H.
  rewrite (sameOutside_get _ _ _ curTime3
             (triggerThird_missingTooth_record_writes now' _)) by not_in_list.
  store. reflexivity.
Qed.

Lemma shiftr_half (g n : Z) : 0 <= g -> 1 <= n -> 0 <= 2 * Z.shiftr g n <= g.
Proof.
  intros Hg Hn. rewrite Z.shiftr_div_pow2 by lia.
  assert (Hpow : 2 ^ n = 2 * 2 ^ (n - 1)).
  { replace n with (1 + (n - 1)) at 1 by ring. rewrite Z.pow_add_r by lia. reflexivity. }
  assert (0 < 2 ^ (n - 1)) by (apply Z.pow_pos_nonneg; lia).
  pose proof (Z.div_pos g (2 ^ n) Hg ltac:(lia)).
  pose proof (Z.mul_div_le g (2 ^ n) ltac:(lia)).
  nia.
Qed.

Lemma triggerSec_missingTooth_switch_filter (now' : Z) (st : State) :
  0 <= st#curGap2 ->
  match trigPatternSec page4 with
  | SEC_TRIGGER_other =>
      (triggerSec_missingTooth_switch getCrankAngle_missingTooth now' st)
        #triggerSecFilterTime = st#triggerSecFilterTime
  | _ =>
      0 <= 2 * (triggerSec_missingTooth_switch getCrankAngle_missingTooth now' st)
                 #triggerSecFilterTime <= st#curGap2
  end.
Proof.
  intro Hg. unfold triggerSec_missingTooth_switch.
  destruct (trigPatternSec page4); cbv zeta.
  - rewrite triggerRecordVVT1Angle_get by not_in_list. store.
    apply shiftr_half; lia.
  - store. destruct (_ || _).
    + rewrite triggerRecordVVT1Angle_get by not_in_list. store. lia.
    + store. apply shiftr_half; lia.
  - rewrite triggerRecordVVT1Angle_get by not_in_list. store.
    apply shiftr_half; lia.
  - store. destruct (_ =? 2); store;
      rewrite ?triggerRecordVVT1Angle_get by not_in_list; store;
      apply shiftr_half; lia.
  - reflexivity.
Qed.

(** X12: an accepted cam edge of the missing-tooth wheel.  A secondary
    or tertiary edge that passes its filter records its time as the
    last-tooth time of its input, and the filter duration it installs
    for the next edge is at most half of the gap just accepted (a
    quarter on the tertiary input), so a cam tooth that follows at the
    same spacing always passes.  Only a cam pattern the handler does
    not know leaves the secondary filter as it was. *)
Theorem missingTooth_accepted_cam_edge (now now' : Z) (st : State) :
  (st#toothLastSecToothTime <> 0 ->
   st#triggerSecFilterTime <= u32 (now - st#toothLastSecToothTime) ->
   (triggerSec_missingTooth getCrankAngle_missingTooth now now' st)#toothLastSecToothTime
   = now
   /\ match trigPatternSec page4 with
      | SEC_TRIGGER_other =>
          (triggerSec_missingTooth getCrankAngle_missingTooth now now' st)
            #triggerSecFilterTime = st#triggerSecFilterTime
      | _ =>
          0 <= 2 * (triggerSec_missingTooth getCrankAngle_missingTooth now now' st)
                     #triggerSecFilterTime
            <= u32 (now - st#toothLastSecToothTime)
      end)
  /\ (st#toothLastThirdToothTime <> 0 ->
      st#triggerThirdFilterTime <= u32 (now - st#toothLastThirdToothTime) ->
      (triggerThird_missingTooth getCrankAngle_missingTooth now now' st)
        #toothLastThirdToothTime = now
      /\ (triggerThird_missingTooth getCrankAngle_missingTooth now now' st)#thirdToothCount
         = u16 (st#thirdToothCount + 1)
      /\ (triggerThird_missingTooth getCrankAngle_missingTooth now now' st)
           #triggerThirdFilterTime
         = Z.shiftr (u32 (now - st#toothLastThirdToothTime)) 2).
Proof.
  split.
  - intros Hlast Hgap. rewrite triggerSec_missingTooth_passed by assumption.
    store. split; [reflexivity|].
    pose proof (u32_range (now - st#toothLastSecToothTime)) as Hr.
    pose proof (triggerSec_missingTooth_switch_filter
                  now' (set curGap2 (u32 (now - st#toothLastSecToothTime))
                            (set curTime2 now st))) as Hsw.
    revert Hsw. store. intro Hsw. apply Hsw. lia.
  - intros Hlast Hgap. rewrite triggerThird_missingTooth_passed by assumption.
    store. split; [reflexivity|].
    unfold triggerThird_missingTooth_record. cbv zeta.
    match goal with
    | |- context [getCrankAngle_missingTooth now' ?s] =>
        pose proof (getCrankAngle_missingTooth_writes
                      crankAngleWrites now' s s (incl_refl _) (sameOutside_refl _ _)) as Hg;
        destruct (getCrankAngle_missingTooth now' s) as [a s']
    end.
    cbn [snd] in Hg. store.
    rewrite !(sameOutside_get _ _ _ _ Hg) by not_in_list. store.
    split; reflexivity.
Qed.

(** X13: the 4-1 cam pattern.  On an accepted secondary edge the cam
    tooth counter restarts at 1, the revolution flag is set and the
    filter is switched off exactly when the gap is at least one and a
    half times the previous gap or more than three teeth have been
    counted; otherwise the counter goes up by one, to 4 at most, and
    the filter becomes a quarter of the gap.  Either way the previous
    last-tooth time is kept as the one before last. *)
Theorem cam_4_1_sync_rule (now now' : Z) (st : State) :
  trigPatternSec page4 = SEC_TRIGGER_4_1 ->
  st#toothLastSecToothTime <> 0 ->
  st#triggerSecFilterTime <= u32 (now - st#toothLastSecToothTime) ->
  0 <= st#secondaryToothCount ->
  (triggerSec_missingTooth getCrankAngle_missingTooth now now' st)
    #toothLastMinusOneSecToothTime = st#toothLastSecToothTime
  /\ 1 <= (triggerSec_missingTooth getCrankAngle_missingTooth now now' st)
            #secondaryToothCount <= 4
  /\ if (u32 (now - st#toothLastSecToothTime)
         >=? Z.shiftr (u32 (3 * u32 (st#toothLastSecToothTime
                                     - st#toothLastMinusOneSecToothTime))) 1)
        || (st#secondaryToothCount >? 3)
     then (triggerSec_missingTooth getCrankAngle_missingTooth now now' st)
            #secondaryToothCount = 1
          /\ (triggerSec_missingTooth getCrankAngle_missingTooth now now' st)
               #revolutionOne = 1
          /\ (triggerSec_missingTooth getCrankAngle_missingTooth now now' st)
               #triggerSecFilterTime = 0
     else (triggerSec_missingTooth getCrankAngle_missingTooth now now' st)
            #secondaryToothCount = st#secondaryToothCount + 1
          /\ (triggerSec_missingTooth getCrankAngle_missingTooth now now' st)
               #revolutionOne = st#revolutionOne
          /\ (triggerSec_missingTooth getCrankAngle_missingTooth now now' st)
               #triggerSecFilterTime
             = Z.shiftr (u32 (now - st#toothLastSecToothTime)) 2.
Proof.
  intros Hpat Hlast Hgap Hcount.
  rewrite triggerSec_missingTooth_passed by assumption. store.
  unfold triggerSec_missingTooth_switch. rewrite Hpat. cbv zeta. store.
  destruct (_ || _) eqn:E.
  - rewrite !triggerRecordVVT1Angle_get by not_in_list. store.
    repeat split; lia.
  - store. apply orb_false_iff in E. destruct E as [_ E].
    rewrite Z.gtb_ltb in E. apply Z.ltb_ge in E.
    rewrite u16_id by lia. repeat split; lia.
Qed.

(** *** VVT angle capture *)

Lemma s16_add_l_sub (a b : Z) : s16 (s16 a - b) = s16 (a - b).
Proof. destruct (s16_wraps a) as [k Hk]. apply (s16_congr _ _ k). lia. Qed.

Lemma s32_id (z : Z) : - 2 ^ 31 <= z < 2 ^ 31 -> s32 z = z.
Proof. intro H. unfold s32. rewrite Z.mod_small; lia. Qed.

Lemma ANGLE_FILTER_value (input alpha prior : Z) :
  - 2 ^ 16 <= input < 2 ^ 16 -> - 2 ^ 16 <= prior < 2 ^ 16 -> 0 <= alpha <= 256 ->
  ANGLE_FILTER input alpha prior = (input * (256 - alpha) + prior * alpha) / 2 ^ 8.
Proof.
  intros Hi Hp Ha. unfold ANGLE_FILTER.
  rewrite (s32_id (input * (256 - alpha))) by nia.
  rewrite (s32_id (prior * alpha)) by nia.
  rewrite s32_id by nia.
  apply Z.shiftr_div_pow2. lia.
Qed.

(** X14: the VVT smoothing filter never overshoots.  For 16-bit inputs
    and a smoothing factor between 0 and 255, [ANGLE_FILTER] returns a
    value between the new input and the prior value; with factor 0 it
    returns the input itself, and it leaves a value that has been
    reached where it is. *)
Theorem ANGLE_FILTER_between (input alpha prior : Z) :
  - 2 ^ 15 <= input < 2 ^ 15 -> - 2 ^ 15 <= prior < 2 ^ 15 -> 0 <= alpha <= 255 ->
  Z.min input prior <= ANGLE_FILTER input alpha prior <= Z.max input prior
  /\ (alpha = 0 -> ANGLE_FILTER input alpha prior = input)
  /\ (input = prior -> ANGLE_FILTER input alpha prior = prior).
Proof.
  intros Hi Hp Ha. rewrite ANGLE_FILTER_value by lia.
  pose proof (Z.div_mod (input * (256 - alpha) + prior * alpha) (2 ^ 8) ltac:(lia)) as Hdm.
  pose proof (Z.mod_pos_bound (input * (256 - alpha) + prior * alpha) (2 ^ 8) ltac:(lia))
    as Hmod.
  change (2 ^ 8) with 256 in *.
  split; [|split].
  - destruct (Z.le_ge_cases input prior) as [Hle | Hge].
    + rewrite Z.min_l, Z.max_r by lia. split; nia.
    + rewrite Z.min_r, Z.max_l by lia. split; nia.
  - intros ->. nia.
  - intros ->. nia.
Qed.

Lemma wrapTo360_spec (fuel : nat) (curAngle : Z) :
  curAngle < 2 ^ 15 ->
  curAngle <= 360 + 360 * Z.of_nat fuel ->
  (curAngle <= 360 -> wrapTo360 fuel curAngle = curAngle)
  /\ (360 < curAngle ->
      1 <= wrapTo360 fuel curAngle <= 360
      /\ exists k, 1 <= k /\ curAngle = wrapTo360 fuel curAngle + 360 * k).
Proof.
  revert curAngle. induction fuel as [| fuel IH]; intros a Hmax Hfuel.
  - simpl in *. split; [reflexivity | lia].
  - cbn [wrapTo360]. rewrite Z.gtb_ltb. destruct (360 <? a) eqn:E.
    + apply Z.ltb_lt in E. split; [lia|]. intros _.
      rewrite s16_id by lia.
      destruct (IH (a - 360) ltac:(lia) ltac:(lia)) as [Hsmall Hbig].
      destruct (Z.le_gt_cases (a - 360) 360) as [Hle | Hgt].
      * rewrite Hsmall by exact Hle. split; [lia|]. exists 1. lia.
      * destruct (Hbig Hgt) as (Hr & k & Hk & Heq). split; [exact Hr|].
        exists (k + 1). lia.
    + apply Z.ltb_ge in E. split; [reflexivity | lia].
Qed.

(** X15: the angle wrap of the VVT capture.  From any [int16_t] the
    loop [while (curAngle > 360) curAngle -= 360] ends within its 100
    rounds; an angle of 360 or less, negative ones included, is left
    as it is, and a larger one ends in [1, 360], a whole number of
    turns lower: 720 becomes 360, not 0. *)
Theorem wrapTo360_result (curAngle : Z) :
  - 2 ^ 15 <= curAngle < 2 ^ 15 ->
  (curAngle <= 360 -> wrapTo360 100 curAngle = curAngle)
  /\ (360 < curAngle ->
      1 <= wrapTo360 100 curAngle <= 360
      /\ exists k, 1 <= k /\ curAngle = wrapTo360 100 curAngle + 360 * k).
Proof.
  intro H. apply wrapTo360_spec; [lia|]. change (Z.of_nat 100) with 100. lia.
Qed.

Lemma getCrankAngle_missingTooth_int (now : Z) (st : State) :
  - 2 ^ 15 <= CRANK_ANGLE_MAX < 2 ^ 15 ->
  - 2 ^ 15 <= fst (getCrankAngle_missingTooth now st) < 2 ^ 15.
Proof.
  intro Hmax. pose proof (rawCrankAngle_missingTooth_range now st) as Hr.
  unfold getCrankAngle_missingTooth.
  destruct (rawCrankAngle_missingTooth now st) as [a s]. cbv zeta. cbn [fst] in *.
  destruct (a >=? 720); destruct (_ <? 0); try apply s16_range; exact Hr.
Qed.

(** X16: recording the VVT1 angle.  With VVT switched off, or while
    the revolution flag is not set, [triggerRecordVVT1Angle] changes
    nothing.  Otherwise it writes nothing but [vvt1Angle] and the two
    scratch variables of [getCrankAngle], and the new [vvt1Angle] lies
    between the old one and twice the captured angle, the captured
    angle being the crank angle wrapped to at most 360, less the
    trigger angle and, in closed loop, the closed-loop offset; with
    smoothing factor 0 it is exactly twice the captured angle. *)
Theorem triggerRecordVVT1Angle_smooths (now : Z) (st : State) :
  ((vvtEnabled page6 <= 0 \/ st#revolutionOne <> 1) ->
   triggerRecordVVT1Angle getCrankAngle_missingTooth now st = st)
  /\ (0 < vvtEnabled page6 -> st#revolutionOne = 1 ->
      - 2 ^ 15 <= CRANK_ANGLE_MAX < 2 ^ 15 ->
      0 <= ANGLEFILTER_VVT page4 <= 255 ->
      - 2 ^ 15 <= st#(currentStatus vvt1Angle) < 2 ^ 15 ->
      - 2 ^ 14 <= wrapTo360 100 (fst (getCrankAngle_missingTooth now st))
                  - triggerAngle page4
                  - (if is_closed_loop (vvtMode page6) then vvtCL0DutyAng page10 else 0)
        < 2 ^ 14 ->
      sameOutside vvt1Writes (triggerRecordVVT1Angle getCrankAngle_missingTooth now st) st
      /\ Z.min (2 * (wrapTo360 100 (fst (getCrankAngle_missingTooth now st))
                     - triggerAngle page4
                     - (if is_closed_loop (vvtMode page6)
                        then vvtCL0DutyAng page10 else 0)))
               st#(currentStatus vvt1Angle)
         <= (triggerRecordVVT1Angle getCrankAngle_missingTooth now st)
              #(currentStatus vvt1Angle)
         <= Z.max (2 * (wrapTo360 100 (fst (getCrankAngle_missingTooth now st))
                        - triggerAngle page4
                        - (if is_closed_loop (vvtMode page6)
                           then vvtCL0DutyAng page10 else 0)))
                  st#(currentStatus vvt1Angle)
      /\ (ANGLEFILTER_VVT page4 = 0 ->
          (triggerRecordVVT1Angle getCrankAngle_missingTooth now st)
            #(currentStatus vvt1Angle)
          = 2 * (wrapTo360 100 (fst (getCrankAngle_missingTooth now st))
                 - triggerAngle page4
                 - (if is_closed_loop (vvtMode page6)
                    then vvtCL0DutyAng page10 else 0)))).
Proof.
  split.
  - intro H. unfold triggerRecordVVT1Angle.
    assert (E : (vvtEnabled page6 >? 0) && (st#revolutionOne =? 1) = false).
    { apply andb_false_iff. destruct H as [H | H].
      - left. rewrite Z.gtb_ltb. apply Z.ltb_ge. exact H.
      - right. apply Z.eqb_neq. exact H. }
    rewrite E. reflexivity.
  - intros Hen Hrev Hmax Halpha Hprior Hrange.
    split.
    { apply triggerRecordVVT1Angle_writes; [apply incl_refl | apply sameOutside_refl]. }
    pose proof (getCrankAngle_missingTooth_int now st Hmax) as Hint.
    pose proof (getCrankAngle_missingTooth_writes
                  crankAngleWrites now st st (incl_refl _) (sameOutside_refl _ _)) as Hw.
    set (d := wrapTo360 100 (fst (getCrankAngle_missingTooth now st))
              - triggerAngle page4
              - (if is_closed_loop (vvtMode page6) then vvtCL0DutyAng page10 else 0)) in *.
    assert (Hval : (triggerRecordVVT1Angle getCrankAngle_missingTooth now st)
                     #(currentStatus vvt1Angle)
                   = s16 (ANGLE_FILTER (2 * d) (ANGLEFILTER_VVT page4)
                                       st#(currentStatus vvt1Angle))).
    { unfold triggerRecordVVT1Angle.
      replace (vvtEnabled page6 >? 0) with true
        by (symmetry; rewrite Z.gtb_ltb; apply Z.ltb_lt; exact Hen).
      rewrite Hrev. cbn [Z.eqb Pos.eqb andb].
      destruct (getCrankAngle_missingTooth now st) as [c s]. cbn [fst snd] in *.
      cbv zeta. store. rewrite (s16_id c) by exact Hint.
      rewrite (sameOutside_get _ _ _ _ Hw) by not_in_list.
      assert (Hd : (if is_closed_loop (vvtMode page6)
                    then s16 (s16 (wrapTo360 100 c - triggerAngle page4)
                              - vvtCL0DutyAng page10)
                    else s16 (wrapTo360 100 c - triggerAngle page4)) = d).
      { subst d. destruct (is_closed_loop (vvtMode page6)).
        - rewrite s16_add_l_sub. apply s16_id. lia.
        - rewrite Z.sub_0_r. apply s16_id. lia. }
      rewrite Hd, Z.shiftl_mul_pow2 by lia.
      replace (d * 2 ^ 1) with (2 * d) by ring.
      rewrite (s16_id (2 * d)) by lia. reflexivity. }
    destruct (ANGLE_FILTER_between (2 * d) (ANGLEFILTER_VVT page4)
                st#(currentStatus vvt1Angle) ltac:(lia) Hprior Halpha)
      as (Hbetween & Hzero & _).
    rewrite Hval, s16_id by lia. split; [exact Hbetween | exact Hzero].
Qed.

(** *** Setting the end teeth of all channels *)

Lemma endToothQuotient_ext (s1 s2 : State) (a : Z) :
  s1#triggerToothAngle = s2#triggerToothAngle ->
  endToothQuotient s1 a = endToothQuotient s2 a.
Proof. intro H. unfold endToothQuotient. rewrite H. reflexivity. Qed.

Lemma calcEndTeeth_DualWheel_ext (s1 s2 : State) (a t : Z) :
  s1#triggerToothAngle = s2#triggerToothAngle ->
  calcEndTeeth_DualWheel s1 a t = calcEndTeeth_DualWheel s2 a t.
Proof.
  intro H. unfold calcEndTeeth_DualWheel. cbv zeta.
  rewrite (endToothQuotient_ext s1 s2 a H). reflexivity.
Qed.

Lemma calcEndTeeth_missingTooth_ext (s1 s2 : State) (a t : Z) :
  s1#triggerToothAngle = s2#triggerToothAngle ->
  s1#triggerActualTeeth = s2#triggerActualTeeth ->
  calcEndTeeth_missingTooth s1 a t = calcEndTeeth_missingTooth s2 a t.
Proof.
  intros H1 H2. unfold calcEndTeeth_missingTooth, clampToActualTeeth. cbv zeta.
  rewrite (endToothQuotient_ext s1 s2 a H1), H2. reflexivity.
Qed.

(** One end tooth per channel of the list, each computed by [calc] from
    the end angle of its channel. *)
Lemma setEndTeeth_fold (calc : State -> Z -> Z) (l : list nat) :
  (forall s1 s2 a,
      s1#triggerToothAngle = s2#triggerToothAngle ->
      s1#triggerActualTeeth = s2#triggerActualTeeth -> calc s1 a = calc s2 a) ->
  NoDup l ->
  forall st,
    (forall ch, In ch l ->
       (fold_left (fun st ch => set (ignitionEndTooth ch) (calc st st#(ignitionEndAngle ch)) st)
                  l st)#(ignitionEndTooth ch) = calc st st#(ignitionEndAngle ch))
    /\ (forall x, (forall ch, In ch l -> x <> ignitionEndTooth ch) ->
          (fold_left (fun st ch => set (ignitionEndTooth ch)
                                       (calc st st#(ignitionEndAngle ch)) st)
                     l st)#x = st#x)
    /\ timingAdjust
         (fold_left (fun st ch => set (ignitionEndTooth ch)
                                      (calc st st#(ignitionEndAngle ch)) st) l st)
       = timingAdjust st.
Proof.
  intros Hext Hnd. induction Hnd as [| c l Hnotin Hnd IH]; intro st.
  - simpl. repeat split; try reflexivity. intros ch [].
  - cbn [fold_left].
    set (st1 := set (ignitionEndTooth c) (calc st st#(ignitionEndAngle c)) st).
    destruct (IH st1) as (Hin & Hout & Hadj).
    assert (Hsame : forall x, x <> ignitionEndTooth c -> st1#x = st#x).
    { intros x Hx. subst st1. apply get_set_neq. congruence. }
    split; [|split].
    + intros ch [-> | Hch].
      * rewrite Hout.
        -- subst st1. apply get_set_eq.
        -- intros ch' Hch' Heq. injection Heq as ->. contradiction.
      * rewrite (Hin ch Hch). rewrite (Hsame (ignitionEndAngle ch)) by discriminate.
        apply Hext; apply Hsame; discriminate.
    + intros x Hx. rewrite Hout.
      * apply Hsame. apply Hx. left. reflexivity.
      * intros ch Hch. apply Hx. right. exact Hch.
    + rewrite Hadj. reflexivity.
Qed.

Lemma toothAdder_values :
  0 <= triggerTeeth page4 <= 255 ->
  (toothAdder_DualWheel = 0 \/ toothAdder_DualWheel = triggerTeeth page4)
  /\ (toothAdder_missingTooth = 0 \/ toothAdder_missingTooth = triggerTeeth page4).
Proof.
  intro H. unfold toothAdder_DualWheel, toothAdder_missingTooth, u8.
  rewrite Z.mod_small by lia.
  split; destruct (_ && _); auto.
Qed.

(** X17: setting the end teeth.  [triggerSetEndTeeth_DualWheel] and
    [triggerSetEndTeeth_missingTooth] store, for every ignition channel
    built in, the end tooth computed from that channel's end angle, and
    write nothing else.  Provided [nudge] brings a tooth number into
    the range it is given and the configuration describes a wheel of at
    most 255 teeth, every stored end tooth is a tooth of the wheel,
    between 1 and twice the tooth count. *)
Theorem triggerSetEndTeeth_sets_every_channel (st : State) :
  (forall ch, In ch ignChannels ->
     (triggerSetEndTeeth_DualWheel st)#(ignitionEndTooth ch)
     = calcEndTeeth_DualWheel st st#(ignitionEndAngle ch) toothAdder_DualWheel
     /\ (triggerSetEndTeeth_missingTooth st)#(ignitionEndTooth ch)
        = calcEndTeeth_missingTooth st st#(ignitionEndAngle ch) toothAdder_missingTooth)
  /\ (forall x, (forall ch, In ch ignChannels -> x <> ignitionEndTooth ch) ->
        (triggerSetEndTeeth_DualWheel st)#x = st#x
        /\ (triggerSetEndTeeth_missingTooth st)#x = st#x)
  /\ ((forall hi v, 1 <= hi -> 1 <= nudge 1 hi v hi <= hi) ->
      1 <= triggerTeeth page4 <= 255 ->
      0 <= triggerMissingTeeth page4 < triggerTeeth page4 ->
      st#triggerActualTeeth = triggerTeeth page4 - triggerMissingTeeth page4 ->
      forall ch, In ch ignChannels ->
        1 <= (triggerSetEndTeeth_DualWheel st)#(ignitionEndTooth ch)
          <= 2 * triggerTeeth page4
        /\ 1 <= (triggerSetEndTeeth_missingTooth st)#(ignitionEndTooth ch)
           <= 2 * triggerTeeth page4).
Proof.
  assert (Hnd : NoDup ignChannels) by (unfold ignChannels; apply seq_NoDup).
  destruct (setEndTeeth_fold
              (fun s a => calcEndTeeth_DualWheel s a toothAdder_DualWheel) ignChannels
              (fun s1 s2 a H _ => calcEndTeeth_DualWheel_ext s1 s2 a _ H) Hnd st)
    as (Hd1 & Hd2 & _).
  destruct (setEndTeeth_fold
              (fun s a => calcEndTeeth_missingTooth s a toothAdder_missingTooth) ignChannels
              (fun s1 s2 a H1 H2 => calcEndTeeth_missingTooth_ext s1 s2 a _ H1 H2) Hnd st)
    as (Hm1 & Hm2 & _).
  cbv beta in Hd1, Hd2, Hm1, Hm2.
  unfold triggerSetEndTeeth_DualWheel, triggerSetEndTeeth_missingTooth.
  change (seq 1 (Nat.min 8 (Nat.max 4 IGN_CHANNELS))) with ignChannels.
  split; [|split].
  - intros ch Hch. split; [apply Hd1 | apply Hm1]; exact Hch.
  - intros x Hx. split; [apply Hd2 | apply Hm2]; exact Hx.
  - intros Hnudge Hteeth Hmiss Hact ch Hch.
    rewrite (Hd1 ch Hch), (Hm1 ch Hch).
    destruct (toothAdder_values ltac:(lia)) as [Had Ham].
    split.
    + unfold calcEndTeeth_DualWheel. cbv zeta.
      pose proof (clampToToothCount_range
                    (endToothQuotient st st#(ignitionEndAngle ch)) toothAdder_DualWheel
                    Hnudge ltac:(lia)) as Hc.
      destruct Had as [E | E]; rewrite E in *; specialize (Hc ltac:(lia) ltac:(lia)); lia.
    + unfold calcEndTeeth_missingTooth. cbv zeta.
      match goal with
      | |- context [clampToToothCount ?t toothAdder_missingTooth] =>
          pose proof (clampToToothCount_range t toothAdder_missingTooth
                                              Hnudge ltac:(lia)) as Hc;
          pose proof (clampToActualTeeth_range
                        st (clampToToothCount t toothAdder_missingTooth)
                        toothAdder_missingTooth) as Hr
      end.
      destruct Ham as [E | E]; rewrite E in *;
        specialize (Hc ltac:(lia) ltac:(lia));
        specialize (Hr ltac:(lia) ltac:(lia) ltac:(lia) Hc); lia.
Qed.

(** *** Per-tooth ignition timing *)

(** X18: the per-tooth timing check hands the live angle to the
    scheduler at most once, and never touches the decoder's variables.
    It does so for the first built-in channel whose end tooth is the
    current tooth, with that channel's end angle: channels further down
    that share the end tooth are not adjusted.  With fixed cranking
    timing in force, at zero RPM, or when no end tooth matches, nothing
    is handed over. *)
Theorem checkPerToothTiming_adjusts_first_match (crankAngle currentTooth : Z) (st : State) :
  (forall x, (checkPerToothTiming crankAngle currentTooth st)#x = st#x)
  /\ (timingAdjust (checkPerToothTiming crankAngle currentTooth st) = timingAdjust st
      \/ exists ch,
           In ch ignChannels
           /\ st#(ignitionEndTooth ch) = currentTooth
           /\ (forall ch', In ch' ignChannels -> (ch' < ch)%nat ->
                           st#(ignitionEndTooth ch') <> currentTooth)
           /\ timingAdjust (checkPerToothTiming crankAngle currentTooth st)
              = (ch, st#(ignitionEndAngle ch), crankAngle) :: timingAdjust st)
  /\ (st#fixedCrankingOverride <> 0 \/ st#(currentStatus RPM) <= 0
      \/ (forall ch, In ch ignChannels -> st#(ignitionEndTooth ch) <> currentTooth) ->
      checkPerToothTiming crankAngle currentTooth st = st)
  /\ (st#fixedCrankingOverride = 0 -> 0 < st#(currentStatus RPM) ->
      (exists ch, In ch ignChannels /\ st#(ignitionEndTooth ch) = currentTooth) ->
      timingAdjust (checkPerToothTiming crankAngle currentTooth st) <> timingAdjust st).
Proof.
  split; [intro x; apply checkPerToothTiming_get|].
  assert (Hfind : forall n len,
             match find (fun ch => currentTooth =? st#(ignitionEndTooth ch)) (seq n len) with
             | Some ch =>
                 In ch (seq n len) /\ st#(ignitionEndTooth ch) = currentTooth
                 /\ forall ch', In ch' (seq n len) -> (ch' < ch)%nat ->
                                st#(ignitionEndTooth ch') <> currentTooth
             | None => forall ch, In ch (seq n len) ->
                                  st#(ignitionEndTooth ch) <> currentTooth
             end).
  { intros n len. revert n. induction len as [| len IH]; intro n.
    - simpl. intros ch [].
    - cbn [seq find]. destruct (currentTooth =? st#(ignitionEndTooth n)) eqn:E.
      + apply Z.eqb_eq in E. split; [left; reflexivity|]. split; [auto|].
        intros ch' [-> | Hin] Hlt; [lia|]. apply in_seq in Hin. lia.
      + apply Z.eqb_neq in E. specialize (IH (S n)).
        destruct (find _ (seq (S n) len)) as [ch |].
        * destruct IH as (Hin & Heq & Hfirst). split; [right; exact Hin|].
          split; [exact Heq|]. intros ch' [<- | Hin'] Hlt; [congruence|].
          apply Hfirst; assumption.
        * intros ch [<- | Hin]; [congruence | apply IH; exact Hin]. }
  specialize (Hfind 1%nat (Nat.min 8 (Nat.max 4 IGN_CHANNELS))).
  fold ignChannels in Hfind.
  split; [|split].
  - unfold checkPerToothTiming.
    destruct (_ && _); [|left; reflexivity].
    destruct (find _ ignChannels) as [ch |]; [|left; reflexivity].
    right. exists ch. destruct Hfind as (H1 & H2 & H3).
    repeat split; assumption.
  - intro H. unfold checkPerToothTiming.
    destruct ((st#fixedCrankingOverride =? 0) && (st#(currentStatus RPM) >? 0)) eqn:E;
      [|reflexivity].
    apply andb_true_iff in E. destruct E as [E1 E2].
    apply Z.eqb_eq in E1. rewrite Z.gtb_ltb in E2. apply Z.ltb_lt in E2.
    destruct H as [H | [H | H]]; [contradiction | lia |].
    destruct (find _ ignChannels) as [ch |]; [|reflexivity].
    destruct Hfind as (H1 & H2 & _). exfalso. exact (H ch H1 H2).
  - intros H0 Hrpm (ch & Hin & Heq). unfold checkPerToothTiming.
    rewrite H0. replace (st#(currentStatus RPM) >? 0) with true
      by (symmetry; rewrite Z.gtb_ltb; apply Z.ltb_lt; exact Hrpm).
    cbn [Z.eqb andb].
    destruct (find _ ignChannels) as [c |].
    + cbn [adjustCrankAngle timingAdjust]. intro Hbad.
      apply (f_equal (@length _)) in Hbad. simpl in Hbad. lia.
    + exfalso. exact (Hfind ch Hin Heq).
Qed.

(** *** The tooth and composite loggers *)

Lemma arraySet_length (a : list Z) (i : nat) (v : Z) :
  length (arraySet a i v) = length a.
Proof.
  revert i. induction a as [|x r IH]; intros [|i]; simpl; try reflexivity.
  now rewrite IH.
Qed.

Lemma arrayGet_arraySet_eq (a : list Z) (i : nat) (v : Z) :
  (i < length a)%nat -> arrayGet (arraySet a i v) i = v.
Proof.
  unfold arrayGet. revert i. induction a as [|x r IH]; intros [|i] H; simpl in *;
    try lia; try reflexivity.
  apply IH. lia.
Qed.

Lemma arrayGet_arraySet_neq (a : list Z) (i j : nat) (v : Z) :
  i <> j -> arrayGet (arraySet a i v) j = arrayGet a j.
Proof.
  unfold arrayGet. revert i j.
  induction a as [|x r IH]; intros [|i] [|j] H; simpl; try reflexivity; try congruence.
  apply IH. congruence.
Qed.

Lemma BIT_CHECK_CLEAR (a b : Z) : BIT_CHECK (BIT_CLEAR a b) b = false.
Proof.
  unfold BIT_CHECK, BIT_CLEAR.
  destruct (Z.ltb_spec b 0) as [Hb|Hb]; [apply Z.testbit_neg_r; exact Hb|].
  rewrite Z.land_spec, Z.lnot_spec, Z.shiftl_spec, Z.sub_diag by exact Hb.
  apply andb_false_r.
Qed.

Lemma BIT_CHECK_SET (a b : Z) : 0 <= b -> BIT_CHECK (BIT_SET a b) b = true.
Proof.
  intro Hb. unfold BIT_CHECK, BIT_SET.
  rewrite Z.lor_spec, Z.shiftl_spec, Z.sub_diag by exact Hb.
  apply orb_true_r.
Qed.

Lemma sameLogBelow_refl (lg : ToothLog) : sameLogBelow lg lg.
Proof. unfold sameLogBelow. repeat split. Qed.

Lemma sameLogBelow_trans (a b c : ToothLog) :
  sameLogBelow a b -> sameLogBelow b c -> sameLogBelow a c.
Proof.
  intros (A1 & A2 & A3 & A4 & A5 & A6 & A7) (B1 & B2 & B3 & B4 & B5 & B6 & B7).
  unfold sameLogBelow. repeat split; try congruence.
  - destruct (A7 i) as [E _]; [congruence|]. destruct (B7 i) as [F _]; congruence.
  - destruct (A7 i) as [_ E]; [congruence|]. destruct (B7 i) as [_ F]; congruence.
Qed.

Lemma sameLogBelow_setCompositeLog (v : Z) (lg : ToothLog) :
  sameLogBelow (setCompositeLog v lg) lg.
Proof.
  unfold sameLogBelow, setCompositeLog. cbn.
  repeat split; try apply arraySet_length.
  apply arrayGet_arraySet_neq. congruence.
Qed.

Lemma sameLogBelow_setToothHistory (v : Z) (lg : ToothLog) :
  sameLogBelow (setToothHistory v lg) lg.
Proof.
  unfold sameLogBelow, setToothHistory. cbn.
  repeat split; try apply arraySet_length.
  apply arrayGet_arraySet_neq. congruence.
Qed.

Lemma sameLogBelow_compositeBitIf (c : bool) (b : Z) (lg : ToothLog) :
  sameLogBelow (compositeBitIf c b lg) lg.
Proof.
  unfold compositeBitIf. destruct c;
    [apply sameLogBelow_setCompositeLog | apply sameLogBelow_refl].
Qed.

Ltac same_log :=
  repeat first
    [ apply sameLogBelow_refl
    | match goal with
      | |- sameLogBelow (if ?c then _ else _) _ => destruct c
      end
    | (eapply sameLogBelow_trans;
       [first [ apply sameLogBelow_compositeBitIf
              | apply sameLogBelow_setCompositeLog
              | apply sameLogBelow_setToothHistory ]|]) ].

Lemma sameLogBelow_compositeLogEntry (pins : TriggerPins) (whichTooth : Z)
      (st : State) (lg : ToothLog) :
  sameLogBelow (compositeLogEntry pins whichTooth st lg) lg.
Proof. unfold compositeLogEntry. same_log. Qed.

Lemma addToothLogEntry_shape (pins : TriggerPins) (now toothTime whichTooth : Z)
      (st : State) (lg : ToothLog) :
  addToothLogEntry pins now toothTime whichTooth st lg = lg
  \/ BIT_CHECK (status1 lg) BIT_STATUS1_TOOTHLOG1READY = false
     /\ exists lg1, sameLogBelow lg1 lg
        /\ addToothLogEntry pins now toothTime whichTooth st lg
           = logAdvance (setToothHistory
                           (toothHistory_t (if toothLogEnabled lg
                                            then toothTime else now)) lg1).
Proof.
  unfold addToothLogEntry.
  destruct (BIT_CHECK (status1 lg) BIT_STATUS1_TOOTHLOG1READY); [left; reflexivity|].
  destruct (toothLogEnabled lg) eqn:Hen.
  - cbn [orb]. destruct (whichTooth =? TOOTH_CRANK); [|left; reflexivity].
    right. split; [reflexivity|].
    exists lg. split; [apply sameLogBelow_refl | reflexivity].
  - cbn [orb]. destruct (compositeTriggerUsed lg >? 0); [|left; reflexivity].
    right. split; [reflexivity|].
    exists (compositeLogEntry pins whichTooth st lg).
    split; [apply sameLogBelow_compositeLogEntry | reflexivity].
Qed.

(** X19: [addToothLogEntry] only ever appends.  With the index inside
    the log arrays it stays inside them, every entry below the index
    keeps its value in both arrays, the index stays or moves up by one
    (clearing the ready flag), the two logger switches are not touched,
    a log whose ready flag is up is left exactly as it is, and the
    flag is only ever raised with the index on the last slot. *)
Theorem addToothLogEntry_appends (pins : TriggerPins) (now toothTime whichTooth : Z)
        (st : State) (lg : ToothLog) :
  logIndexInRange lg ->
  logIndexInRange (addToothLogEntry pins now toothTime whichTooth st lg)
  /\ toothLogEnabled (addToothLogEntry pins now toothTime whichTooth st lg)
     = toothLogEnabled lg
  /\ compositeTriggerUsed (addToothLogEntry pins now toothTime whichTooth st lg)
     = compositeTriggerUsed lg
  /\ (forall i, 0 <= i < toothHistoryIndex lg ->
        arrayGet (toothHistory (addToothLogEntry pins now toothTime whichTooth st lg))
                 (Z.to_nat i)
        = arrayGet (toothHistory lg) (Z.to_nat i)
        /\ arrayGet (compositeLogHistory
                       (addToothLogEntry pins now toothTime whichTooth st lg))
                    (Z.to_nat i)
           = arrayGet (compositeLogHistory lg) (Z.to_nat i))
  /\ (toothHistoryIndex (addToothLogEntry pins now toothTime whichTooth st lg)
      = toothHistoryIndex lg
      \/ toothHistoryIndex (addToothLogEntry pins now toothTime whichTooth st lg)
         = toothHistoryIndex lg + 1
         /\ BIT_CHECK (status1 (addToothLogEntry pins now toothTime whichTooth st lg))
                      BIT_STATUS1_TOOTHLOG1READY = false)
  /\ (BIT_CHECK (status1 lg) BIT_STATUS1_TOOTHLOG1READY = true ->
      addToothLogEntry pins now toothTime whichTooth st lg = lg)
  /\ (BIT_CHECK (status1 (addToothLogEntry pins now toothTime whichTooth st lg))
                BIT_STATUS1_TOOTHLOG1READY = true ->
      BIT_CHECK (status1 lg) BIT_STATUS1_TOOTHLOG1READY = true
      \/ toothHistoryIndex (addToothLogEntry pins now toothTime whichTooth st lg)
         = TOOTH_LOG_SIZE - 1).
Proof.
  intros (Hidx & Hlen & Hlenc).
  destruct (addToothLogEntry_shape pins now toothTime whichTooth st lg)
    as [-> | (Hready & lg1 & Hsame & ->)].
  - repeat split; try assumption; try lia; try reflexivity.
    left; assumption.
  - destruct Hsame as (S1 & S2 & S3 & S4 & S5 & S6 & S7).
    set (v := toothHistory_t _).
    assert (Hbelow : forall i, 0 <= i < toothHistoryIndex lg ->
              arrayGet (arraySet (toothHistory lg1)
                                 (Z.to_nat (toothHistoryIndex lg1)) v) (Z.to_nat i)
              = arrayGet (toothHistory lg) (Z.to_nat i)
              /\ arrayGet (compositeLogHistory lg1) (Z.to_nat i)
                 = arrayGet (compositeLogHistory lg) (Z.to_nat i)).
    { intros i Hi. rewrite arrayGet_arraySet_neq by (rewrite S1; lia).
      apply S7. lia. }
    unfold logAdvance. cbn [setToothHistory toothHistoryIndex status1].
    destruct (Z.ltb_spec (toothHistoryIndex lg1) (TOOTH_LOG_SIZE - 1)) as [Hlt|Hge];
      cbv zeta; cbn; rewrite ?arraySet_length;
      (split; [|split; [|split; [|split; [|split; [|split]]]]]);
      try assumption; try congruence.
    + unfold logIndexInRange. cbn. rewrite arraySet_length. lia.
    + right. split; [congruence | apply BIT_CHECK_CLEAR].
    + rewrite BIT_CHECK_CLEAR. discriminate.
    + unfold logIndexInRange. cbn. rewrite arraySet_length. lia.
    + left; congruence.
    + intros _. right. lia.
Qed.

(** *** Filling the tooth log *)

Lemma addToothLogEntry_crank_tooth (pins : TriggerPins) (now toothTime : Z)
      (st : State) (lg : ToothLog) :
  toothLogEnabled lg = true ->
  BIT_CHECK (status1 lg) BIT_STATUS1_TOOTHLOG1READY = false ->
  addToothLogEntry pins now toothTime TOOTH_CRANK st lg
  = logAdvance (setToothHistory (toothHistory_t toothTime) lg).
Proof.
  intros Hen Hready. unfold addToothLogEntry. rewrite Hready, Hen. reflexivity.
Qed.

Lemma logCrankTeeth_ready (calls : list LogCall) (lg : ToothLog) :
  BIT_CHECK (status1 lg) BIT_STATUS1_TOOTHLOG1READY = true ->
  logCrankTeeth calls lg = lg.
Proof.
  intro Hready. induction calls as [|[[[pins now] st] g] rest IH]; [reflexivity|].
  unfold logCrankTeeth in *. cbn [fold_left].
  unfold addToothLogEntry at 2. rewrite Hready. exact IH.
Qed.

Lemma logCrankTeeth_from (calls : list LogCall) :
  0 <= BIT_STATUS1_TOOTHLOG1READY ->
  forall lg,
  toothLogEnabled lg = true ->
  BIT_CHECK (status1 lg) BIT_STATUS1_TOOTHLOG1READY = false ->
  0 <= toothHistoryIndex lg <= TOOTH_LOG_SIZE - 1 ->
  Z.of_nat (length (toothHistory lg)) = TOOTH_LOG_SIZE ->
  (forall j, 0 <= j < toothHistoryIndex lg ->
     arrayGet (toothHistory (logCrankTeeth calls lg)) (Z.to_nat j)
     = arrayGet (toothHistory lg) (Z.to_nat j))
  /\ (forall j, toothHistoryIndex lg <= j
                < Z.min (toothHistoryIndex lg + Z.of_nat (length calls)) TOOTH_LOG_SIZE ->
        arrayGet (toothHistory (logCrankTeeth calls lg)) (Z.to_nat j)
        = toothHistory_t (nth (Z.to_nat (j - toothHistoryIndex lg))
                              (map logCallTime calls) 0))
  /\ BIT_CHECK (status1 (logCrankTeeth calls lg)) BIT_STATUS1_TOOTHLOG1READY
     = (TOOTH_LOG_SIZE <=? toothHistoryIndex lg + Z.of_nat (length calls))
  /\ toothHistoryIndex (logCrankTeeth calls lg)
     = Z.min (toothHistoryIndex lg + Z.of_nat (length calls)) (TOOTH_LOG_SIZE - 1).
Proof.
  intro Hbit. induction calls as [|[[[pins now] st] g] rest IH];
    intros lg Hen Hready Hidx Hlen.
  - cbn [logCrankTeeth fold_left length map]. rewrite Z.add_0_r.
    repeat split; try lia.
    rewrite Hready. symmetry. apply Z.leb_gt. lia.
  - change (logCrankTeeth ((pins, now, st, g) :: rest) lg)
      with (logCrankTeeth rest (addToothLogEntry pins now g TOOTH_CRANK st lg)).
    rewrite addToothLogEntry_crank_tooth by assumption.
    cbn [length map logCallTime snd]. rewrite Nat2Z.inj_succ.
    unfold logAdvance. cbn [setToothHistory toothHistoryIndex status1].
    destruct (Z.ltb_spec (toothHistoryIndex lg) (TOOTH_LOG_SIZE - 1)) as [Hlt|Hge];
      cbv zeta.
    + match goal with |- context [logCrankTeeth rest ?l] => set (lg1 := l) end.
      assert (H1 : toothHistoryIndex lg1 = toothHistoryIndex lg + 1) by reflexivity.
      assert (H2 : toothHistory lg1
                   = arraySet (toothHistory lg) (Z.to_nat (toothHistoryIndex lg))
                              (toothHistory_t g)) by reflexivity.
      destruct (IH lg1) as (I1 & I2 & I3 & I4).
      * exact Hen.
      * apply BIT_CHECK_CLEAR.
      * rewrite H1. lia.
      * rewrite H2, arraySet_length. exact Hlen.
      * rewrite H1 in *. rewrite H2 in I1.
        split; [|split; [|split]].
        -- intros j Hj. rewrite I1 by lia. apply arrayGet_arraySet_neq. lia.
        -- intros j Hj.
           destruct (Z.eq_dec j (toothHistoryIndex lg)) as [->|Hne].
           ++ rewrite I1 by lia. rewrite Z.sub_diag. cbn [Z.to_nat nth].
              apply arrayGet_arraySet_eq. lia.
           ++ rewrite I2 by lia.
              replace (Z.to_nat (j - toothHistoryIndex lg))
                with (S (Z.to_nat (j - (toothHistoryIndex lg + 1)))) by lia.
              reflexivity.
        -- rewrite I3. f_equal. lia.
        -- rewrite I4. f_equal. lia.
    + match goal with |- context [logCrankTeeth rest ?l] => set (lg1 := l) end.
      assert (Hr : BIT_CHECK (status1 lg1) BIT_STATUS1_TOOTHLOG1READY = true)
        by (apply BIT_CHECK_SET; exact Hbit).
      rewrite (logCrankTeeth_ready rest lg1 Hr).
      subst lg1. cbn [toothHistory status1 toothHistoryIndex] in *.
      split; [|split; [|split]].
      * intros j Hj. apply arrayGet_arraySet_neq. lia.
      * intros j Hj. assert (j = toothHistoryIndex lg) as -> by lia.
        rewrite Z.sub_diag. cbn [Z.to_nat nth]. apply arrayGet_arraySet_eq. lia.
      * rewrite Hr. symmetry. apply Z.leb_le. lia.
      * cbn [toothHistoryIndex setStatus1 setToothHistory]. lia.
Qed.

(** X20: a run of crank teeth handed to the tooth logger, starting on an
    empty log with the ready flag down: the log holds the first
    TOOTH_LOG_SIZE tooth times in the order they came, later ones are
    dropped, and the ready flag is up exactly when at least
    TOOTH_LOG_SIZE teeth were handed over.  The index stops on the last
    slot. *)
Theorem tooth_log_fills (calls : list LogCall) (lg : ToothLog) :
  0 <= BIT_STATUS1_TOOTHLOG1READY ->
  1 <= TOOTH_LOG_SIZE ->
  Z.of_nat (length (toothHistory lg)) = TOOTH_LOG_SIZE ->
  toothLogEnabled lg = true ->
  toothHistoryIndex lg = 0 ->
  BIT_CHECK (status1 lg) BIT_STATUS1_TOOTHLOG1READY = false ->
  (forall j, 0 <= j < Z.min (Z.of_nat (length calls)) TOOTH_LOG_SIZE ->
     arrayGet (toothHistory (logCrankTeeth calls lg)) (Z.to_nat j)
     = toothHistory_t (nth (Z.to_nat j) (map logCallTime calls) 0))
  /\ BIT_CHECK (status1 (logCrankTeeth calls lg)) BIT_STATUS1_TOOTHLOG1READY
     = (TOOTH_LOG_SIZE <=? Z.of_nat (length calls))
  /\ toothHistoryIndex (logCrankTeeth calls lg)
     = Z.min (Z.of_nat (length calls)) (TOOTH_LOG_SIZE - 1).
Proof.
  intros Hbit Hsize Hlen Hen Hidx Hready.
  destruct (logCrankTeeth_from calls Hbit lg Hen Hready) as (_ & I2 & I3 & I4);
    [lia | exact Hlen |].
  rewrite Hidx in *. cbn [Z.add] in *.
  split; [|split; assumption].
  intros j Hj. rewrite I2 by lia. rewrite Z.sub_0_r. reflexivity.
Qed.

(** *** The logging interrupt handlers *)

Lemma triggerPri_DualWheel_accepted_logged (st : State) :
  (triggerPri_DualWheel_accepted st)#decoderState
  = BIT_SET st#decoderState BIT_DECODER_VALID_TRIGGER
  /\ (triggerPri_DualWheel_accepted st)#curGap = st#curGap.
Proof.
  rewrite triggerPri_DualWheel_accepted_blocks.
  destruct (triggerPri_DualWheel_countTooth_values st) as (_ & _ & _ & Hd & Hframe).
  rewrite !triggerPri_DualWheel_perTooth_get.
  unfold triggerPri_DualWheel_inSync. cbv zeta.
  destruct (_ =? 1).
  - rewrite !setFilter_get by discriminate.
    destruct (_ || _); rewrite ?triggerPri_DualWheel_toothOne_get by not_in_list;
      (split; [exact Hd | apply (sameOutside_get _ _ _ _ Hframe); not_in_list]).
  - split; [exact Hd | apply (sameOutside_get _ _ _ _ Hframe); not_in_list].
Qed.

Lemma logCrankTeeth_one (pins : TriggerPins) (now toothTime : Z) (st : State)
      (lg : ToothLog) :
  logCrankTeeth [(pins, now, st, toothTime)] lg
  = addToothLogEntry pins now toothTime TOOTH_CRANK st lg.
Proof. reflexivity. Qed.

Lemma addToothLogEntry_tooth_log_any_state (pins pins' : TriggerPins) (now now' : Z)
      (toothTime whichTooth : Z) (st st' : State) (lg : ToothLog) :
  toothLogEnabled lg = true ->
  addToothLogEntry pins now toothTime whichTooth st lg
  = addToothLogEntry pins' now' toothTime whichTooth st' lg.
Proof. intro Hen. unfold addToothLogEntry. rewrite Hen. reflexivity. Qed.

(** X21: the primary logger interrupt around the dual-wheel handler,
    with the tooth log switched on.  An edge of the configured polarity
    that passes the trigger filter hands its gap to the tooth log as one
    crank tooth.  An edge of the other polarity, or one inside the
    filter duration, is not logged while the composite logger is off;
    with the composite logger on as well it is logged as a crank tooth
    all the same: the gap of the rejected edge, or once more the gap
    stored before when the polarity did not match. *)
Theorem tooth_log_primary_edge (primaryTriggerEdge : trigger_edge)
        (pins : TriggerPins) (now now' : Z) (st : State) (lg : ToothLog) :
  toothLogEnabled lg = true ->
  (edgeSeen primaryTriggerEdge (READ_PRI_TRIGGER pins) = true ->
   st#triggerFilterTime <= u32 (now - st#toothLastToothTime) ->
   snd (loggerPrimaryISR triggerPri_DualWheel primaryTriggerEdge pins now now' st lg)
   = logCrankTeeth [(pins, now', st, u32 (now - st#toothLastToothTime))] lg)
  /\ (compositeTriggerUsed lg <= 0 ->
      edgeSeen primaryTriggerEdge (READ_PRI_TRIGGER pins) = false
      \/ u32 (now - st#toothLastToothTime) < st#triggerFilterTime ->
      snd (loggerPrimaryISR triggerPri_DualWheel primaryTriggerEdge pins now now' st lg)
      = lg)
  /\ (0 < compositeTriggerUsed lg ->
      edgeSeen primaryTriggerEdge (READ_PRI_TRIGGER pins) = true ->
      u32 (now - st#toothLastToothTime) < st#triggerFilterTime ->
      snd (loggerPrimaryISR triggerPri_DualWheel primaryTriggerEdge pins now now' st lg)
      = logCrankTeeth [(pins, now', st, u32 (now - st#toothLastToothTime))] lg)
  /\ (0 < compositeTriggerUsed lg ->
      edgeSeen primaryTriggerEdge (READ_PRI_TRIGGER pins) = false ->
      snd (loggerPrimaryISR triggerPri_DualWheel primaryTriggerEdge pins now now' st lg)
      = logCrankTeeth [(pins, now', st, st#curGap)] lg).
Proof.
  intro Hen.
  set (s0 := set decoderState (BIT_CLEAR st#decoderState BIT_DECODER_VALID_TRIGGER) st).
  assert (Hf : s0#triggerFilterTime = st#triggerFilterTime)
    by (subst s0; store; reflexivity).
  assert (Hl : s0#toothLastToothTime = st#toothLastToothTime)
    by (subst s0; store; reflexivity).
  assert (Hd : BIT_CHECK s0#decoderState BIT_DECODER_VALID_TRIGGER = false)
    by (subst s0; store; apply BIT_CHECK_CLEAR).
  assert (Hg : s0#curGap = st#curGap) by (subst s0; store; reflexivity).
  assert (Hpass : st#triggerFilterTime <= u32 (now - st#toothLastToothTime) ->
            BIT_CHECK (triggerPri_DualWheel now s0)#decoderState
                      BIT_DECODER_VALID_TRIGGER = true
            /\ (triggerPri_DualWheel now s0)#curGap
               = u32 (now - st#toothLastToothTime)).
  { intro H. rewrite triggerPri_DualWheel_passed by (rewrite Hf, Hl; exact H).
    destruct (triggerPri_DualWheel_accepted_logged
                (triggerPri_DualWheel_capture now s0)) as [-> ->].
    split; [apply BIT_CHECK_SET; discriminate|].
    destruct (triggerPri_DualWheel_capture_gap now s0) as [-> _].
    rewrite Hl. reflexivity. }
  assert (Hrej : u32 (now - st#toothLastToothTime) < st#triggerFilterTime ->
            BIT_CHECK (triggerPri_DualWheel now s0)#decoderState
                      BIT_DECODER_VALID_TRIGGER = false
            /\ (triggerPri_DualWheel now s0)#curGap
               = u32 (now - st#toothLastToothTime)).
  { intro H. rewrite triggerPri_DualWheel_filtered by (rewrite Hf, Hl; exact H).
    rewrite triggerPri_DualWheel_capture_get by discriminate.
    split; [exact Hd|].
    destruct (triggerPri_DualWheel_capture_gap now s0) as [-> _].
    rewrite Hl. reflexivity. }
  rewrite !logCrankTeeth_one.
  unfold loggerPrimaryISR. cbv zeta. fold s0. rewrite Hen. cbn [andb].
  split; [|split; [|split]].
  - intros Hseen Hgap. rewrite Hseen. destruct (Hpass Hgap) as [-> ->].
    apply addToothLogEntry_tooth_log_any_state. exact Hen.
  - intros Hoff [Hseen | Hgap].
    + rewrite Hseen, Hd.
      destruct (Z.gtb_spec (compositeTriggerUsed lg) 0); [lia | reflexivity].
    + destruct (edgeSeen _ _).
      * destruct (Hrej Hgap) as [-> _].
        destruct (Z.gtb_spec (compositeTriggerUsed lg) 0); [lia | reflexivity].
      * rewrite Hd.
        destruct (Z.gtb_spec (compositeTriggerUsed lg) 0); [lia | reflexivity].
  - intros Hon Hseen Hgap. rewrite Hseen. destruct (Hrej Hgap) as [-> ->].
    destruct (Z.gtb_spec (compositeTriggerUsed lg) 0); [|lia].
    apply addToothLogEntry_tooth_log_any_state. exact Hen.
  - intros Hon Hseen. rewrite Hseen, Hd, Hg.
    destruct (Z.gtb_spec (compositeTriggerUsed lg) 0); [|lia].
    apply addToothLogEntry_tooth_log_any_state. exact Hen.
Qed.






(** *** Set-up of the missing-tooth decoder *)

Lemma testbit_one (k : Z) : Z.testbit 1 k = (k =? 0).
Proof. destruct k as [|p|p]; try reflexivity; destruct p; reflexivity. Qed.

Lemma BIT_CHECK_SET_at (a b c : Z) :
  0 <= b -> BIT_CHECK (BIT_SET a b) c = BIT_CHECK a c || (c =? b).
Proof.
  intro Hb. unfold BIT_CHECK, BIT_SET.
  destruct (Z.ltb_spec c 0) as [Hc|Hc].
  - rewrite !Z.testbit_neg_r by exact Hc.
    symmetry. apply Z.eqb_neq. lia.
  - rewrite Z.lor_spec, Z.shiftl_spec, testbit_one by exact Hc.
    destruct (Z.eqb_spec (c - b) 0), (Z.eqb_spec c b); try reflexivity; lia.
Qed.

Lemma BIT_CHECK_CLEAR_at (a b c : Z) :
  0 <= b -> BIT_CHECK (BIT_CLEAR a b) c = BIT_CHECK a c && negb (c =? b).
Proof.
  intro Hb. unfold BIT_CHECK, BIT_CLEAR.
  destruct (Z.ltb_spec c 0) as [Hc|Hc].
  - rewrite !Z.testbit_neg_r by exact Hc. reflexivity.
  - rewrite Z.land_spec, Z.lnot_spec, Z.shiftl_spec, testbit_one by exact Hc.
    destruct (Z.eqb_spec (c - b) 0), (Z.eqb_spec c b); try reflexivity; lia.
Qed.

Lemma triggerSetup_missingTooth_writes (st : State) :
  sameOutside setupWrites (setupState (triggerSetup_missingTooth st)) st.
Proof.
  cbv beta delta [triggerSetup_missingTooth setupWrites]. cbv zeta. cbn [setupState].
  frame.
Qed.

(** X23: set-up of the missing-tooth decoder, for a wheel of at most 255
    teeth with fewer teeth missing than configured.  It leaves the number
    of physical teeth (configured minus missing), a tooth angle of at
    least one degree (360 or, at cam speed, 720 divided by the tooth
    count), all tooth counters and the tooth-one times at zero, and half
    the tooth count as the sync check count.  In [decoderState] the
    sequential bit says whether the wheel runs at cam speed, the
    second-derivative bit is down, the secondary bit says whether a cam
    signal is expected, and every other bit keeps its value.  The sync
    flag, the last-tooth times, the revolution time and the tertiary
    filter duration are among the variables set-up never writes. *)
Theorem triggerSetup_missingTooth_establishes (st : State) :
  0 <= triggerMissingTeeth page4 < triggerTeeth page4 ->
  triggerTeeth page4 <= 255 ->
  (setupState (triggerSetup_missingTooth st))#triggerActualTeeth
  = triggerTeeth page4 - triggerMissingTeeth page4
  /\ (setupState (triggerSetup_missingTooth st))#triggerToothAngle
     = (if TrigSpeed page4 =? CAM_SPEED then 720 else 360) / triggerTeeth page4
  /\ 1 <= (setupState (triggerSetup_missingTooth st))#triggerToothAngle <= 720
  /\ (forall x, In x [toothCurrentCount; secondaryToothCount; thirdToothCount;
                      toothOneTime; toothOneMinusOneTime; toothLastMinusOneToothTime] ->
        (setupState (triggerSetup_missingTooth st))#x = 0)
  /\ checkSyncToothCount (triggerSetup_missingTooth st) = triggerTeeth page4 / 2
  /\ BIT_CHECK (setupState (triggerSetup_missingTooth st))#decoderState
               BIT_DECODER_IS_SEQUENTIAL = (TrigSpeed page4 =? CAM_SPEED)
  /\ BIT_CHECK (setupState (triggerSetup_missingTooth st))#decoderState
               BIT_DECODER_2ND_DERIV = false
  /\ BIT_CHECK (setupState (triggerSetup_missingTooth st))#decoderState
               BIT_DECODER_HAS_SECONDARY = hasSecondary_missingTooth
  /\ (forall b, b <> BIT_DECODER_IS_SEQUENTIAL -> b <> BIT_DECODER_2ND_DERIV ->
        b <> BIT_DECODER_HAS_SECONDARY ->
        BIT_CHECK (setupState (triggerSetup_missingTooth st))#decoderState b
        = BIT_CHECK st#decoderState b)
  /\ sameOutside setupWrites (setupState (triggerSetup_missingTooth st)) st
  /\ ~ In (currentStatus hasSync) setupWrites
  /\ ~ In toothLastToothTime setupWrites
  /\ ~ In toothLastSecToothTime setupWrites
  /\ ~ In toothLastThirdToothTime setupWrites
  /\ ~ In revolutionTime setupWrites
  /\ ~ In triggerThirdFilterTime setupWrites.
Proof.
  intros Hm Ht.
  assert (Hangle : forall n, 360 <= n <= 720 ->
            u16 (n / triggerTeeth page4) = n / triggerTeeth page4
            /\ 1 <= n / triggerTeeth page4 <= 720).
  { intros n Hn.
    assert (1 <= n / triggerTeeth page4) by (apply Z.div_le_lower_bound; lia).
    assert (n / triggerTeeth page4 <= n) by (apply Z.div_le_upper_bound; nia).
    split; [apply u16_id|]; lia. }
  destruct (Hangle 360 ltac:(lia)) as [H360 R360].
  destruct (Hangle 720 ltac:(lia)) as [H720 R720].
  assert (Hbits : forall d b,
            BIT_CHECK
              ((if hasSecondary_missingTooth
                then BIT_SET else BIT_CLEAR)
                 (BIT_CLEAR
                    ((if TrigSpeed page4 =? CAM_SPEED
                      then fun a => BIT_SET a BIT_DECODER_IS_SEQUENTIAL
                      else fun a => a)
                       (BIT_CLEAR d BIT_DECODER_IS_SEQUENTIAL))
                    BIT_DECODER_2ND_DERIV)
                 BIT_DECODER_HAS_SECONDARY) b
            = if b =? BIT_DECODER_HAS_SECONDARY then hasSecondary_missingTooth
              else if b =? BIT_DECODER_2ND_DERIV then false
              else if b =? BIT_DECODER_IS_SEQUENTIAL then TrigSpeed page4 =? CAM_SPEED
              else BIT_CHECK d b).
  { intros d b.
    destruct hasSecondary_missingTooth, (TrigSpeed page4 =? CAM_SPEED);
      cbv beta iota;
      repeat first [rewrite BIT_CHECK_SET_at by discriminate
                   | rewrite BIT_CHECK_CLEAR_at by discriminate];
      unfold BIT_DECODER_HAS_SECONDARY, BIT_DECODER_2ND_DERIV, BIT_DECODER_IS_SEQUENTIAL;
      destruct (Z.eqb_spec b 3), (Z.eqb_spec b 0), (Z.eqb_spec b 1);
      try lia; cbn [negb andb orb];
      rewrite ?andb_true_r, ?orb_false_r, ?andb_false_r, ?orb_true_r; reflexivity. }
  assert (Hstate : (setupState (triggerSetup_missingTooth st))#decoderState
            = (if hasSecondary_missingTooth then BIT_SET else BIT_CLEAR)
                (BIT_CLEAR
                   ((if TrigSpeed page4 =? CAM_SPEED
                     then fun a => BIT_SET a BIT_DECODER_IS_SEQUENTIAL
                     else fun a => a)
                      (BIT_CLEAR st#decoderState BIT_DECODER_IS_SEQUENTIAL))
                   BIT_DECODER_2ND_DERIV)
                BIT_DECODER_HAS_SECONDARY).
  { unfold triggerSetup_missingTooth. cbn [setupState].
    destruct hasSecondary_missingTooth, (TrigSpeed page4 =? CAM_SPEED),
      (trigPatternSec page4); store; reflexivity. }
  split; [|split; [|split; [|split; [|split]]]].
  - unfold triggerSetup_missingTooth. cbn [setupState].
    destruct hasSecondary_missingTooth, (TrigSpeed page4 =? CAM_SPEED),
      (trigPatternSec page4); store; apply u16_id; lia.
  - unfold triggerSetup_missingTooth. cbn [setupState].
    destruct hasSecondary_missingTooth, (TrigSpeed page4 =? CAM_SPEED),
      (trigPatternSec page4); store; assumption.
  - unfold triggerSetup_missingTooth. cbn [setupState].
    destruct hasSecondary_missingTooth, (TrigSpeed page4 =? CAM_SPEED),
      (trigPatternSec page4); store; first [rewrite H360 | rewrite H720]; assumption.
  - intros x Hx. unfold triggerSetup_missingTooth. cbn [setupState].
    simpl in Hx.
    destruct hasSecondary_missingTooth, (TrigSpeed page4 =? CAM_SPEED),
      (trigPatternSec page4);
      repeat (destruct Hx as [<- | Hx]; [store; reflexivity|]); contradiction.
  - unfold triggerSetup_missingTooth. cbn [checkSyncToothCount].
    rewrite Z.shiftr_div_pow2 by lia. change (2 ^ 1) with 2.
    unfold u8. apply Z.mod_small.
    assert (0 <= triggerTeeth page4 / 2) by (apply Z.div_pos; lia).
    assert (triggerTeeth page4 / 2 <= triggerTeeth page4)
      by (apply Z.div_le_upper_bound; lia).
    change (2 ^ 8) with 256. lia.
  - rewrite Hstate.
    split; [|split; [|split; [|split]]]; try (rewrite Hbits; reflexivity).
    + intros b H1 H0 H3. rewrite Hbits.
      apply Z.eqb_neq in H1, H0, H3. rewrite H1, H0, H3. reflexivity.
    + split; [apply triggerSetup_missingTooth_writes|].
      repeat split; not_in_list.
Qed.

Lemma triggerSec_missingTooth_first_rejected (now now' : Z) (s : State) :
  s#toothLastSecToothTime = 0 -> 0 < s#triggerSecFilterTime ->
  triggerSec_missingTooth getCrankAngle_missingTooth now now' s
  = set toothLastSecToothTime now
        (set curGap2 0 (set curGap2 (u32 (now - 0)) (set curTime2 now s))).
Proof.
  intros Hlast Hf. unfold triggerSec_missingTooth. cbv zeta.
  rewrite triggerSec_missingTooth_capture_first by exact Hlast. store.
  destruct (Z.geb_spec 0 s#triggerSecFilterTime); [lia | reflexivity].
Qed.

Lemma triggerThird_missingTooth_first_accepted (now now' : Z) (s : State) :
  s#toothLastThirdToothTime = 0 -> s#triggerThirdFilterTime = 0 ->
  (triggerThird_missingTooth getCrankAngle_missingTooth now now' s)#thirdToothCount
  = u16 (s#thirdToothCount + 1)
  /\ (triggerThird_missingTooth getCrankAngle_missingTooth now now' s)
       #toothLastThirdToothTime = now
  /\ (triggerThird_missingTooth getCrankAngle_missingTooth now now' s)
       #triggerThirdFilterTime = 0.
Proof.
  intros Hlast Hf. unfold triggerThird_missingTooth. cbv zeta.
  rewrite triggerThird_missingTooth_capture_first by exact Hlast. store.
  rewrite Hf. change (0 >=? 0) with true. cbv iota.
  rewrite (sameOutside_get _ _ _ curTime3
             (triggerThird_missingTooth_record_writes now' _)) by not_in_list.
  store.
  unfold triggerThird_missingTooth_record. cbv zeta.
  match goal with
  | |- context [getCrankAngle_missingTooth now' ?s] =>
      pose proof (getCrankAngle_missingTooth_writes
                    crankAngleWrites now' s s (incl_refl _) (sameOutside_refl _ _)) as Hg;
      destruct (getCrankAngle_missingTooth now' s) as [a s']
  end.
  cbn [snd] in Hg. store.
  rewrite !(sameOutside_get _ _ _ _ Hg) by not_in_list. store.
  repeat split; reflexivity.
Qed.

(** X24: the first cam edges after set-up.  On a decoder whose cam
    inputs have not seen an edge and whose tertiary filter still has its
    start-up value 0, set-up of the missing-tooth decoder seeds a
    positive secondary filter duration (for a maximum RPM between 60 and
    7 500 000) but no tertiary one.  The first secondary edge is
    therefore only remembered: its time becomes the last-tooth time, the
    cam tooth counter stays at 0 and filter, revolution flag and VVT
    angle keep their values.  The first tertiary edge is counted as
    tooth 1 at once. *)
Theorem first_cam_edges_after_setup (now now' : Z) (st : State) :
  st#toothLastSecToothTime = 0 ->
  st#toothLastThirdToothTime = 0 ->
  st#triggerThirdFilterTime = 0 ->
  60 <= MAX_RPM <= 7500000 ->
  MAX_RPM / 60 <= MICROS_PER_SEC < 2 ^ 32 ->
  0 < (setupState (triggerSetup_missingTooth st))#triggerSecFilterTime
  /\ (triggerSec_missingTooth getCrankAngle_missingTooth now now'
        (setupState (triggerSetup_missingTooth st)))#secondaryToothCount = 0
  /\ (triggerSec_missingTooth getCrankAngle_missingTooth now now'
        (setupState (triggerSetup_missingTooth st)))#toothLastSecToothTime = now
  /\ (triggerSec_missingTooth getCrankAngle_missingTooth now now'
        (setupState (triggerSetup_missingTooth st)))#triggerSecFilterTime
     = (setupState (triggerSetup_missingTooth st))#triggerSecFilterTime
  /\ (triggerSec_missingTooth getCrankAngle_missingTooth now now'
        (setupState (triggerSetup_missingTooth st)))#revolutionOne = st#revolutionOne
  /\ (triggerSec_missingTooth getCrankAngle_missingTooth now now'
        (setupState (triggerSetup_missingTooth st)))#(currentStatus vvt1Angle)
     = st#(currentStatus vvt1Angle)
  /\ (triggerThird_missingTooth getCrankAngle_missingTooth now now'
        (setupState (triggerSetup_missingTooth st)))#thirdToothCount = 1
  /\ (triggerThird_missingTooth getCrankAngle_missingTooth now now'
        (setupState (triggerSetup_missingTooth st)))#toothLastThirdToothTime = now.
Proof.
  intros Hsec Hthird Hf Hrpm Hmicros.
  pose proof (triggerSetup_missingTooth_writes st) as Hframe.
  unfold setupWrites in Hframe.
  set (s0 := setupState (triggerSetup_missingTooth st)) in *.
  assert (Hfilter : 0 < s0#triggerSecFilterTime).
  { subst s0. unfold triggerSetup_missingTooth. cbn [setupState].
    assert (1 <= MAX_RPM / 60) by (apply Z.div_le_lower_bound; lia).
    assert (1 <= MICROS_PER_SEC / (MAX_RPM / 60))
      by (apply Z.div_le_lower_bound; lia).
    assert (MICROS_PER_SEC / (MAX_RPM / 60) <= MICROS_PER_SEC)
      by (apply Z.div_le_upper_bound; nia).
    assert (1 <= MICROS_PER_MIN / MAX_RPM / 4 / 2).
    { unfold MICROS_PER_MIN. rewrite !Z.div_div by lia.
      apply Z.div_le_lower_bound; lia. }
    assert (MICROS_PER_MIN / MAX_RPM / 4 / 2 <= MICROS_PER_MIN).
    { rewrite !Z.div_div by lia. apply Z.div_le_upper_bound; unfold MICROS_PER_MIN; lia. }
    unfold MICROS_PER_MIN in *.
    destruct hasSecondary_missingTooth, (TrigSpeed page4 =? CAM_SPEED),
      (trigPatternSec page4); store; rewrite u32_id; lia. }
  assert (Hcount : s0#secondaryToothCount = 0 /\ s0#thirdToothCount = 0).
  { subst s0. unfold triggerSetup_missingTooth. cbn [setupState].
    destruct hasSecondary_missingTooth, (TrigSpeed page4 =? CAM_SPEED),
      (trigPatternSec page4); store; split; reflexivity. }
  destruct Hcount as [Hc2 Hc3].
  assert (Hsec0 : s0#toothLastSecToothTime = 0)
    by (rewrite (sameOutside_get _ _ _ _ Hframe) by not_in_list; exact Hsec).
  assert (Hthird0 : s0#toothLastThirdToothTime = 0)
    by (rewrite (sameOutside_get _ _ _ _ Hframe) by not_in_list; exact Hthird).
  assert (Hf0 : s0#triggerThirdFilterTime = 0)
    by (rewrite (sameOutside_get _ _ _ _ Hframe) by not_in_list; exact Hf).
  split; [exact Hfilter|].
  rewrite (triggerSec_missingTooth_first_rejected now now' s0 Hsec0 Hfilter).
  destruct (triggerThird_missingTooth_first_accepted now now' s0 Hthird0 Hf0)
    as (-> & -> & _).
  store. rewrite Hc2, Hc3.
  rewrite (sameOutside_get _ _ _ revolutionOne Hframe) by not_in_list.
  rewrite (sameOutside_get _ _ _ (currentStatus vvt1Angle) Hframe) by not_in_list.
  repeat split; reflexivity.
Qed.

End Decoders.

(** ** The sample filter *)

(** *** Sorting *)

Lemma swap_value (array : list Z) (j : nat) :
  - 2 ^ 15 <= arrayGet array j < 2 ^ 15 ->
  swap array j
  = arraySet (arraySet array j (arrayGet array (S j))) (S j) (arrayGet array j).
Proof.
  intro H. unfold swap. cbv zeta. rewrite s16_u16, s16_id by exact H. reflexivity.
Qed.

Lemma swap_Permutation (array : list Z) (j : nat) :
  (S j < length array)%nat ->
  Permutation
    (arraySet (arraySet array j (arrayGet array (S j))) (S j) (arrayGet array j))
    array.
Proof.
  revert j. induction array as [|x r IH]; intros j H; [simpl in H; lia|].
  destruct j as [|j].
  - destruct r as [|y r]; [simpl in H; lia|]. cbn. apply perm_swap.
  - cbn [arraySet]. change (arrayGet (x :: r) (S (S j))) with (arrayGet r (S j)).
    change (arrayGet (x :: r) (S j)) with (arrayGet r j).
    apply perm_skip. apply IH. simpl in H. lia.
Qed.

Lemma sortStep_facts (array : list Z) (j : nat) :
  allInt array -> (S j < length array)%nat ->
  length (sortStep array j) = length array
  /\ Permutation (sortStep array j) array
  /\ arrayGet (sortStep array j) j = Z.min (arrayGet array j) (arrayGet array (S j))
  /\ arrayGet (sortStep array j) (S j)
     = Z.max (arrayGet array j) (arrayGet array (S j))
  /\ (forall k, k <> j -> k <> S j ->
        arrayGet (sortStep array j) k = arrayGet array k).
Proof.
  intros Hint Hj. unfold sortStep.
  destruct (Z.gtb_spec (arrayGet array j) (arrayGet array (S j))) as [Hgt|Hle].
  - rewrite swap_value by (apply Hint; lia).
    rewrite !arraySet_length.
    split; [reflexivity|]. split; [apply swap_Permutation; exact Hj|].
    split; [|split].
    + rewrite arrayGet_arraySet_neq by lia.
      rewrite arrayGet_arraySet_eq by lia. lia.
    + rewrite arrayGet_arraySet_eq by (rewrite arraySet_length; lia). lia.
    + intros k H1 H2. rewrite !arrayGet_arraySet_neq by lia. reflexivity.
  - split; [reflexivity|]. split; [apply Permutation_refl|].
    split; [lia|]. split; [lia|]. intros; reflexivity.
Qed.

Lemma allInt_Permutation (a b : list Z) :
  Permutation a b -> allInt b -> allInt a.
Proof.
  intros Hp Hb i Hi. unfold arrayGet.
  assert (Hin : In (nth i a 0) b).
  { apply (Permutation_in _ Hp). apply nth_In. exact Hi. }
  destruct (In_nth _ _ 0 Hin) as (k & Hk & <-). apply Hb. exact Hk.
Qed.

Lemma sort_array_inner_facts (count : nat) :
  forall (j : nat) (array : list Z),
  allInt array -> (j + count < length array)%nat ->
  length (sort_array_inner count j array) = length array
  /\ Permutation (sort_array_inner count j array) array
  /\ (forall k, (k < j \/ j + count < k)%nat ->
        arrayGet (sort_array_inner count j array) k = arrayGet array k)
  /\ (forall bound, (forall k, (j <= k <= j + count)%nat -> arrayGet array k <= bound) ->
        forall k, (j <= k <= j + count)%nat ->
          arrayGet (sort_array_inner count j array) k <= bound)
  /\ (forall j0, (j0 <= j)%nat ->
        (forall k, (j0 <= k <= j)%nat -> arrayGet array k <= arrayGet array j) ->
        forall k, (j0 <= k <= j + count)%nat ->
          arrayGet (sort_array_inner count j array) k
          <= arrayGet (sort_array_inner count j array) (j + count)).
Proof.
  induction count as [|count IH]; intros j array Hint Hj.
  - cbn [sort_array_inner]. rewrite Nat.add_0_r.
    split; [reflexivity|]. split; [apply Permutation_refl|].
    split; [reflexivity|]. split; [intros bound H k Hk; apply H; lia|].
    intros j0 Hj0 H k Hk. apply H. lia.
  - cbn [sort_array_inner].
    destruct (sortStep_facts array j Hint ltac:(lia)) as (Sl & Sp & Smin & Smax & Sother).
    destruct (IH (S j) (sortStep array j)) as (Il & Ip & Iother & Ibound & Imax).
    + apply (allInt_Permutation _ _ Sp Hint).
    + rewrite Sl. lia.
    + replace (S j + count)%nat with (j + S count)%nat in * by lia.
      split; [congruence|]. split; [apply (Permutation_trans Ip Sp)|].
      split; [|split].
      * intros k Hk. rewrite Iother by lia. apply Sother; lia.
      * intros bound H k Hk.
        destruct (Nat.eq_dec k j) as [->|Hne].
        -- rewrite Iother by lia. rewrite Smin.
           pose proof (H j ltac:(lia)). lia.
        -- apply Ibound; [|lia].
           intros k' Hk'. destruct (Nat.eq_dec k' (S j)) as [->|Hne'].
           ++ rewrite Smax. pose proof (H j ltac:(lia)). pose proof (H (S j) ltac:(lia)).
              lia.
           ++ rewrite Sother by lia. apply H. lia.
      * intros j0 Hj0 H k Hk.
        assert (Hpre : forall k', (j0 <= k' <= S j)%nat ->
                  arrayGet (sortStep array j) k' <= arrayGet (sortStep array j) (S j)).
        { intros k' Hk'. rewrite Smax.
          destruct (Nat.eq_dec k' (S j)) as [->|H1]; [rewrite Smax; lia|].
          destruct (Nat.eq_dec k' j) as [->|H2]; [rewrite Smin; lia|].
          rewrite Sother by lia. pose proof (H k' ltac:(lia)). lia. }
        apply (Imax j0 ltac:(lia) Hpre). lia.
Qed.

Lemma sort_array_outer_facts (n count : nat) :
  forall (i : nat) (array : list Z),
  allInt array -> (n <= length array)%nat -> (i + count = n - 1)%nat ->
  (forall k1 k2, (k1 <= k2 < n)%nat -> (n - i <= k2)%nat ->
     arrayGet array k1 <= arrayGet array k2) ->
  length (sort_array_outer count i n array) = length array
  /\ Permutation (sort_array_outer count i n array) array
  /\ (forall k, (n <= k)%nat ->
        arrayGet (sort_array_outer count i n array) k = arrayGet array k)
  /\ (forall k1 k2, (k1 <= k2 < n)%nat -> (1 <= k2)%nat ->
        arrayGet (sort_array_outer count i n array) k1
        <= arrayGet (sort_array_outer count i n array) k2).
Proof.
  induction count as [|count IH]; intros i array Hint Hn Hi Hinv.
  - cbn [sort_array_outer].
    split; [reflexivity|]. split; [apply Permutation_refl|].
    split; [reflexivity|]. intros k1 k2 Hk H1. apply Hinv; lia.
  - cbn [sort_array_outer].
    destruct (sort_array_inner_facts (n - i - 1) 0 array Hint ltac:(lia))
      as (Il & Ip & Iother & Ibound & Imax).
    cbn [Nat.add] in *.
    destruct (IH (S i) (sort_array_inner (n - i - 1) 0 array))
      as (Ol & Op & Oother & Osorted).
    + apply (allInt_Permutation _ _ Ip Hint).
    + rewrite Il. exact Hn.
    + lia.
    + intros k1 k2 Hk Hk2.
      destruct (Nat.eq_dec k2 (n - i - 1)) as [->|Hne].
      * apply (Imax 0%nat (Nat.le_refl _)); [|lia].
        intros k Hk0. assert (k = 0)%nat as -> by lia. lia.
      * rewrite (Iother k2) by lia.
        destruct (Nat.le_gt_cases k1 (n - i - 1)) as [Hle|Hgt].
        -- apply Ibound; [|lia]. intros k Hk0. apply Hinv; lia.
        -- rewrite (Iother k1) by lia. apply Hinv; lia.
    + split; [congruence|]. split; [apply (Permutation_trans Op Ip)|].
      split; [|exact Osorted].
      intros k Hk. rewrite Oother by exact Hk. apply Iother. lia.
Qed.

(** X25: [sort_array] sorts.  On an array of [int]s with at least [n]
    elements, the first [n] elements come out in ascending order, the
    array is a permutation of what it was, and the elements from index
    [n] on are not moved. *)
Theorem sort_array_sorts (array : list Z) (n : nat) :
  allInt array -> (n <= length array)%nat ->
  ascending (sort_array array n) n
  /\ Permutation (sort_array array n) array
  /\ length (sort_array array n) = length array
  /\ (forall k, (n <= k)%nat -> arrayGet (sort_array array n) k = arrayGet array k).
Proof.
  intros Hint Hn. unfold sort_array.
  destruct (sort_array_outer_facts n (n - 1) 0 array Hint Hn ltac:(lia))
    as (Ol & Op & Oother & Osorted).
  - intros k1 k2 Hk Hk2. lia.
  - split; [|split; [|split]]; try assumption.
    intros i j Hij. destruct (Nat.eq_dec j 0) as [->|Hj].
    + assert (i = 0)%nat as -> by lia. lia.
    + apply Osorted; lia.
Qed.

(** *** The ring buffer *)

Lemma mod_succ (n s : Z) :
  0 < s -> (n + 1) mod s = if n mod s + 1 =? s then 0 else n mod s + 1.
Proof.
  intro Hs. pose proof (Z.mod_pos_bound n s Hs) as Hr.
  rewrite <- Zplus_mod_idemp_l.
  destruct (Z.eqb_spec (n mod s + 1) s) as [E|E].
  - rewrite E. apply Z.mod_same. lia.
  - apply Z.mod_small. lia.
Qed.

Lemma mod_window (n k s : Z) :
  0 < s -> n - s < k < n -> k mod s <> n mod s.
Proof.
  intros Hs Hk E.
  assert (H : (n - k) mod s = 0).
  { rewrite Zminus_mod, E, Z.sub_diag. apply Z.mod_0_l. lia. }
  rewrite Z.mod_small in H by lia. lia.
Qed.

Lemma nth_app_last (l : list Z) (d : Z) (k : nat) :
  (k <= length l)%nat ->
  nth k (l ++ [d]) 0 = if (k =? length l)%nat then d else nth k l 0.
Proof.
  intro Hk. destruct (Nat.eqb_spec k (length l)) as [->|Hne].
  - rewrite app_nth2 by lia. rewrite Nat.sub_diag. reflexivity.
  - apply app_nth1. lia.
Qed.

Lemma queue_insert_data_step (d : Z) (q : DataFilter) (samples : list Z) :
  1 <= size_ q <= 16 ->
  holdsLast q samples ->
  holdsLast (queue_insert_data d q) (samples ++ [d])
  /\ size_ (queue_insert_data d q) = size_ q.
Proof.
  intros Hs (Hptr & Hlen & Hdata).
  destruct q as [data size ini en status]. cbn [size_ data_ it_ini_ it_end_ q_status_] in *.
  set (n := Z.of_nat (length samples)) in *.
  assert (Hn' : Z.of_nat (length (samples ++ [d])) = n + 1)
    by (rewrite length_app; cbn [length]; lia).
  assert (Hn0 : 0 <= n) by lia.
  unfold holdsLast. rewrite Hn'.
  unfold queue_insert_data. cbn [size_ data_ it_ini_ it_end_ q_status_].
  destruct (Z.ltb_spec n size) as [Hfree|Hfull].
  - destruct Hptr as (-> & -> & ->).
    change (FREE =? FULL) with false. cbv iota.
    cbn [size_ data_ it_ini_ it_end_ q_status_].
    unfold u8. rewrite (Z.mod_small (n + 1)) by (change (2 ^ 8) with 256; lia).
    destruct (Z.eqb_spec (n + 1) size) as [E|E];
      cbn [size_ data_ it_ini_ it_end_ q_status_].
    + change (0 =? 0) with true. cbv iota.
      cbn [size_ data_ it_ini_ it_end_ q_status_].
      destruct (Z.ltb_spec (n + 1) size) as [|_]; [lia|].
      rewrite <- E, Z.mod_same by lia.
      split; [|reflexivity].
      split; [repeat split|]. split; [rewrite arraySet_length; exact Hlen|].
      intros k Hk. rewrite Z.mod_small by lia.
      rewrite nth_app_last by lia.
      destruct (Nat.eqb_spec (Z.to_nat k) (length samples)) as [Ek|Ek].
      * replace (Z.to_nat n) with (Z.to_nat k) by lia.
        apply arrayGet_arraySet_eq. lia.
      * rewrite arrayGet_arraySet_neq by lia.
        rewrite <- (Hdata k) by lia. rewrite Z.mod_small by lia. reflexivity.
    + destruct (Z.eqb_spec (n + 1) 0) as [|_]; [lia|].
      cbn [size_ data_ it_ini_ it_end_ q_status_].
      destruct (Z.ltb_spec (n + 1) size) as [_|]; [|lia].
      split; [|reflexivity].
      split; [repeat split|]. split; [rewrite arraySet_length; exact Hlen|].
      intros k Hk. rewrite Z.mod_small by lia.
      rewrite nth_app_last by lia.
      destruct (Nat.eqb_spec (Z.to_nat k) (length samples)) as [Ek|Ek].
      * replace (Z.to_nat n) with (Z.to_nat k) by lia.
        apply arrayGet_arraySet_eq. lia.
      * rewrite arrayGet_arraySet_neq by lia.
        rewrite <- (Hdata k) by lia. rewrite Z.mod_small by lia. reflexivity.
  - destruct Hptr as (-> & -> & ->).
    pose proof (Z.mod_pos_bound n size ltac:(lia)) as Hp.
    assert (Hu8 : u8 (n mod size + 1) = n mod size + 1)
      by (apply Z.mod_small; change (2 ^ 8) with 256; lia).
    pose proof (mod_succ n size ltac:(lia)) as Hmod.
    assert (Hstore : length (arraySet data (Z.to_nat (n mod size)) d) = 16%nat
              /\ forall k, Z.max 0 (n + 1 - size) <= k < n + 1 ->
                   arrayGet (arraySet data (Z.to_nat (n mod size)) d)
                            (Z.to_nat (k mod size))
                   = nth (Z.to_nat k) (samples ++ [d]) 0).
    { split; [rewrite arraySet_length; exact Hlen|].
      intros k Hk. rewrite nth_app_last by lia.
      destruct (Nat.eqb_spec (Z.to_nat k) (length samples)) as [Ek|Ek].
      - replace k with n by lia. apply arrayGet_arraySet_eq. lia.
      - pose proof (mod_window n k size ltac:(lia) ltac:(lia)).
        pose proof (Z.mod_pos_bound k size ltac:(lia)).
        rewrite arrayGet_arraySet_neq by lia.
        apply Hdata. lia. }
    assert (Hnext : (n + 1 <? size) = false) by (apply Z.ltb_ge; lia).
    change (FULL =? FULL) with true.
    destruct (n mod size + 1 =? size) eqn:E;
      repeat first [ progress cbn [size_ data_ it_ini_ it_end_ q_status_]
                   | rewrite Hu8 | rewrite E | rewrite Z.eqb_refl
                   | rewrite Hnext | rewrite Hmod ];
      (split; [|reflexivity]); (split; [repeat split|]); exact Hstore.
Qed.

Lemma insertAll_holdsLast (later : list Z) :
  forall (q : DataFilter) (samples : list Z),
  1 <= size_ q <= 16 ->
  holdsLast q samples ->
  holdsLast (insertAll later q) (samples ++ later)
  /\ size_ (insertAll later q) = size_ q.
Proof.
  induction later as [|d later IH]; intros q samples Hs Hq.
  - rewrite app_nil_r. split; [exact Hq | reflexivity].
  - change (insertAll (d :: later) q) with (insertAll later (queue_insert_data d q)).
    destruct (queue_insert_data_step d q samples Hs Hq) as [Hq' Hs'].
    destruct (IH (queue_insert_data d q) (samples ++ [d])) as [Hq'' Hs''].
    + rewrite Hs'. exact Hs.
    + exact Hq'.
    + rewrite <- app_assoc in Hq''. split; [exact Hq'' | congruence].
Qed.

(** X26: the ring buffer.  A filter made for [size] samples, between 1
    and 16, that has been handed any number of samples is full exactly
    when at least [size] samples have come; until then it holds all of
    them in order from index 0, afterwards the latest [size] of them,
    sample number [k] at index [k mod size], with both iterators on the
    slot of the oldest one.  The size is never changed. *)
Theorem queue_holds_last_samples (uninitialised samples : list Z) (size : Z) :
  1 <= size <= 16 ->
  length uninitialised = 16%nat ->
  holdsLast (insertAll samples (newDataFilter uninitialised size)) samples
  /\ size_ (insertAll samples (newDataFilter uninitialised size)) = size.
Proof.
  intros Hs Hlen.
  apply (insertAll_holdsLast samples (newDataFilter uninitialised size) []).
  - exact Hs.
  - unfold holdsLast, newDataFilter. cbn [size_ data_ it_ini_ it_end_ q_status_ length].
    destruct (Z.ltb_spec (Z.of_nat 0) size) as [_|]; [|lia].
    repeat split; try assumption. intros k Hk. lia.
Qed.

(** *** The trimmed mean *)

Lemma bounds_Permutation (lo hi : Z) (a b : list Z) :
  Permutation a b ->
  (forall i, (i < length b)%nat -> lo <= arrayGet b i <= hi) ->
  forall i, (i < length a)%nat -> lo <= arrayGet a i <= hi.
Proof.
  intros Hp Hb i Hi. unfold arrayGet.
  assert (Hin : In (nth i a 0) b).
  { apply (Permutation_in _ Hp). apply nth_In. exact Hi. }
  destruct (In_nth _ _ 0 Hin) as (k & Hk & <-). apply Hb. exact Hk.
Qed.

Lemma accumulate_from (array : list Z) (count : nat) :
  forall (lo : nat) (acc : Z),
  (forall k, (lo <= k < lo + count)%nat -> 0 <= arrayGet array k < 2 ^ 15) ->
  0 <= acc -> acc + Z.of_nat count * 2 ^ 15 < 2 ^ 32 ->
  fold_left (fun mean i => u32 (mean + arrayGet array i)) (seq lo count) acc
  = acc + Zsum (map (arrayGet array) (seq lo count)).
Proof.
  induction count as [|count IH]; intros lo acc Hr Hacc Hfit.
  - cbn. lia.
  - cbn [seq fold_left map Zsum fold_right].
    pose proof (Hr lo ltac:(lia)) as H0.
    rewrite u32_id by lia.
    rewrite IH.
    + fold (Zsum (map (arrayGet array) (seq (S lo) count))). lia.
    + intros k Hk. apply Hr. lia.
    + lia.
    + lia.
Qed.

Lemma accumulate_sum (array : list Z) (lo hi : nat) :
  (forall k, (lo <= k < hi)%nat -> 0 <= arrayGet array k < 2 ^ 15) ->
  (hi - lo <= 256)%nat ->
  accumulate array lo hi = Zsum (map (arrayGet array) (seq lo (hi - lo))).
Proof.
  intros Hr Hc. unfold accumulate. rewrite accumulate_from.
  - lia.
  - intros k Hk. apply Hr. lia.
  - lia.
  - change (2 ^ 15) with 32768. change (2 ^ 32) with 4294967296. lia.
Qed.

Lemma Zsum_bounds (f : nat -> Z) (lo hi : Z) (count : nat) :
  forall start,
  (forall k, (start <= k < start + count)%nat -> lo <= f k <= hi) ->
  Z.of_nat count * lo <= Zsum (map f (seq start count)) <= Z.of_nat count * hi.
Proof.
  induction count as [|count IH]; intros start H.
  - cbn. lia.
  - cbn [seq map Zsum fold_right]. fold (Zsum (map f (seq (S start) count))).
    pose proof (H start ltac:(lia)). pose proof (IH (S start) ltac:(intros; apply H; lia)).
    lia.
Qed.

Lemma mean_bounds (f : nat -> Z) (lo hi : Z) (start count : nat) :
  (1 <= count)%nat ->
  (forall k, (start <= k < start + count)%nat -> lo <= f k <= hi) ->
  lo <= Zsum (map f (seq start count)) / Z.of_nat count <= hi.
Proof.
  intros Hc H. pose proof (Zsum_bounds f lo hi count start H).
  split.
  - apply Z.div_le_lower_bound; lia.
  - apply Z.div_le_upper_bound; lia.
Qed.

(** X27: the trimmed mean of a full queue.  For a full queue of at most
    16 samples, all of them between [lo >= 0] and [hi < 2^15], and a
    [discard] that leaves at least one sample, [queue_median] returns
    the mean (rounded down) of the sorted samples without the [discard]
    smallest and the [discard] largest.  The result lies between the
    smallest and the largest sample that is kept, and so between [lo]
    and [hi]; where the oldest sample sits in the buffer plays no part
    in it. *)
Theorem queue_median_full (discard lo hi : Z) (q : DataFilter) :
  q_status_ q = FULL ->
  1 <= size_ q <= 16 ->
  length (data_ q) = 16%nat ->
  0 <= discard -> 2 * discard < size_ q ->
  0 <= lo -> hi < 2 ^ 15 ->
  (forall i, (i < Z.to_nat (size_ q))%nat -> lo <= arrayGet (data_ q) i <= hi) ->
  queue_median discard q
  = Some (trimmedMean (sortedSamples q) (Z.to_nat discard) (Z.to_nat (size_ q)))
  /\ arrayGet (sortedSamples q) (Z.to_nat discard)
     <= trimmedMean (sortedSamples q) (Z.to_nat discard) (Z.to_nat (size_ q))
     <= arrayGet (sortedSamples q) (Z.to_nat (size_ q - discard - 1))
  /\ lo <= trimmedMean (sortedSamples q) (Z.to_nat discard) (Z.to_nat (size_ q)) <= hi.
Proof.
  intros Hfull Hs Hlen Hd Hd2 Hlo Hhi Hdata.
  set (n := Z.to_nat (size_ q)).
  set (copy := firstn n (data_ q)).
  assert (Hcl : length copy = n) by (subst copy; rewrite length_firstn; lia).
  assert (Hcopy : forall i, (i < length copy)%nat -> lo <= arrayGet copy i <= hi).
  { intros i Hi. subst copy. unfold arrayGet. rewrite nth_firstn.
    destruct (Nat.ltb_spec i n); [apply Hdata; lia | lia]. }
  assert (Hint : allInt copy).
  { intros i Hi. pose proof (Hcopy i Hi). lia. }
  destruct (sort_array_outer_facts n (n - 1) 0 copy Hint ltac:(lia) ltac:(lia))
    as (Ol & Op & _ & Osorted).
  { intros k1 k2 Hk Hk2. lia. }
  fold (sort_array copy n) in Ol, Op, Osorted.
  assert (Hsorted : sortedSamples q = sort_array copy n) by reflexivity.
  assert (Hb : forall i, (i < n)%nat -> lo <= arrayGet (sortedSamples q) i <= hi).
  { intros i Hi. rewrite Hsorted.
    apply (bounds_Permutation lo hi _ _ Op Hcopy). rewrite Ol. lia. }
  assert (Hasc : forall i j, (i <= j < n)%nat ->
            arrayGet (sortedSamples q) i <= arrayGet (sortedSamples q) j).
  { intros i j Hij. rewrite Hsorted. destruct (Nat.eq_dec j 0) as [->|Hj].
    - assert (i = 0)%nat as -> by lia. lia.
    - apply Osorted; lia. }
  set (d := Z.to_nat discard).
  assert (Hcount : (1 <= n - 2 * d)%nat) by lia.
  assert (Hkept : arrayGet (sortedSamples q) d
                  <= trimmedMean (sortedSamples q) d n
                  <= arrayGet (sortedSamples q) (Z.to_nat (size_ q - discard - 1))).
  { unfold trimmedMean. apply mean_bounds; [exact Hcount|].
    intros k Hk. split; apply Hasc; lia. }
  assert (Hin : lo <= trimmedMean (sortedSamples q) d n <= hi).
  { unfold trimmedMean. apply mean_bounds; [exact Hcount|].
    intros k Hk. apply Hb. lia. }
  split; [|split; assumption].
  unfold queue_median. rewrite Hfull. change (FULL =? FULL) with true. cbv iota zeta.
  fold n. fold copy. rewrite <- Hsorted.
  assert (Hdiv : u32 (size_ q - discard * 2) = Z.of_nat (n - 2 * d)).
  { rewrite u32_id by (change (2 ^ 32) with 4294967296; lia). lia. }
  rewrite Hdiv.
  destruct (Z.eqb_spec (Z.of_nat (n - 2 * d)) 0) as [E|_]; [lia|].
  rewrite accumulate_sum.
  - replace (Z.to_nat (size_ q - discard) - Z.to_nat discard)%nat
      with (n - 2 * d)%nat by lia.
    fold d. fold (trimmedMean (sortedSamples q) d n).
    rewrite s16_u16, s16_id by lia. reflexivity.
  - intros k Hk. pose proof (Hb k ltac:(lia)). lia.
  - lia.
Qed.

(** X28: until the queue is full.  After fewer samples than the filter
    has room for, all of them between 0 and 2^15 - 1, [queue_median] is
    the mean (rounded down) of all samples so far, whatever [discard]
    is; on a filter that has not been handed a sample yet it divides by
    zero. *)
Theorem queue_median_not_full (uninitialised samples : list Z) (size discard : Z) :
  1 <= size <= 16 ->
  length uninitialised = 16%nat ->
  Z.of_nat (length samples) < size ->
  (forall x, In x samples -> 0 <= x < 2 ^ 15) ->
  queue_median discard (insertAll samples (newDataFilter uninitialised size))
  = match samples with
    | [] => None
    | _ => Some (Zsum samples / Z.of_nat (length samples))
    end.
Proof.
  intros Hs Hlen Hn Hr.
  destruct (insertAll_holdsLast samples (newDataFilter uninitialised size) [])
    as [(Hptr & Hl & Hdata) Hsize].
  - exact Hs.
  - unfold holdsLast, newDataFilter. cbn [size_ data_ it_ini_ it_end_ q_status_ length].
    destruct (Z.ltb_spec (Z.of_nat 0) size) as [_|]; [|lia].
    repeat split; try assumption. intros k Hk. lia.
  - cbn [app] in *. change (size_ (newDataFilter uninitialised size)) with size in Hsize.
    set (q := insertAll samples (newDataFilter uninitialised size)) in *.
    rewrite Hsize in Hptr, Hdata.
    destruct (Z.ltb_spec (Z.of_nat (length samples)) size) as [_|]; [|lia].
    destruct Hptr as (Hst & Hini & Hend).
    unfold queue_median. rewrite Hst, Hini, Hend.
    change (FREE =? FULL) with false. cbv iota zeta.
    rewrite Z.max_r by lia. change (Z.to_nat 0) with 0%nat.
    rewrite Nat2Z.id.
    assert (Hmap : map (arrayGet (data_ q)) (seq 0 (length samples)) = samples).
    { apply (nth_ext _ _ 0 0).
      - rewrite length_map, length_seq. reflexivity.
      - intros k Hk. rewrite length_map, length_seq in Hk.
        rewrite (nth_indep _ 0 (arrayGet (data_ q) 0))
          by (rewrite length_map, length_seq; exact Hk).
        rewrite (map_nth (arrayGet (data_ q)) (seq 0 (length samples)) 0%nat k).
        rewrite seq_nth by exact Hk. cbn [Nat.add].
        rewrite <- (Nat2Z.id k) at 1.
        rewrite <- (Z.mod_small (Z.of_nat k) size) by lia.
        rewrite Hdata by lia. rewrite Nat2Z.id. reflexivity. }
    destruct samples as [|x rest] eqn:Es; [reflexivity|].
    rewrite <- Es in *.
    assert (Hpos : 1 <= Z.of_nat (length samples)) by (rewrite Es; cbn [length]; lia).
    destruct (Z.eqb_spec (Z.of_nat (length samples)) 0) as [|_]; [lia|].
    assert (Hget : forall k, (k < length samples)%nat -> 0 <= arrayGet (data_ q) k < 2 ^ 15).
    { intros k Hk.
      rewrite <- (Nat2Z.id k). rewrite <- (Z.mod_small (Z.of_nat k) size) by lia.
      rewrite Hdata by lia. apply Hr. apply nth_In. lia. }
    rewrite accumulate_sum; [|intros k Hk; apply Hget; lia | lia].
    rewrite Nat.sub_0_r, Hmap.
    assert (Hm : 0 <= Zsum samples / Z.of_nat (length samples) <= 2 ^ 15 - 1).
    { pose proof (mean_bounds (arrayGet (data_ q)) 0 (2 ^ 15 - 1) 0 (length samples)
                    ltac:(lia)) as Hb.
      rewrite Hmap in Hb. apply Hb.
      intros k Hk. pose proof (Hget k ltac:(lia)). lia. }
    rewrite s16_u16, s16_id by lia. reflexivity.
Qed.

(** ** The decoders on concrete inputs *)

(** Closed comparisons of integers are settled by evaluation. *)
Ltac by_evaluation :=
  vm_compute; repeat split; first [ reflexivity | discriminate ].

Lemma nudge_clamp_range (hi v : Z) : 1 <= hi -> 1 <= nudge_clamp 1 hi v hi <= hi.
Proof.
  intro H. unfold nudge_clamp.
  destruct (v <? 1) eqn:E1; [lia|].
  destruct (v >? hi) eqn:E2; [lia|].
  apply Z.ltb_ge in E1. rewrite Z.gtb_ltb in E2. apply Z.ltb_ge in E2. lia.
Qed.

Lemma nudge_clamp_id (lo hi v amt : Z) : lo <= v <= hi -> nudge_clamp lo hi v amt = v.
Proof.
  intro H. unfold nudge_clamp.
  destruct (v <? lo) eqn:E1; [apply Z.ltb_lt in E1; lia|].
  destruct (v >? hi) eqn:E2; [rewrite Z.gtb_ltb in E2; apply Z.ltb_lt in E2; lia|].
  reflexivity.
Qed.

(** C1, counterexample to the claim as stated: the running dual wheel
    gets a secondary edge 100 us after the last one, inside its filter
    duration of 1000 us; the edge is discarded and the filter duration
    becomes 10000 us. *)
Lemma filtered_secondary_edge_changes_filter :
  u32 (5100 - dualWheelRunning#toothLastSecToothTime)
  < dualWheelRunning#triggerSecFilterTime
  /\ dualWheelRunning#triggerSecFilterTime = 1000
  /\ (triggerSec_DualWheel dualWheel60 5100 5104 5108 dualWheelRunning)#triggerSecFilterTime
     = 10000
  /\ (triggerSec_DualWheel dualWheel60 5100 5104 5108 dualWheelRunning)#triggerSecFilterTime
     <> dualWheelRunning#triggerSecFilterTime.
Proof.
  split; [by_evaluation|].
  split; [by_evaluation|].
  split; [by_evaluation|].
  by_evaluation.
Qed.

Lemma filtered_edge_is_discarded_witness :
  u32 (5100 - dualWheelRunning#toothLastToothTime) < dualWheelRunning#triggerFilterTime
  /\ (triggerPri_DualWheel exampleIgnChannels exampleBitEngineCrank dualWheel60
                           5100 dualWheelRunning)#toothCurrentCount
     = dualWheelRunning#toothCurrentCount
  /\ u32 (5100 - dualWheelRunning#toothLastSecToothTime)
     < dualWheelRunning#triggerSecFilterTime
  /\ (triggerSec_DualWheel dualWheel60 5100 5104 5108 dualWheelRunning)#toothCurrentCount
     = dualWheelRunning#toothCurrentCount
  /\ dualWheelRunning#toothLastSecToothTime <> 0
  /\ timingAdjust (triggerSec_missingTooth missingTooth36_1
                     (getCrankAngle_missingTooth 720 missingTooth36_1)
                     5100 5104 dualWheelRunning)
     = timingAdjust dualWheelRunning.
Proof.
  assert (Hp : u32 (5100 - dualWheelRunning#toothLastToothTime)
               < dualWheelRunning#triggerFilterTime) by by_evaluation.
  assert (Hs : u32 (5100 - dualWheelRunning#toothLastSecToothTime)
               < dualWheelRunning#triggerSecFilterTime) by by_evaluation.
  assert (Hl : dualWheelRunning#toothLastSecToothTime <> 0) by by_evaluation.
  destruct (filtered_edge_is_discarded 720 exampleIgnChannels exampleBitEngineCrank
              dualWheel60 5100 5104 5108 dualWheelRunning) as (P & S & _).
  destruct (filtered_edge_is_discarded 720 exampleIgnChannels exampleBitEngineCrank
              missingTooth36_1 5100 5104 5108 dualWheelRunning) as (_ & _ & M & _).
  split; [exact Hp|]. split.
  { destruct (P Hp) as (_ & _ & H & _). exact H. }
  split; [exact Hs|]. split.
  { destruct (S Hs) as (_ & _ & _ & H & _). exact H. }
  split; [exact Hl|]. exact (proj2 (M Hl Hs)).
Defined.

(** C2, counterexample to the claim as stated: 41000 us after the last
    tooth, with the speed of 6000 RPM stored, the extrapolation adds
    1476 degrees; one subtraction of 720 leaves 756, outside either
    span. *)
Lemma getCrankAngle_beyond_span :
  fst (getCrankAngle_missingTooth 720 missingTooth36_1 41000 missingToothStale) = 756
  /\ ~ (0 <= fst (getCrankAngle_missingTooth 720 missingTooth36_1 41000 missingToothStale)
        < 720)
  /\ fst (getCrankAngle_DualWheel 720 dualWheel60 41000 dualWheelStale) = 756
  /\ ~ (0 <= fst (getCrankAngle_DualWheel 720 dualWheel60 41000 dualWheelStale) < 720).
Proof.
  assert (E1 : fst (getCrankAngle_missingTooth 720 missingTooth36_1 41000 missingToothStale)
               = 756) by (by_evaluation).
  assert (E2 : fst (getCrankAngle_DualWheel 720 dualWheel60 41000 dualWheelStale) = 756)
    by (by_evaluation).
  rewrite E1, E2. repeat split; lia.
Qed.

Lemma getCrankAngle_in_range_iff_witness :
  0 < 720 <= 720
  /\ 0 <= fst (getCrankAngle_missingTooth 720 dualWheel60 5100 dualWheelRunning) < 720
  /\ 0 <= fst (getCrankAngle_DualWheel 720 dualWheel60 5100 dualWheelRunning) < 720.
Proof.
  assert (H : 0 < 720 <= 720) by lia.
  destruct (getCrankAngle_in_range_iff 720 dualWheel60 5100 dualWheelRunning H) as [M D].
  split; [exact H|]. split.
  - apply M. by_evaluation.
  - apply D. by_evaluation.
Defined.

Lemma SetRevolutionTime_sole_writer_witness :
  SetRevolutionTime div360_closest udiv_round_closest 20000 dualWheelRunning
  = (false, dualWheelRunning)
  /\ fst (SetRevolutionTime div360_closest udiv_round_closest 10000 dualWheelRunning) = true
  /\ (snd (SetRevolutionTime div360_closest udiv_round_closest 10000 dualWheelRunning))
       #degreesPerMicro = degreesPerMicroOf udiv_round_closest 10000.
Proof.
  destruct (SetRevolutionTime_sole_writer 720 exampleIgnChannels exampleBitEngineCrank
              div360_closest udiv_round_closest dualWheel60 20000 dualWheelRunning)
    as [Same _].
  destruct (SetRevolutionTime_sole_writer 720 exampleIgnChannels exampleBitEngineCrank
              div360_closest udiv_round_closest dualWheel60 10000 dualWheelRunning)
    as (_ & Changed & _).
  split; [apply Same; by_evaluation|].
  assert (Hne : 10000 <> dualWheelRunning#revolutionTime) by (by_evaluation).
  destruct (Changed Hne) as (H1 & _ & _ & H4 & _).
  split; [exact H1 | exact H4].
Defined.

(** C4, counterexample to the claim as stated: the first secondary edge
    of the 36-1 wheel, 5000 us after start with the filter at its
    start-up duration, does not pass the filter and the cam tooth is
    not counted. *)
Lemma missingTooth_first_cam_edge_rejected :
  missingToothFresh#toothLastSecToothTime = 0
  /\ secEdgePassesFilter 5000 missingToothFresh = false
  /\ (triggerSec_missingTooth missingTooth36_1
        (getCrankAngle_missingTooth 720 missingTooth36_1)
        5000 5004 missingToothFresh)#secondaryToothCount
     = missingToothFresh#secondaryToothCount
  /\ (triggerSec_missingTooth missingTooth36_1
        (getCrankAngle_missingTooth 720 missingTooth36_1)
        5000 5004 missingToothFresh)#triggerSecFilterTime = 3333.
Proof. by_evaluation. Qed.

Lemma missingTooth_first_cam_edge_witness :
  missingToothFresh#toothLastSecToothTime = 0
  /\ (triggerSec_missingTooth missingTooth36_1
        (getCrankAngle_missingTooth 720 missingTooth36_1)
        5000 5004 missingToothFresh)#toothLastSecToothTime = 5000
  /\ missingToothFresh#toothLastThirdToothTime = 0
  /\ thirdEdgePassesFilter 5000 missingToothFresh
     = (missingToothFresh#triggerThirdFilterTime <=? 0).
Proof.
  assert (H2 : missingToothFresh#toothLastSecToothTime = 0) by reflexivity.
  assert (H3 : missingToothFresh#toothLastThirdToothTime = 0) by reflexivity.
  destruct (missingTooth_first_cam_edge 720 missingTooth36_1 5000 5004 missingToothFresh)
    as [S T].
  split; [exact H2|]. split.
  - destruct (S H2) as (_ & H & _). exact H.
  - split; [exact H3|]. destruct (T H3) as (H & _). exact H.
Defined.

Lemma DualWheel_secondary_forces_sync_witness :
  (triggerSec_DualWheel dualWheel60 100000 100004 100008 dualWheelUnsynced)#toothCurrentCount
  = 60
  /\ (triggerSec_DualWheel dualWheel60 100000 100004 100008 dualWheelUnsynced)
       #(currentStatus hasSync) = 1.
Proof.
  apply (DualWheel_secondary_forces_sync dualWheel60 100000 100004 100008 dualWheelUnsynced).
  - by_evaluation.
  - by_evaluation.
  - left. reflexivity.
Defined.

Lemma rpm_at_or_above_maximum_is_discarded_witness :
  fst (stdGetRPM exampleMaxRpm (hasAnySync exampleBitHalfSync) div360_closest
                 udiv_round_closest udiv_round_closest false dualWheelFaster) = 6000
  /\ fst (stdGetRPM exampleMaxRpm (hasAnySync exampleBitHalfSync) div360_closest
                    udiv_round_closest udiv_round_closest false dualWheelCorrupt)
     = dualWheelCorrupt#(currentStatus RPM)
  /\ rpmQuotient udiv_round_closest udiv_round_closest 3000 = 20000
  /\ fst (crankingGetRPM exampleMaxRpm exampleBitHalfSync div360_closest
                         udiv_round_closest udiv_round_closest dualWheel60
                         60 false dualWheelTwoTeeth) = 1000
  /\ fst (crankingGetRPM exampleMaxRpm exampleBitHalfSync div360_closest
                         udiv_round_closest udiv_round_closest dualWheel60
                         60 false dualWheelNoisyTeeth)
     = dualWheelNoisyTeeth#(currentStatus RPM).
Proof.
  destruct (rpm_at_or_above_maximum_is_discarded
              exampleMaxRpm exampleBitHalfSync (hasAnySync exampleBitHalfSync)
              div360_closest udiv_round_closest udiv_round_closest
              dualWheel60 dualWheelFaster 0 60 false) as (_ & _ & Hfast & _).
  destruct (rpm_at_or_above_maximum_is_discarded
              exampleMaxRpm exampleBitHalfSync (hasAnySync exampleBitHalfSync)
              div360_closest udiv_round_closest udiv_round_closest
              dualWheel60 dualWheelCorrupt 0 60 false) as (_ & _ & Hcorrupt & _).
  destruct (rpm_at_or_above_maximum_is_discarded
              exampleMaxRpm exampleBitHalfSync (hasAnySync exampleBitHalfSync)
              div360_closest udiv_round_closest udiv_round_closest
              dualWheel60 dualWheelTwoTeeth 0 60 false) as (_ & _ & _ & Hslow & _).
  destruct (rpm_at_or_above_maximum_is_discarded
              exampleMaxRpm exampleBitHalfSync (hasAnySync exampleBitHalfSync)
              div360_closest udiv_round_closest udiv_round_closest
              dualWheel60 dualWheelNoisyTeeth 0 60 false) as (_ & _ & _ & Hnoisy & _).
  split; [rewrite Hfast; by_evaluation|].
  split; [rewrite Hcorrupt; by_evaluation|].
  split; [by_evaluation|].
  split.
  - destruct Hslow as (_ & H & _);
      [by_evaluation | left; reflexivity | by_evaluation | by_evaluation |].
    rewrite H; by_evaluation.
  - destruct Hnoisy as (_ & _ & H);
      [by_evaluation | left; reflexivity | by_evaluation | by_evaluation |].
    rewrite H; by_evaluation.
Defined.

(** C8, counterexample to the claim as stated: with 60 teeth, 6 degrees
    per tooth and an end angle of 60 degrees the quotient is 10; the
    dual-wheel end tooth is 10, not the 9 a margin of one tooth would
    give. *)
Lemma calcEndTeeth_DualWheel_no_margin :
  12 < triggerTeeth (configPage4 dualWheel60)
  /\ endToothQuotient dualWheel60 dualWheelRunning 60 = 10
  /\ calcEndTeeth_DualWheel nudge_clamp dualWheel60 dualWheelRunning 60 0 = 10
  /\ clampToToothCount nudge_clamp dualWheel60
       (s16 (endToothQuotient dualWheel60 dualWheelRunning 60 - 1)) 0 = 9
  /\ calcEndTeeth_DualWheel nudge_clamp dualWheel60 dualWheelRunning 60 0
     <> clampToToothCount nudge_clamp dualWheel60
          (s16 (endToothQuotient dualWheel60 dualWheelRunning 60 - 1)) 0.
Proof.
  split; [by_evaluation|].
  split; [by_evaluation|].
  split; [by_evaluation|].
  split; [by_evaluation|].
  by_evaluation.
Qed.

Lemma endTooth_margin_witness :
  calcEndTeeth_missingTooth nudge_clamp missingTooth36_1 missingToothFresh 100 0
  = endToothQuotient missingTooth36_1 missingToothFresh 100 - 1
  /\ calcEndTeeth_DualWheel nudge_clamp missingTooth36_1 missingToothFresh 100 0
     = endToothQuotient missingTooth36_1 missingToothFresh 100.
Proof.
  destruct (endTooth_margin nudge_clamp missingTooth36_1 missingToothFresh 100 0)
    as (_ & _ & M & D).
  - exact nudge_clamp_id.
  - lia.
  - by_evaluation.
  - by_evaluation.
  - by_evaluation.
  - split.
    + apply M. by_evaluation.
    + apply D. by_evaluation.
Defined.

(** C9, counterexample to the claim as stated: one second at 3542/32768
    degrees per microsecond is 108093 degrees to the nearest integer;
    the 16-bit result is 42557. *)
Lemma timeToAngle_not_nearest :
  timeToAngleDegPerMicroSec (set degreesPerMicro 3542 zeroState) 1000000 = 42557
  /\ ~ nearestTo (timeToAngleDegPerMicroSec (set degreesPerMicro 3542 zeroState) 1000000)
               (1000000 * (set degreesPerMicro 3542 zeroState)#degreesPerMicro)
               (2 ^ 15).
Proof.
  split; [by_evaluation|].
  unfold nearestTo. vm_compute. intro H. apply H. reflexivity.
Qed.

Lemma conversions_round_to_nearest_witness :
  nearestTo (timeToAngleDegPerMicroSec dualWheelRunning 100)
            (100 * dualWheelRunning#degreesPerMicro) (2 ^ 15)
  /\ nearestTo (angleToTimeMicroSecPerDegree dualWheelRunning 90)
               (90 * dualWheelRunning#microsPerDegree) (2 ^ 8).
Proof.
  destruct (conversions_round_to_nearest dualWheelRunning 100 90) as [T A].
  split.
  - apply T; by_evaluation.
  - apply A; by_evaluation.
Defined.

Lemma getCrankAngle_DualWheel_zero_count_witness :
  dualWheelZeroCount#toothCurrentCount = 0
  /\ fst (getCrankAngle_DualWheel 720 dualWheel60 5100 dualWheelZeroCount) = 356
  /\ fst (getCrankAngle_DualWheel 720 dualWheel60 5100 dualWheelZeroCount)
     = fst (getCrankAngle_DualWheel 720 dualWheel60 5100
              (set toothCurrentCount (u16 (triggerTeeth (configPage4 dualWheel60)))
                   dualWheelZeroCount)).
Proof.
  assert (H : dualWheelZeroCount#toothCurrentCount = 0) by reflexivity.
  destruct (getCrankAngle_DualWheel_zero_count 720 dualWheel60 5100
                                               dualWheelZeroCount H) as (_ & W & E).
  split; [exact H|]. split; [|exact E].
  rewrite W; by_evaluation.
Defined.

(** *** Further properties on concrete inputs *)

Lemma setFilter_at_most_gap_witness :
  0 <= 4000 < 2 ^ 32
  /\ 0 <= (setFilter dualWheel60 4000 dualWheelRunning)#triggerFilterTime <= 4000.
Proof.
  assert (H : 0 <= 4000 < 2 ^ 32) by by_evaluation.
  split; [exact H|].
  exact (proj1 (setFilter_at_most_gap dualWheel60 4000 dualWheelRunning H)).
Defined.


Lemma edge_handlers_keep_sync_witness :
  dualWheelRunning#(currentStatus hasSync) = 1
  /\ (triggerPri_DualWheel exampleIgnChannels exampleBitEngineCrank dualWheel60
                           7000 dualWheelRunning)#(currentStatus hasSync) = 1.
Proof.
  assert (H : dualWheelRunning#(currentStatus hasSync) = 1) by reflexivity.
  split; [exact H|].
  exact (proj1 (edge_handlers_keep_sync 720 exampleIgnChannels exampleBitEngineCrank
                  dualWheel60 7000 7004 7008 dualWheelRunning H)).
Defined.


Lemma stdGetRPM_from_tooth_one_pair_witness :
  (snd (stdGetRPM exampleMaxRpm (hasAnySync exampleBitHalfSync) div360_closest
                  udiv_round_closest udiv_round_closest false dualWheelFaster))
    #revolutionTime = 10000.
Proof.
  destruct (stdGetRPM_from_tooth_one_pair
              exampleMaxRpm (hasAnySync exampleBitHalfSync) div360_closest
              udiv_round_closest udiv_round_closest false dualWheelFaster) as [W _].
  destruct W as [-> _]; by_evaluation.
Defined.


Lemma getRPM_writes_revolution_time_only_witness :
  dualWheelUnsynced#(currentStatus hasSync) <> 1
  /\ getRPM_DualWheel exampleMaxRpm exampleBitHalfSync (hasAnySync exampleBitHalfSync)
                      div360_closest udiv_round_closest udiv_round_closest dualWheel60
                      dualWheelUnsynced
     = (0, dualWheelUnsynced).
Proof.
  assert (H : dualWheelUnsynced#(currentStatus hasSync) <> 1) by by_evaluation.
  split; [exact H|].
  destruct (getRPM_writes_revolution_time_only
              exampleMaxRpm exampleBitHalfSync (hasAnySync exampleBitHalfSync)
              div360_closest udiv_round_closest udiv_round_closest dualWheel60
              dualWheelUnsynced) as (_ & _ & _ & _ & W & _).
  exact (W H).
Defined.

Lemma conversions_monotone_witness :
  timeToAngleDegPerMicroSec dualWheelRunning 100
  <= timeToAngleDegPerMicroSec dualWheelRunning 200.
Proof.
  destruct (conversions_monotone dualWheelRunning 100 200 0 0) as (_ & _ & W & _).
  apply W; by_evaluation.
Defined.

Lemma crank_angle_between_teeth_witness :
  fst (getCrankAngle_missingTooth 720 dualWheel60 5100 dualWheelRunning) = 8.
Proof.
  destruct (crank_angle_between_teeth 720 dualWheel60 5100 dualWheelRunning)
    as [-> _]; by_evaluation.
Defined.

Lemma missingTooth_accepted_cam_edge_witness :
  (triggerSec_missingTooth missingTooth36_1
     (getCrankAngle_missingTooth 720 missingTooth36_1) 7000 7004 dualWheelRunning)
    #toothLastSecToothTime = 7000.
Proof.
  destruct (missingTooth_accepted_cam_edge 720 missingTooth36_1 7000 7004
              dualWheelRunning) as [W _].
  destruct W as [W _]; [by_evaluation | by_evaluation | exact W].
Defined.

Lemma cam_4_1_sync_rule_witness :
  (triggerSec_missingTooth missingTooth36_1_cam4_1
     (getCrankAngle_missingTooth 720 missingTooth36_1_cam4_1) 7000 7004
     missingToothSecondRevolution)#toothLastMinusOneSecToothTime = 5000
  /\ 1 <= (triggerSec_missingTooth missingTooth36_1_cam4_1
             (getCrankAngle_missingTooth 720 missingTooth36_1_cam4_1) 7000 7004
             missingToothSecondRevolution)#secondaryToothCount <= 4.
Proof.
  destruct (cam_4_1_sync_rule 720 missingTooth36_1_cam4_1 7000 7004
              missingToothSecondRevolution) as (W1 & W2 & _).
  - reflexivity.
  - by_evaluation.
  - by_evaluation.
  - by_evaluation.
  - split; [rewrite W1; reflexivity | exact W2].
Defined.

Lemma ANGLE_FILTER_between_witness :
  Z.min 100 50 <= ANGLE_FILTER 100 128 50 <= Z.max 100 50.
Proof.
  apply (ANGLE_FILTER_between 100 128 50); by_evaluation.
Defined.

Lemma wrapTo360_result_witness :
  1 <= wrapTo360 100 800 <= 360.
Proof.
  destruct (wrapTo360_result 800) as [_ W]; [by_evaluation|].
  destruct W as [W _]; [by_evaluation | exact W].
Defined.

Lemma triggerRecordVVT1Angle_smooths_witness :
  sameOutside vvt1Writes
    (triggerRecordVVT1Angle missingTooth36_1_cam4_1
       (getCrankAngle_missingTooth 720 missingTooth36_1_cam4_1) 5100
       missingToothSecondRevolution)
    missingToothSecondRevolution.
Proof.
  destruct (triggerRecordVVT1Angle_smooths 720 missingTooth36_1_cam4_1 5100
              missingToothSecondRevolution) as [_ W].
  destruct W as [W _]; [by_evaluation | reflexivity | by_evaluation | by_evaluation
                        | by_evaluation | by_evaluation | exact W].
Defined.

Lemma triggerSetEndTeeth_sets_every_channel_witness :
  1 <= (triggerSetEndTeeth_missingTooth exampleIgnChannels nudge_clamp missingTooth36_1
          missingToothFresh)#(ignitionEndTooth 1)
  <= 2 * 36.
Proof.
  destruct (triggerSetEndTeeth_sets_every_channel exampleIgnChannels nudge_clamp
              missingTooth36_1 missingToothFresh) as (_ & _ & W).
  refine (proj2 (W nudge_clamp_range _ _ _ 1%nat _)).
  - by_evaluation.
  - by_evaluation.
  - reflexivity.
  - left. reflexivity.
Defined.

Lemma checkPerToothTiming_adjusts_first_match_witness :
  timingAdjust (checkPerToothTiming exampleIgnChannels 100 0 dualWheelRunning)
  <> timingAdjust dualWheelRunning.
Proof.
  destruct (checkPerToothTiming_adjusts_first_match exampleIgnChannels 100 0
              dualWheelRunning) as (_ & _ & _ & W).
  apply W.
  - reflexivity.
  - by_evaluation.
  - exists 1%nat. split; [left; reflexivity | reflexivity].
Defined.

Lemma addToothLogEntry_appends_witness :
  logIndexInRange exampleToothLogSize exampleToothLog
  /\ logIndexInRange exampleToothLogSize
       (addToothLogEntry exampleBitToothLogReady exampleToothLogSize 0 1 2 3 4 5 u32
                         examplePins 1000 1234 TOOTH_CRANK dualWheelRunning
                         exampleToothLog).
Proof.
  assert (H : logIndexInRange exampleToothLogSize exampleToothLog) by by_evaluation.
  split; [exact H|].
  exact (proj1 (addToothLogEntry_appends exampleBitToothLogReady exampleToothLogSize
                  0 1 2 3 4 5 u32 examplePins 1000 1234 TOOTH_CRANK dualWheelRunning
                  exampleToothLog H)).
Defined.

Lemma tooth_log_fills_witness :
  BIT_CHECK (status1 (logCrankTeeth exampleBitToothLogReady exampleToothLogSize
                        0 1 2 3 4 5 u32 exampleCrankTeeth exampleToothLog))
            exampleBitToothLogReady = true
  /\ toothHistoryIndex (logCrankTeeth exampleBitToothLogReady exampleToothLogSize
                          0 1 2 3 4 5 u32 exampleCrankTeeth exampleToothLog) = 3.
Proof.
  destruct (tooth_log_fills exampleBitToothLogReady exampleToothLogSize
              0 1 2 3 4 5 u32 exampleCrankTeeth exampleToothLog) as (_ & W1 & W2).
  - by_evaluation.
  - by_evaluation.
  - reflexivity.
  - reflexivity.
  - reflexivity.
  - reflexivity.
  - split; [rewrite W1 | rewrite W2]; reflexivity.
Defined.

Lemma tooth_log_primary_edge_witness :
  snd (loggerPrimaryISR exampleBitToothLogReady exampleToothLogSize 0 1 2 3 4 5 u32
         (triggerPri_DualWheel exampleIgnChannels exampleBitEngineCrank dualWheel60)
         RISING examplePins 5400 5402 dualWheelRunning exampleToothLog)
  = logCrankTeeth exampleBitToothLogReady exampleToothLogSize 0 1 2 3 4 5 u32
      [(examplePins, 5402, dualWheelRunning, 400)] exampleToothLog
  /\ snd (loggerPrimaryISR exampleBitToothLogReady exampleToothLogSize 0 1 2 3 4 5 u32
            (triggerPri_DualWheel exampleIgnChannels exampleBitEngineCrank dualWheel60)
            RISING examplePins 5100 5102 dualWheelRunning exampleToothLog)
     = exampleToothLog.
Proof.
  destruct (tooth_log_primary_edge exampleIgnChannels exampleBitEngineCrank dualWheel60
              exampleBitToothLogReady exampleToothLogSize 0 1 2 3 4 5 u32
              RISING examplePins 5400 5402 dualWheelRunning exampleToothLog
              eq_refl) as (W1 & _).
  destruct (tooth_log_primary_edge exampleIgnChannels exampleBitEngineCrank dualWheel60
              exampleBitToothLogReady exampleToothLogSize 0 1 2 3 4 5 u32
              RISING examplePins 5100 5102 dualWheelRunning exampleToothLog
              eq_refl) as (_ & W2 & _).
  split.
  - rewrite W1; [reflexivity | reflexivity | by_evaluation].
  - apply W2; [by_evaluation | right; by_evaluation].
Defined.


Lemma triggerSetup_missingTooth_establishes_witness :
  (setupState (triggerSetup_missingTooth exampleMaxRpm missingTooth36_1
                 exampleMicrosPerSec exampleMicrosPerDeg1Rpm u16 u32 zeroState))
    #triggerActualTeeth = 35
  /\ (setupState (triggerSetup_missingTooth exampleMaxRpm missingTooth36_1
                    exampleMicrosPerSec exampleMicrosPerDeg1Rpm u16 u32 zeroState))
       #triggerToothAngle = 10.
Proof.
  destruct (triggerSetup_missingTooth_establishes exampleMaxRpm missingTooth36_1
              exampleMicrosPerSec exampleMicrosPerDeg1Rpm u16 u32 zeroState)
    as (W1 & W2 & _).
  - by_evaluation.
  - by_evaluation.
  - split; [rewrite W1 | rewrite W2]; reflexivity.
Defined.

Lemma first_cam_edges_after_setup_witness :
  (setupState (triggerSetup_missingTooth exampleMaxRpm missingTooth36_1
                 exampleMicrosPerSec exampleMicrosPerDeg1Rpm u16 u32 zeroState))
    #triggerSecFilterTime = 3333
  /\ (triggerSec_missingTooth missingTooth36_1
        (getCrankAngle_missingTooth 720 missingTooth36_1) 5000 5004
        (setupState (triggerSetup_missingTooth exampleMaxRpm missingTooth36_1
                       exampleMicrosPerSec exampleMicrosPerDeg1Rpm u16 u32 zeroState)))
       #secondaryToothCount = 0
  /\ (triggerThird_missingTooth missingTooth36_1
        (getCrankAngle_missingTooth 720 missingTooth36_1) 5000 5004
        (setupState (triggerSetup_missingTooth exampleMaxRpm missingTooth36_1
                       exampleMicrosPerSec exampleMicrosPerDeg1Rpm u16 u32 zeroState)))
       #thirdToothCount = 1.
Proof.
  destruct (first_cam_edges_after_setup exampleMaxRpm 720 missingTooth36_1
              exampleMicrosPerSec exampleMicrosPerDeg1Rpm u16 u32 5000 5004 zeroState)
    as (_ & W1 & _ & _ & _ & _ & W2 & _).
  - reflexivity.
  - reflexivity.
  - reflexivity.
  - by_evaluation.
  - by_evaluation.
  - split; [by_evaluation|]. split; [exact W1 | exact W2].
Defined.

Lemma exampleSamples_allInt : allInt [30; -10; 20; 20; 5].
Proof.
  intros i Hi.
  do 5 (destruct i as [|i]; [by_evaluation|]).
  simpl in Hi. lia.
Qed.

Lemma sort_array_sorts_witness :
  ascending (sort_array [30; -10; 20; 20; 5] 5) 5
  /\ Permutation (sort_array [30; -10; 20; 20; 5] 5) [30; -10; 20; 20; 5].
Proof.
  destruct (sort_array_sorts [30; -10; 20; 20; 5] 5 exampleSamples_allInt)
    as (W1 & W2 & _).
  - simpl. lia.
  - split; [exact W1 | exact W2].
Defined.

Lemma queue_holds_last_samples_witness :
  holdsLast (insertAll exampleSamples (newDataFilter exampleUninitialised 3))
            exampleSamples
  /\ size_ (insertAll exampleSamples (newDataFilter exampleUninitialised 3)) = 3.
Proof.
  apply (queue_holds_last_samples exampleUninitialised exampleSamples 3).
  - by_evaluation.
  - reflexivity.
Defined.

Lemma exampleFullFilter_bounds (i : nat) :
  (i < Z.to_nat (size_ exampleFullFilter))%nat ->
  0 <= arrayGet (data_ exampleFullFilter) i <= 200.
Proof.
  intro Hi.
  do 5 (destruct i as [|i]; [by_evaluation|]).
  change (Z.to_nat (size_ exampleFullFilter)) with 5%nat in Hi. lia.
Qed.

Lemma queue_median_full_witness :
  queue_median 1 exampleFullFilter = Some 100.
Proof.
  destruct (queue_median_full 1 0 200 exampleFullFilter) as (W & _).
  - reflexivity.
  - by_evaluation.
  - reflexivity.
  - by_evaluation.
  - by_evaluation.
  - by_evaluation.
  - by_evaluation.
  - exact exampleFullFilter_bounds.
  - rewrite W. reflexivity.
Defined.

Lemma queue_median_not_full_witness :
  queue_median 1 (insertAll [100; 90] (newDataFilter exampleUninitialised 5)) = Some 95
  /\ queue_median 1 (insertAll [] (newDataFilter exampleUninitialised 5)) = None.
Proof.
  split.
  - rewrite (queue_median_not_full exampleUninitialised [100; 90] 5 1).
    + reflexivity.
    + by_evaluation.
    + reflexivity.
    + by_evaluation.
    + intros x [<- | [<- | []]]; by_evaluation.
  - rewrite (queue_median_not_full exampleUninitialised [] 5 1).
    + reflexivity.
    + by_evaluation.
    + reflexivity.
    + by_evaluation.
    + intros x [].
Defined.
